(** * XBT <-> DDS converter: the container codec, the sidecar codec and the
      batch orchestrator of [xbt_dds_converter.py], embedded and verified.

    The embedding follows the methods of class [XBTDDSConverter]:
    [detect_file_type], [parse_xbt_header], [save_header_to_xml],
    [load_header_from_xml], [xbt_to_dds], [xbt_to_dds_batch], [dds_to_xbt],
    [check_conversion_requirements] and the two loops of [convert_batch];
    then [convert_single_file], [find_files_in_folder], and the methods
    behind the preview: [extract_dds_data], [parse_dds_header],
    [parse_dds_header_from_file], [has_mipmaps], [create_temp_dds] and
    [cleanup_temp_files].

    Conventions.
    - Python [bytes] is [list byte]; Python [str] is [string], read as the
      UTF-8 encoding of the text (the literals of the log messages are kept
      as they are in the source).
    - Python integers are [Z]; [bytes.find] answers [-1] when there is no
      occurrence, as in Python.
    - An exception is a value of [exn]; a method body is a computation of
      [M A = world -> world * result A], so that what was logged or written
      before a [raise] stays logged or written.
    - The file system is a finite map from paths to files, with the set of
      the directories.  A file carries the bytes a binary read returns and
      the element tree [ET.parse] builds from them ([None] when expat
      rejects the bytes).  Writing and copying are modelled for paths that
      can be written; failures of the storage layer are not.
    - The widgets are not modelled: [log_message] appends to the log of the
      world, the two per-file progress updates are parameters that may
      raise, the other window calls are left out. *)

From Stdlib Require Import ZArith Lia Ascii String List DecimalString.
From Stdlib.Strings Require Import Byte.
From stdpp Require Import base option list sorting gmap strings.

Open Scope string_scope.
Open Scope list_scope.
Open Scope Z_scope.

(* ================================================================== *)
(** ** Exceptions and results *)

Inductive exn : Type :=
| ValueError (msg : string)          (* raised by the program and by bytes.fromhex *)
| StructError                        (* struct.error *)
| ExpatError                         (* xml.parsers.expat.ExpatError, from minidom *)
| ParseError                         (* xml.etree.ElementTree.ParseError *)
| FileNotFoundError (path : string)  (* open / shutil.copy2 on a missing file *)
| SameFileError (path : string)      (* shutil.copy2 of a file onto itself *)
| OtherError (msg : string).         (* anything a parameter of the model raises *)

(** [str(e)]: the text the handlers put in the log.  The texts of the
    library exceptions are the ones CPython prints, without positions. *)
Definition exn_str (e : exn) : string :=
  match e with
  | ValueError msg => msg
  | StructError => "unpack requires a buffer of 4 bytes"
  | ExpatError => "not well-formed (invalid token)"
  | ParseError => "syntax error"
  | FileNotFoundError p => "[Errno 2] No such file or directory: '" +:+ p +:+ "'"
  | SameFileError p => "'" +:+ p +:+ "' and '" +:+ p +:+ "' are the same file"
  | OtherError msg => msg
  end.

Inductive result (A : Type) : Type :=
| Ok (a : A)
| Raise (e : exn).
Arguments Ok {A} a.
Arguments Raise {A} e.

(* ================================================================== *)
(** ** Bytes *)

Abbreviation bytes := (list byte).

#[global] Instance byte_eq_dec : EqDecision byte := Byte.byte_eq_dec.

(** [b'TBX\x00'] and [b'DDS ']. *)
Definition TBX_MAGIC : bytes := [x54; x42; x58; x00].
Definition DDS_MAGIC : bytes := [x44; x44; x53; x20].

Fixpoint bytes_eqb (a b : bytes) : bool :=
  match a, b with
  | [], [] => true
  | x :: a', y :: b' => Byte.eqb x y && bytes_eqb a' b'
  | _, _ => false
  end.

(** [data.startswith(prefix)]. *)
Fixpoint startswith (data prefix : bytes) {struct prefix} : bool :=
  match prefix, data with
  | [], _ => true
  | p :: prefix', d :: data' => Byte.eqb p d && startswith data' prefix'
  | _ :: _, [] => false
  end.

(** [data.find(sub)]: the lowest index where [sub] occurs, [-1] if none.
    [find_from sub data i] searches [data], whose first byte has index [i]. *)
Fixpoint find_from (sub data : bytes) (i : Z) : Z :=
  if startswith data sub then i
  else match data with
       | [] => -1
       | _ :: rest => find_from sub rest (i + 1)
       end.

Definition bytes_find (data sub : bytes) : Z := find_from sub data 0.

(** Slices [data[:n]], [data[n:]] and [data[a:b]] for the indices the
    program uses (all non-negative). *)
Definition slice_to (data : bytes) (n : Z) : bytes := take (Z.to_nat n) data.
Definition slice_from (data : bytes) (n : Z) : bytes := drop (Z.to_nat n) data.
Definition slice (data : bytes) (a b : Z) : bytes :=
  take (Z.to_nat (b - a)) (drop (Z.to_nat a) data).

Definition len {A} (l : list A) : Z := Z.of_nat (length l).

Definition byte_val (b : byte) : Z := Z.of_N (Byte.to_N b).

(** [struct.unpack('<I', b)[0]]: a little-endian unsigned 32-bit integer;
    [struct.error] unless [b] has exactly four bytes. *)
Definition unpack_u32_le (b : bytes) : result Z :=
  match b with
  | [b0; b1; b2; b3] =>
      Ok (Z.lor (byte_val b0)
         (Z.lor (Z.shiftl (byte_val b1) 8)
         (Z.lor (Z.shiftl (byte_val b2) 16) (Z.shiftl (byte_val b3) 24))))
  | _ => Raise StructError
  end.

(* ================================================================== *)
(** ** Text *)

(** [str(n)] for an integer. *)
Definition str_int (n : Z) : string := NilEmpty.string_of_int (Z.to_int n).

Definition hex_digit (n : N) : ascii :=
  match n with
  | 0%N => "0" | 1%N => "1" | 2%N => "2" | 3%N => "3"
  | 4%N => "4" | 5%N => "5" | 6%N => "6" | 7%N => "7"
  | 8%N => "8" | 9%N => "9" | 10%N => "a" | 11%N => "b"
  | 12%N => "c" | 13%N => "d" | 14%N => "e" | _ => "f"
  end%char.

(** [bytes.hex()]: two lower-case digits per byte. *)
Fixpoint bytes_hex (data : bytes) : string :=
  match data with
  | [] => EmptyString
  | b :: rest =>
      String (hex_digit (Byte.to_N b / 16))
        (String (hex_digit (Byte.to_N b mod 16)) (bytes_hex rest))
  end.

(** The value of a hexadecimal digit, either case. *)
Definition hex_value (c : ascii) : option N :=
  let n := N_of_ascii c in
  if ((48 <=? n) && (n <=? 57))%N then Some (n - 48)%N
  else if ((97 <=? n) && (n <=? 102))%N then Some (n - 87)%N
  else if ((65 <=? n) && (n <=? 70))%N then Some (n - 55)%N
  else None.

(** C's [isspace] on ASCII, which [bytes.fromhex] skips between bytes. *)
Definition is_c_space (c : ascii) : bool :=
  let n := N_of_ascii c in
  (((9 <=? n) && (n <=? 13)) || (n =? 32))%N.

Definition byte_of_N (n : N) : byte :=
  match Byte.of_N n with Some b => b | None => x00 end.

Definition fromhex_error : exn :=
  ValueError "non-hexadecimal number found in fromhex() arg".

(** [bytes.fromhex(s)]: white space is skipped before a pair of digits,
    never inside one; anything else than a digit raises [ValueError]. *)
Fixpoint bytes_fromhex (s : string) : result bytes :=
  match s with
  | EmptyString => Ok []
  | String c rest =>
      if is_c_space c then bytes_fromhex rest
      else match hex_value c with
           | None => Raise fromhex_error
           | Some top =>
               match rest with
               | EmptyString => Raise fromhex_error
               | String d rest' =>
                   match hex_value d with
                   | None => Raise fromhex_error
                   | Some bot =>
                       match bytes_fromhex rest' with
                       | Ok bs => Ok (byte_of_N (top * 16 + bot) :: bs)
                       | Raise e => Raise e
                       end
                   end
               end
           end
  end.

(** What [bytes.fromhex] accepts, said without the scan: pairs of
    digits, with white space allowed before a pair and at the end. *)
Inductive hex_text : string -> bytes -> Prop :=
| hex_text_end : hex_text EmptyString []
| hex_text_space c s bs :
    is_c_space c = true -> hex_text s bs -> hex_text (String c s) bs
| hex_text_pair c d s bs top bot :
    is_c_space c = false ->
    hex_value c = Some top -> hex_value d = Some bot ->
    hex_text s bs ->
    hex_text (String c (String d s)) (byte_of_N (top * 16 + bot) :: bs).

Definition is_hex_char (c : ascii) : bool :=
  match hex_value c with Some _ => true | None => false end.

Definition all_chars (p : ascii -> bool) (s : string) : bool :=
  forallb p (list_ascii_of_string s).

(** The white-space characters of [str.strip()] ([str.isspace]), each as
    its UTF-8 bytes: U+0009..U+000D, U+001C..U+0020, U+0085, U+00A0,
    U+1680, U+2000..U+200A, U+2028, U+2029, U+202F, U+205F, U+3000. *)
Definition unicode_whitespace : list (list N) :=
  [ [9]; [10]; [11]; [12]; [13]; [28]; [29]; [30]; [31]; [32];
    [194; 133]; [194; 160]; [225; 154; 128];
    [226; 128; 128]; [226; 128; 129]; [226; 128; 130]; [226; 128; 131];
    [226; 128; 132]; [226; 128; 133]; [226; 128; 134]; [226; 128; 135];
    [226; 128; 136]; [226; 128; 137]; [226; 128; 138];
    [226; 128; 168]; [226; 128; 169]; [226; 128; 175];
    [226; 129; 159]; [227; 128; 128] ]%N.

Fixpoint code_prefix (w : list N) (l : list ascii) : option (list ascii) :=
  match w, l with
  | [], _ => Some l
  | n :: w', c :: l' => if (N_of_ascii c =? n)%N then code_prefix w' l' else None
  | _ :: _, [] => None
  end.

(** Drops one leading white-space character, if there is one. *)
Fixpoint drop_space (ws : list (list N)) (l : list ascii) : option (list ascii) :=
  match ws with
  | [] => None
  | w :: ws' =>
      match code_prefix w l with
      | Some l' => Some l'
      | None => drop_space ws' l
      end
  end.

Fixpoint lstrip_fuel (ws : list (list N)) (fuel : nat) (l : list ascii) : list ascii :=
  match fuel with
  | O => l
  | S fuel' =>
      match drop_space ws l with
      | Some l' => lstrip_fuel ws fuel' l'
      | None => l
      end
  end.

(** [s.strip()]: the trailing side is the leading side of the reversed
    text with the reversed encodings (UTF-8 is self-synchronising). *)
Definition str_strip (s : string) : string :=
  let l := list_ascii_of_string s in
  let l1 := lstrip_fuel unicode_whitespace (length l) l in
  let r := lstrip_fuel (map (@rev N) unicode_whitespace) (length l1) (rev l1) in
  string_of_list_ascii (rev r).

(** Truth value of a Python [str]: non-empty. *)
Definition str_truthy (s : string) : bool :=
  match s with EmptyString => false | _ => true end.

(** [data.decode('ascii', errors='ignore')]: bytes above 127 are dropped. *)
Fixpoint decode_ascii_ignore (data : bytes) : string :=
  match data with
  | [] => EmptyString
  | b :: rest =>
      if (Byte.to_N b <? 128)%N
      then String (ascii_of_byte b) (decode_ascii_ignore rest)
      else decode_ascii_ignore rest
  end.

(** The bytes written for a text by a file opened with [encoding='utf-8']. *)
Definition encode_utf8 (s : string) : bytes :=
  map byte_of_ascii (list_ascii_of_string s).

(** [s.lower().endswith(ext)] for a lower-case ASCII extension [ext]. *)
Definition ascii_lower (c : ascii) : ascii :=
  let n := N_of_ascii c in
  if ((65 <=? n) && (n <=? 90))%N then ascii_of_N (n + 32) else c.

Fixpoint rev_prefix_lower (ext l : list ascii) : bool :=
  match ext, l with
  | [], _ => true
  | e :: ext', c :: l' => Ascii.eqb e (ascii_lower c) && rev_prefix_lower ext' l'
  | _ :: _, [] => false
  end.

Definition lower_endswith (s ext : string) : bool :=
  rev_prefix_lower (rev (list_ascii_of_string ext)) (rev (list_ascii_of_string s)).

(* ================================================================== *)
(** ** Element trees

    What the program reads of an [xml.etree.ElementTree.Element]: its tag,
    its text and its children (attributes and tails are never read). *)

#[warnings="-register-all"] Inductive Element : Type :=
| Elem (tag : string) (text : option string) (children : list Element).

Definition tag (e : Element) : string := match e with Elem t _ _ => t end.
Definition text (e : Element) : option string := match e with Elem _ t _ => t end.
Definition children (e : Element) : list Element := match e with Elem _ _ c => c end.

(** [ET.SubElement(parent, name).text = t], as a value. *)
Definition leaf (name t : string) : Element := Elem name (Some t) [].

(** [e.find(name)] for a plain tag name: the first child with that tag. *)
Definition find (e : Element) (name : string) : option Element :=
  List.find (fun c => String.eqb (tag c) name) (children e).

(** A character expat accepts in character data.  The texts the program
    writes are ASCII, where the illegal characters are the control
    characters other than tab, line feed and carriage return. *)
Definition xml_char_ok (c : ascii) : bool :=
  let n := N_of_ascii c in
  ((32 <=? n) || (n =? 9) || (n =? 10) || (n =? 13))%N.

Definition xml_text_ok (s : string) : bool := all_chars xml_char_ok s.

Fixpoint texts_ok (e : Element) : bool :=
  match e with
  | Elem _ t c =>
      match t with Some s => xml_text_ok s | None => true end
      && forallb texts_ok c
  end.

(** End-of-line handling of an XML parser: CR LF and CR become LF. *)
Fixpoint eol_normalise (s : string) : string :=
  match s with
  | EmptyString => EmptyString
  | String c rest =>
      if (N_of_ascii c =? 13)%N then
        match rest with
        | String d rest' =>
            if (N_of_ascii d =? 10)%N then String d (eol_normalise rest')
            else String "010"%char (eol_normalise rest)
        | EmptyString => String "010"%char EmptyString
        end
      else String c (eol_normalise rest)
  end.

(** The document [minidom] holds for the serialisation of a tree: same
    elements, end of lines normalised, no node for an empty text. *)
Fixpoint dom_of (e : Element) : Element :=
  match e with
  | Elem t txt c =>
      Elem t
        match txt with
        | Some s => if str_truthy s then Some (eol_normalise s) else None
        | None => None
        end
        (map dom_of c)
  end.

(** [minidom.parseString(ET.tostring(root, encoding='unicode'))] for a tree
    whose tags are names: [ET.tostring] escapes the markup characters and
    checks nothing, expat rejects the text when a character is illegal. *)
Definition minidom_parse_tostring (root : Element) : result Element :=
  if texts_ok root then Ok (dom_of root) else Raise ExpatError.

(** Character data as minidom writes it. *)
Fixpoint escape_data (s : string) : string :=
  match s with
  | EmptyString => EmptyString
  | String c rest =>
      (if Ascii.eqb c "&" then "&amp;"
       else if Ascii.eqb c "<" then "&lt;"
       else if Ascii.eqb c "034" then "&quot;"
       else if Ascii.eqb c ">" then "&gt;"
       else String c EmptyString) +:+ escape_data rest
  end.

Definition newl : string := String "010"%char EmptyString.
Definition quote : string := String "034"%char EmptyString.

Fixpoint indent (depth : nat) : string :=
  match depth with O => EmptyString | S d => "  " +:+ indent d end.

Fixpoint concat_str (l : list string) : string :=
  match l with [] => EmptyString | s :: l' => s +:+ concat_str l' end.

(** [Element.writexml] with [addindent="  "] and [newl="\n"]. *)
Fixpoint writexml (depth : nat) (e : Element) : string :=
  match e with
  | Elem t txt c =>
      indent depth +:+ "<" +:+ t +:+
      match txt, c with
      | None, [] => "/>" +:+ newl
      | Some s, [] => ">" +:+ escape_data s +:+ "</" +:+ t +:+ ">" +:+ newl
      | _, _ =>
          ">" +:+ newl +:+
          match txt with
          | Some s => escape_data (indent (S depth) +:+ s +:+ newl)
          | None => EmptyString
          end +:+
          concat_str (map (writexml (S depth)) c) +:+
          indent depth +:+ "</" +:+ t +:+ ">" +:+ newl
      end
  end.

(** [dom.toprettyxml(indent="  ")]. *)
Definition toprettyxml (dom : Element) : string :=
  "<?xml version=" +:+ quote +:+ "1.0" +:+ quote +:+ " ?>" +:+ newl +:+ writexml 0 dom.

(** The tree [ET.parse] builds from the pretty-printed document: the
    indentation is the text of the elements that have children. *)
Fixpoint etree_of_pretty (depth : nat) (e : Element) : Element :=
  match e with
  | Elem t txt c =>
      match c with
      | [] => Elem t txt []
      | _ =>
          Elem t
            (Some (newl +:+ indent (S depth) +:+
                   match txt with
                   | Some s => s +:+ newl +:+ indent (S depth)
                   | None => EmptyString
                   end))
            (map (etree_of_pretty (S depth)) c)
      end
  end.

(* ================================================================== *)
(** ** The world: files and log *)

Record file : Type := File {
  file_data : bytes;            (* what [open(p, 'rb').read()] returns *)
  file_xml : option Element     (* what [ET.parse(p).getroot()] returns *)
}.

Record world : Type := World {
  files : gmap string file;     (* the regular files *)
  dirs : gset string;           (* the directories the program asks about *)
  log : list string             (* the lines of the log widget *)
}.

Definition set_files (fs : gmap string file) (w : world) : world :=
  World fs (dirs w) (log w).

Definition add_log (msg : string) (w : world) : world :=
  World (files w) (dirs w) (log w ++ [msg]).

Definition M (A : Type) : Type := world -> world * result A.

Definition ret {A} (a : A) : M A := fun w => (w, Ok a).

Definition raise {A} (e : exn) : M A := fun w => (w, Raise e).

Definition bind {A B} (m : M A) (k : A -> M B) : M B :=
  fun w =>
    match m w with
    | (w', Ok a) => k a w'
    | (w', Raise e) => (w', Raise e)
    end.

Declare Scope py_scope.
Delimit Scope py_scope with py.
Notation "x <- m ;; k" := (bind m (fun x => k))
  (at level 100, m at next level, right associativity) : py_scope.
Notation "m ;; k" := (bind m (fun _ => k))
  (at level 100, right associativity) : py_scope.
Open Scope py_scope.

Definition lift {A} (r : result A) : M A := fun w => (w, r).

(** [try: m  except Exception as e: h e]. *)
Definition try_catch {A} (m : M A) (h : exn -> M A) : M A :=
  fun w =>
    match m w with
    | (w', Ok a) => (w', Ok a)
    | (w', Raise e) => h e w'
    end.

(** The same for a handler that logs [msg e] and returns [a]: the shape of
    the methods that never raise. *)
Definition try_except {A} (m : M A) (msg : exn -> string) (a : A) : world -> world * A :=
  fun w =>
    match m w with
    | (w', Ok x) => (w', x)
    | (w', Raise e) => (add_log (msg e) w', a)
    end.

(** A method that handles its own exceptions, called from a body. *)
Definition call {A} (f : world -> world * A) : M A :=
  fun w => let '(w', a) := f w in (w', Ok a).

(** [self.log_message(msg)]. *)
Definition log_message (msg : string) : M unit :=
  fun w => (add_log msg w, Ok tt).

(** [os.path.exists(path)]. *)
Definition os_path_exists (w : world) (path : string) : bool :=
  match files w !! path with
  | Some _ => true
  | None => bool_decide (path ∈ dirs w)
  end.

(** [os.makedirs(path)]. *)
Definition os_makedirs (path : string) : M unit :=
  fun w => (World (files w) ({[path]} ∪ dirs w) (log w), Ok tt).

Definition path_exists (path : string) : M bool :=
  fun w => (w, Ok (os_path_exists w path)).

(** [with open(path, 'rb') as f: f.read()]. *)
Definition read_binary (path : string) : M bytes :=
  fun w =>
    match files w !! path with
    | Some f => (w, Ok (file_data f))
    | None => (w, Raise (FileNotFoundError path))
    end.

(** [with open(path, 'wb') as f: f.write(data)].  The data the program
    writes this way is payload or container data, which is not XML. *)
Definition write_binary (path : string) (data : bytes) : M unit :=
  fun w => (set_files (<[path := File data None]> (files w)) w, Ok tt).

(** [with open(path, 'w', encoding='utf-8') as f: f.write(pretty_xml)]
    for the pretty-printed [dom]. *)
Definition write_pretty_xml (path : string) (dom : Element) : M unit :=
  fun w =>
    (set_files (<[path := File (encode_utf8 (toprettyxml dom))
                               (Some (etree_of_pretty 0 dom))]> (files w)) w,
     Ok tt).

(** [ET.parse(path).getroot()]. *)
Definition ET_parse (path : string) : M Element :=
  fun w =>
    match files w !! path with
    | Some f =>
        match file_xml f with
        | Some root => (w, Ok root)
        | None => (w, Raise ParseError)
        end
    | None => (w, Raise (FileNotFoundError path))
    end.

(** [shutil.copy2(src, dst)]. *)
Definition shutil_copy2 (src dst : string) : M unit :=
  fun w =>
    match files w !! src with
    | Some f =>
        if String.eqb src dst then (w, Raise (SameFileError src))
        else (set_files (<[dst := f]> (files w)) w, Ok tt)
    | None => (w, Raise (FileNotFoundError src))
    end.

(* ================================================================== *)
(** ** [os.path]

    The program runs on [ntpath] or on [posixpath]; it is embedded over
    the interface and the statements hold for both. *)

Class OsPath : Type := {
  os_path_basename : string -> string;
  os_path_splitext : string -> string * string;
  os_path_join : string -> string -> string;
  os_path_relpath : string -> string -> result string
}.

(** [posixpath], used to run the model on concrete paths. *)
Module posixpath.

Definition is_sep (c : ascii) : bool := Ascii.eqb c "/".
Definition is_dot (c : ascii) : bool := Ascii.eqb c ".".

(** The text after the last separator, scanning the reversed path. *)
Fixpoint rev_until_sep (l : list ascii) : list ascii :=
  match l with
  | [] => []
  | c :: l' => if is_sep c then [] else c :: rev_until_sep l'
  end.

Definition basename (p : string) : string :=
  string_of_list_ascii (rev (rev_until_sep (rev (list_ascii_of_string p)))).

(** [genericpath._splitext]: the extension starts at the last dot of the
    last component, leading dots of the component set aside.
    [split_rev acc l] walks the reversed path [l]; [acc] is what has
    been walked, in path order. *)
Fixpoint split_rev (acc l : list ascii) : option (list ascii * list ascii) :=
  match l with
  | [] => None
  | c :: l' =>
      if is_sep c then None
      else if is_dot c then
        if forallb is_dot (rev_until_sep l') then None
        else Some (rev l', c :: acc)
      else split_rev (c :: acc) l'
  end.

Definition splitext (p : string) : string * string :=
  match split_rev [] (rev (list_ascii_of_string p)) with
  | Some (root, ext) => (string_of_list_ascii root, string_of_list_ascii ext)
  | None => (p, EmptyString)
  end.

Definition join (a b : string) : string :=
  match b with
  | String c _ =>
      if is_sep c then b
      else match rev (list_ascii_of_string a) with
           | [] => b
           | d :: _ => if is_sep d then a +:+ b else a +:+ "/" +:+ b
           end
  | EmptyString =>
      match rev (list_ascii_of_string a) with
      | [] => b
      | d :: _ => if is_sep d then a else a +:+ "/"
      end
  end.

(** The components of [abspath(p)], the current directory being the
    root: split at the separators, [''] and ['.'] dropped, ['..']
    cancelling the component before it. *)
Fixpoint split_sep (cur : string) (l : list ascii) : list string :=
  match l with
  | [] => [cur]
  | c :: l' =>
      if is_sep c then cur :: split_sep EmptyString l'
      else split_sep (cur +:+ String c EmptyString) l'
  end.

Fixpoint norm_comps (stack : list string) (comps : list string) : list string :=
  match comps with
  | [] => rev stack
  | c :: comps' =>
      if String.eqb c EmptyString || String.eqb c "." then norm_comps stack comps'
      else if String.eqb c ".." then norm_comps (tail stack) comps'
      else norm_comps (c :: stack) comps'
  end.

Definition abs_comps (p : string) : list string :=
  norm_comps [] (split_sep EmptyString (list_ascii_of_string p)).

Fixpoint drop_common (a b : list string) : list string * list string :=
  match a, b with
  | x :: a', y :: b' => if String.eqb x y then drop_common a' b' else (a, b)
  | _, _ => (a, b)
  end.

Fixpoint join_comps (l : list string) : string :=
  match l with
  | [] => EmptyString
  | [c] => c
  | c :: l' => c +:+ "/" +:+ join_comps l'
  end.

Definition relpath (p start : string) : result string :=
  match p with
  | EmptyString => Raise (ValueError "no path specified")
  | _ =>
      let '(up, down) := drop_common (abs_comps start) (abs_comps p) in
      match map (fun _ => "..") up ++ down with
      | [] => Ok "."
      | rel => Ok (join_comps rel)
      end
  end.

End posixpath.

#[local] Instance posix_OsPath : OsPath := {|
  os_path_basename := posixpath.basename;
  os_path_splitext := posixpath.splitext;
  os_path_join := posixpath.join;
  os_path_relpath := posixpath.relpath
|}.

(* ================================================================== *)
(** ** DDS headers

    [parse_dds_header], a method that reads nothing of [self] nor of the
    file system. *)

(** [data.decode('ascii')]: [None] stands for [UnicodeDecodeError], which
    the only caller catches at once. *)
Fixpoint decode_ascii (data : bytes) : option string :=
  match data with
  | [] => Some EmptyString
  | b :: rest =>
      if (Byte.to_N b <? 128)%N
      then String (ascii_of_byte b) <$> decode_ascii rest
      else None
  end.

(** [s.strip(c)] for a one-character [c]. *)
Fixpoint lstrip_char (c : ascii) (l : list ascii) : list ascii :=
  match l with
  | [] => []
  | x :: l' => if Ascii.eqb x c then lstrip_char c l' else l
  end.

Definition str_strip_char (c : ascii) (s : string) : string :=
  string_of_list_ascii
    (rev (lstrip_char c (rev (lstrip_char c (list_ascii_of_string s))))).

(** [s.upper()] for an ASCII text (here the digits of [bytes.hex()]). *)
Definition ascii_upper (c : ascii) : ascii :=
  let n := N_of_ascii c in
  if ((97 <=? n) && (n <=? 122))%N then ascii_of_N (n - 32) else c.

Definition str_upper (s : string) : string :=
  string_of_list_ascii (map ascii_upper (list_ascii_of_string s)).

(** [x & mask] as a truth value. *)
Definition has_flag (x mask : Z) : bool := negb (Z.land x mask =? 0).

(** The dictionary [info] of [parse_dds_header], with its five keys. *)
Module DdsInfo.
Record t : Type := Make {
  width : Z;
  height : Z;
  format : string;
  mipmap_count : Z;
  size : Z
}.
End DdsInfo.

Definition result_bind {A B} (r : result A) (k : A -> result B) : result B :=
  match r with
  | Ok a => k a
  | Raise e => Raise e
  end.

(** The body of [parse_dds_header], inside its [try]. *)
Definition parse_dds_header_body (dds_data : bytes)
  : result (option DdsInfo.t * option string) :=
  if len dds_data <? 128 then Ok (None, Some "DDS data too small")
  else
    let magic := slice_to dds_data 4 in
    if negb (bytes_eqb magic DDS_MAGIC) then Ok (None, Some "Invalid DDS magic signature")
    else
      result_bind (unpack_u32_le (slice dds_data 4 8)) (fun size =>
      result_bind (unpack_u32_le (slice dds_data 8 12)) (fun flags =>
      result_bind (unpack_u32_le (slice dds_data 12 16)) (fun height =>
      result_bind (unpack_u32_le (slice dds_data 16 20)) (fun width =>
      result_bind (unpack_u32_le (slice dds_data 20 24)) (fun pitch_or_linear_size =>
      result_bind (unpack_u32_le (slice dds_data 24 28)) (fun depth =>
      result_bind (unpack_u32_le (slice dds_data 28 32)) (fun mipmap_count =>
      result_bind (unpack_u32_le (slice dds_data 76 80)) (fun pf_size =>
      result_bind (unpack_u32_le (slice dds_data 80 84)) (fun pf_flags =>
      let pf_fourcc := slice dds_data 84 88 in
      result_bind
        (if has_flag pf_flags 4 then
           match decode_ascii pf_fourcc with
           | Some s => Ok (str_strip_char zero s)
           | None => Ok ("FourCC: " +:+ str_upper (bytes_hex pf_fourcc))
           end
         else if has_flag pf_flags 64 then
           result_bind (unpack_u32_le (slice dds_data 88 92)) (fun rgb_bit_count =>
           Ok ("RGB " +:+ str_int rgb_bit_count +:+ "-bit"))
         else Ok "Unknown") (fun format_name =>
      Ok (Some (DdsInfo.Make width height format_name mipmap_count (len dds_data)),
          None))))))))))).

Definition parse_dds_header (dds_data : bytes) : option DdsInfo.t * option string :=
  match parse_dds_header_body dds_data with
  | Ok answer => answer
  | Raise e => (None, Some ("Error parsing DDS header: " +:+ exn_str e))
  end.

(* ================================================================== *)
(** ** Sample inputs

    The containers, documents and worlds on which the model is run. *)

(** The collaborators of a run without the re-encoding tool and with
    progress windows that do not raise. *)
Definition texconv_absent : M (option string) := ret None.
Definition texconv_unused : string -> string -> world -> world * option string :=
  fun _ _ w => (w, None).
Definition fallback_unused : string -> world -> world * option string :=
  fun _ w => (w, None).
Definition progress_shown : string -> Z -> Z -> result unit :=
  fun _ _ _ => Ok tt.


Definition empty_world : world := World ∅ ∅ [].

(** [photo.xbt]: the magic, 24 more header bytes, then a payload of the
    magic and 200 bytes. *)
Definition photo_header : bytes :=
  TBX_MAGIC ++ [x01; x00; x00; x00; x1c; x00; x00; x00; x02; x00; x00; x00] ++
  repeat xa5 12.
Definition photo_payload : bytes := DDS_MAGIC ++ repeat x7f 200.
Definition photo_xbt : bytes := photo_header ++ photo_payload.
Definition photo_world : world :=
  World {[ "photo.xbt" := File photo_xbt None ]} ∅ [].

(** The shortest container with both magics: eight bytes. *)
Definition tiny_xbt : bytes := TBX_MAGIC ++ DDS_MAGIC.
Definition tiny_world : world :=
  World {[ "tiny.xbt" := File tiny_xbt None ]} ∅ [].

(** Sixteen bytes without the wrapper magic, and sixteen bytes with it and
    no payload. *)
Definition unsigned_data : bytes := repeat x41 16.
Definition payloadless_xbt : bytes := TBX_MAGIC ++ repeat x00 12.

(** A header of sixteen bytes that holds the payload magic itself. *)
Definition header_with_magic : bytes := TBX_MAGIC ++ DDS_MAGIC ++ repeat x00 8.

(** A header of sixteen bytes without it. *)
Definition plain_header : bytes := TBX_MAGIC ++ repeat x00 12.

(** A header of thirty bytes whose bytes after offset 28 are a control
    byte and a NUL. *)
Definition control_header : bytes := TBX_MAGIC ++ repeat x00 24 ++ [x01; x00].

(** A document, with the bytes of its text. *)
Definition document (text_of_file : string) (root : Element) : file :=
  File (encode_utf8 text_of_file) (Some root).

(** Sidecars whose raw field is a blank, two bytes separated by a blank,
    and one under another root. *)
Definition blank_sidecar : file :=
  document "<XBTHeader><RawHeaderData> </RawHeaderData></XBTHeader>"
    (Elem "XBTHeader" None [leaf "RawHeaderData" " "]).
Definition spaced_sidecar : file :=
  document "<XBTHeader><RawHeaderData>54 42</RawHeaderData></XBTHeader>"
    (Elem "XBTHeader" None [leaf "RawHeaderData" "54 42"]).
Definition rooted_elsewhere : file :=
  document "<Header><RawHeaderData>54425800</RawHeaderData></Header>"
    (Elem "Header" None [leaf "RawHeaderData" "54425800"]).
Definition empty_sidecar : file :=
  document "<XBTHeader><RawHeaderData/></XBTHeader>"
    (Elem "XBTHeader" None [Elem "RawHeaderData" None []]).
Definition odd_sidecar : file :=
  document "<XBTHeader><RawHeaderData>544</RawHeaderData></XBTHeader>"
    (Elem "XBTHeader" None [leaf "RawHeaderData" "544"]).
Definition good_sidecar : file :=
  document "<XBTHeader><RawHeaderData>54425800</RawHeaderData></XBTHeader>"
    (Elem "XBTHeader" None [leaf "RawHeaderData" "54425800"]).

Definition small_payload : bytes := DDS_MAGIC ++ [x09].

(** A payload file beside each of these sidecars, and one without. *)
Definition payload_world (sidecar : file) : world :=
  World {[ "p.dds" := File small_payload None; "p.xml" := sidecar ]} ∅ [].
Definition lonely_payload_world : world :=
  World {[ "q.dds" := File small_payload None ]} ∅ [].

(** Two wrapped files of the same base name in different directories. *)
Definition first_xbt : bytes := plain_header ++ DDS_MAGIC ++ [x01].
Definition second_xbt : bytes := plain_header ++ DDS_MAGIC ++ [x02].
Definition not_a_payload_world : world :=
  World {[ "p.dds" := File unsigned_data None; "p.xml" := good_sidecar ]} ∅ [].

(** A root with three wrapped files and two payloads, one of them without
    its sidecar, and the walk that finds them. *)
Definition scenario_world : world :=
  World {[ "/in/a.xbt" := File first_xbt None;
           "/in/b.xbt" := File second_xbt None;
           "/in/c.xbt" := File photo_xbt None;
           "/in/p.dds" := File small_payload None;
           "/in/p.xml" := good_sidecar;
           "/in/q.dds" := File small_payload None ]} ∅ [].
Definition scenario_walk : string -> list string -> M (list string) :=
  fun _ _ => ret ["/in/a.xbt"; "/in/b.xbt"; "/in/c.xbt"; "/in/p.dds"; "/in/q.dds"].

(** The two of them to stage, and staged before. *)
Definition collision_world : world :=
  World {[ "/in/a/x.xbt" := File first_xbt None;
           "/in/b/x.xbt" := File second_xbt None ]} ∅ [].
Definition restaged_world : world :=
  World {[ "/in/a/x.xbt" := File first_xbt None;
           "/in/b/x.xbt" := File second_xbt None;
           "/tool/extracted_xbt_files/x.xbt" := File tiny_xbt None ]} ∅ [].

(** A payload of 192 bytes: the header of a texture of 512 by 256 in
    DXT5 with ten mipmaps, then sixty-four bytes; the container that
    wraps it; and both as files. *)
Definition texture_header : bytes :=
  DDS_MAGIC ++ [x7c; x00; x00; x00] ++ [x07; x10; x0a; x00] ++
  [x00; x01; x00; x00] ++ [x00; x02; x00; x00] ++ repeat x00 8 ++
  [x0a; x00; x00; x00] ++ repeat x00 44 ++ [x20; x00; x00; x00] ++
  [x04; x00; x00; x00] ++ [x44; x58; x54; x35] ++ repeat x00 40.
Definition texture_payload : bytes := texture_header ++ repeat xff 64.
Definition texture_xbt : bytes := plain_header ++ texture_payload.
Definition texture_world : world :=
  World {[ "t.xbt" := File texture_xbt None;
           "t.dds" := File texture_payload None ]} ∅ [].

(** A [mkstemp] that makes an empty file under [/tmp]. *)
Definition mkstemp_sample : string -> string -> M string :=
  fun suffix prefix w =>
    let temp_path := "/tmp/" +:+ prefix +:+ "k3x9" +:+ suffix in
    (set_files (<[temp_path := File [] None]> (files w)) w, Ok temp_path).

(** A walk of two directories. *)
Definition sample_walk : string -> list (string * list string * list string) :=
  fun _ => [ ("/in", ["sub"], ["b.XBT"; "a.dds"; "notes.txt"]);
             ("/in/sub", [], ["c.xbt"]) ].

(** A wrapped file and a payload with its sidecar, converted before. *)
Definition converted_before_world : world :=
  World {[ "/in/x.xbt" := File first_xbt None;
           "/in/p.dds" := File small_payload None;
           "/in/p.xml" := good_sidecar;
           "/tool/converted_dds_files/x.dds" := File small_payload None;
           "/tool/converted_dds_files/p.xbt" := File tiny_xbt None ]} ∅ [].

(* ================================================================== *)
(** ** The converter *)

(** The three counters of a batch run. *)
Record counters : Type := Counters {
  converted : Z;
  skipped : Z;
  errors : Z
}.

Definition count_converted (c : counters) : counters :=
  Counters (converted c + 1) (skipped c) (errors c).
Definition count_skipped (c : counters) : counters :=
  Counters (converted c) (skipped c + 1) (errors c).
Definition count_error (c : counters) : counters :=
  Counters (converted c) (skipped c) (errors c + 1).

(** One file counted: exactly one of the three counters is one more. *)
Definition counts_once (c c' : counters) : Prop :=
  c' = count_converted c \/ c' = count_skipped c \/ c' = count_error c.

(** A body that, when it returns, has counted the file once. *)
Definition counts_when_done (c : counters) (m : M counters) : Prop :=
  forall w w' c', m w = (w', Ok c') -> counts_once c c'.

(** [sep.join(l)] and [s * n]. *)
Fixpoint str_join (sep : string) (l : list string) : string :=
  match l with
  | [] => EmptyString
  | [x] => x
  | x :: l' => x +:+ sep +:+ str_join sep l'
  end.

Fixpoint str_repeat (s : string) (n : nat) : string :=
  match n with O => EmptyString | S n' => s +:+ str_repeat s n' end.

(** A read of the world that changes nothing. *)
Definition ask {A} (f : world -> A) : M A := fun w => (w, Ok (f w)).

Section Converter.

Set Default Proof Using "Type".

Context {os_path : OsPath}.

(** What the methods read of [self]: the settings of the window. *)
Variable conversion_type : string.      (* self.conversion_type.get() *)
Variable overwrite_existing : bool.     (* self.overwrite_existing.get() *)
Variable fix_dds_format : bool.         (* self.fix_dds_format.get() *)

(** [os.path.dirname(os.path.abspath(__file__))]. *)
Variable converter_root : string.

(** The collaborators outside the codec: the texconv tool and PIL behind
    the optional re-encoding of a payload, the directory walk, and the
    two progress windows. *)
Variable find_texconv : M (option string).
Variable fix_dds_format_with_texconv : string -> string -> world -> world * option string.
Variable fix_dds_format_fallback : string -> world -> world * option string.
Variable find_files_in_folder_with_progress : string -> list string -> M (list string).
Variable update_copy_progress : string -> Z -> Z -> result unit.
Variable update_convert_progress : string -> Z -> Z -> result unit.

Definition detect_file_type (filepath : string) : world -> world * string :=
  try_except
    (data <- read_binary filepath ;;
     let header := slice_to data 4 in
     if bytes_eqb header TBX_MAGIC then ret "xbt"
     else if bytes_eqb header DDS_MAGIC then ret "dds"
     else ret "unknown")
    (fun e => "❌ Error detecting file type: " +:+ exn_str e)
    "unknown".

Definition parse_xbt_header (data : bytes) : M (Z * Z * bytes) :=
  try_catch
    (if len data <? 16 then
       raise (ValueError "File too small to be valid XBT")
     else if negb (bytes_eqb (slice_to data 4) TBX_MAGIC) then
       raise (ValueError "Invalid XBT signature")
     else
       header_size <- lift (unpack_u32_le (slice data 8 12)) ;;
       let dds_start := bytes_find data DDS_MAGIC in
       if dds_start =? -1 then
         raise (ValueError "No DDS data found in XBT file")
       else
         log_message ("📊 XBT header size: " +:+ str_int header_size +:+ " bytes") ;;
         log_message ("📊 DDS data starts at offset: " +:+ str_int dds_start) ;;
         ret (header_size, dds_start, slice_to data dds_start))
    (fun e => raise (ValueError ("Error parsing XBT header: " +:+ exn_str e))).

(** The embedded path the source finds in a header: the bytes from
    offset 28 to the first NUL, when the header is longer than 28 bytes,
    the NUL is not the first of them and the decoded text is more than
    white space.  The decoding cannot raise, so the inner [try] of the
    source has nothing to catch. *)
Definition embedded_path_of (header_data : bytes) : option string :=
  if 28 <? len header_data then
    let path_data := slice_from header_data 28 in
    let null_pos := bytes_find path_data [x00] in
    if 0 <? null_pos then
      let embedded_path := decode_ascii_ignore (slice_to path_data null_pos) in
      if str_truthy (str_strip embedded_path) then Some embedded_path else None
    else None
  else None.

(** The [EmbeddedPath] element of the metadata and the line logged with
    it. *)
Definition embedded_path_field (header_data : bytes) : M (list Element) :=
  match embedded_path_of header_data with
  | Some embedded_path =>
      log_message ("📁 Found embedded path: " +:+ embedded_path) ;;
      ret [leaf "EmbeddedPath" embedded_path]
  | None => ret []
  end.

(** The headers whose sidecar expat accepts: an embedded path, if any,
    has no control character other than tab, line feed, carriage
    return. *)
Definition embedded_path_legal (header_data : bytes) : bool :=
  match embedded_path_of header_data with
  | Some embedded_path => xml_text_ok embedded_path
  | None => true
  end.

(** The children of [Metadata], in the order the source appends them. *)
Definition metadata_fields (header_data : bytes) : M (list Element) :=
  let base := [ leaf "HeaderSize" (str_int (len header_data));
                leaf "CreatedBy" "XBT-DDS Converter" ] in
  if 16 <=? len header_data then
    let signature := slice_to header_data 4 in
    unknown1 <- lift (unpack_u32_le (slice header_data 4 8)) ;;
    stored_header_size <- lift (unpack_u32_le (slice header_data 8 12)) ;;
    unknown2 <- lift (unpack_u32_le (slice header_data 12 16)) ;;
    let hash :=
      if 28 <=? len header_data
      then [ leaf "HashBytes" (bytes_hex (slice header_data 16 28)) ]
      else [] in
    path <- embedded_path_field header_data ;;
    ret (base ++
         [ leaf "Signature" (bytes_hex signature);
           leaf "Unknown1" (str_int unknown1);
           leaf "StoredHeaderSize" (str_int stored_header_size);
           leaf "Unknown2" (str_int unknown2) ] ++ hash ++ path)
  else ret base.

Definition header_tree (header_data : bytes) (fields : list Element) : Element :=
  Elem "XBTHeader" None
    [ Elem "Metadata" None fields;
      leaf "RawHeaderData" (bytes_hex header_data) ].

Definition save_header_to_xml (header_data : bytes) (xml_path : string)
  : world -> world * bool :=
  try_except
    (fields <- metadata_fields header_data ;;
     let root := header_tree header_data fields in
     dom <- lift (minidom_parse_tostring root) ;;
     write_pretty_xml xml_path dom ;;
     log_message ("💾 Header saved to XML: " +:+ os_path_basename xml_path) ;;
     ret true)
    (fun e => "❌ Error saving header to XML: " +:+ exn_str e)
    false.

(** [f"{x.text}"]: a missing text prints as [None]. *)
Definition text_str (e : Element) : string :=
  match text e with Some s => s | None => "None" end.

(** The lines logged from the metadata of a loaded document. *)
Definition log_metadata (root : Element) : M unit :=
  match find root "Metadata" with
  | Some metadata =>
      match find metadata "HeaderSize" with
      | Some header_size =>
          log_message ("📊 Loaded header size: " +:+ text_str header_size +:+ " bytes")
      | None => ret tt
      end ;;
      match find metadata "EmbeddedPath" with
      | Some embedded_path =>
          match text embedded_path with
          | Some s =>
              if str_truthy s
              then log_message ("📁 Embedded path: " +:+ s)
              else ret tt
          | None => ret tt
          end
      | None => ret tt
      end
  | None => ret tt
  end.

(** The text of the [RawHeaderData] child, [None] when the child is
    missing or has no text ([raw_data_elem is None or not
    raw_data_elem.text]). *)
Definition raw_header_text (root : Element) : option string :=
  match find root "RawHeaderData" with
  | Some raw_data_elem =>
      match text raw_data_elem with
      | Some s => if str_truthy s then Some s else None
      | None => None
      end
  | None => None
  end.

Definition load_header_from_xml (xml_path : string)
  : world -> world * option bytes :=
  try_except
    (present <- path_exists xml_path ;;
     if negb present then
       raise (ValueError ("XML header file not found: " +:+ xml_path))
     else
       root <- ET_parse xml_path ;;
       if negb (String.eqb (tag root) "XBTHeader") then
         raise (ValueError "Invalid XML header file format")
       else
         match raw_header_text root with
         | None => raise (ValueError "No raw header data found in XML")
         | Some s =>
             header_data <- lift (bytes_fromhex (str_strip s)) ;;
             log_metadata root ;;
             log_message ("📂 Header loaded from XML: " +:+ os_path_basename xml_path) ;;
             ret (Some header_data)
         end)
    (fun e => "❌ Error loading header from XML: " +:+ exn_str e)
    None.

Definition xbt_to_dds (input_path output_path : string) : world -> world * bool :=
  try_except
    (data <- read_binary input_path ;;
     parsed <- parse_xbt_header data ;;
     let '(header_size, dds_start, header_data) := parsed in
     let base_name := fst (os_path_splitext output_path) in
     let xml_path := base_name +:+ ".xml" in
     saved <- call (save_header_to_xml header_data xml_path) ;;
     if negb saved then raise (ValueError "Failed to save header to XML")
     else
       let dds_data := slice_from data dds_start in
       write_binary output_path dds_data ;;
       log_message "✅ Successfully converted XBT to DDS" ;;
       log_message ("📊 Removed " +:+ str_int dds_start +:+ " bytes of XBT header") ;;
       log_message ("📊 DDS file size: " +:+ str_int (len dds_data) +:+ " bytes") ;;
       log_message ("💾 Header saved as: " +:+ os_path_basename xml_path) ;;
       ret true)
    (fun e => "❌ Error converting XBT to DDS: " +:+ exn_str e)
    false.

Definition xbt_to_dds_batch (input_path output_path xml_output_path : string)
  : world -> world * bool :=
  try_except
    (data <- read_binary input_path ;;
     parsed <- parse_xbt_header data ;;
     let '(header_size, dds_start, header_data) := parsed in
     saved <- call (save_header_to_xml header_data xml_output_path) ;;
     if negb saved then raise (ValueError "Failed to save header to XML")
     else
       let dds_data := slice_from data dds_start in
       write_binary output_path dds_data ;;
       log_message "✅ Successfully converted XBT to DDS" ;;
       log_message ("📊 Removed " +:+ str_int dds_start +:+ " bytes of XBT header") ;;
       log_message ("📊 DDS file size: " +:+ str_int (len dds_data) +:+ " bytes") ;;
       log_message ("💾 Header saved as: " +:+ os_path_basename xml_output_path) ;;
       ret true)
    (fun e => "❌ Error converting XBT to DDS: " +:+ exn_str e)
    false.

(** The first block of [dds_to_xbt]: the path of the payload to wrap,
    the input itself unless the re-encoding is enabled and succeeds. *)
Definition actual_dds_path_of (input_path : string) : M string :=
  if fix_dds_format then
    log_message "🔧 DDS format fixing enabled" ;;
    texconv_path <- find_texconv ;;
    fixed_dds_path <-
      match texconv_path with
      | Some t =>
          if str_truthy t then
            log_message ("📦 Using texconv: " +:+ t) ;;
            call (fix_dds_format_with_texconv input_path t)
          else
            log_message "📦 texconv not found, using fallback mode" ;;
            call (fix_dds_format_fallback input_path)
      | None =>
          log_message "📦 texconv not found, using fallback mode" ;;
          call (fix_dds_format_fallback input_path)
      end ;;
    match fixed_dds_path with
    | Some fixed =>
        if str_truthy fixed then
          log_message "✅ Using fixed DDS file for conversion" ;;
          ret fixed
        else
          log_message "⚠️ DDS fixing failed, using original file" ;;
          ret input_path
    | None =>
        log_message "⚠️ DDS fixing failed, using original file" ;;
        ret input_path
    end
  else ret input_path.

(** [not header_data]: [None] or no byte at all. *)
Definition header_missing (header_data : option bytes) : bool :=
  match header_data with
  | Some (_ :: _) => false
  | _ => true
  end.

Definition dds_to_xbt (input_path output_path : string) : world -> world * bool :=
  try_except
    (actual_dds_path <- actual_dds_path_of input_path ;;
     dds_data <- read_binary actual_dds_path ;;
     if negb (startswith dds_data DDS_MAGIC) then
       raise (ValueError "Invalid DDS file - missing DDS signature")
     else
       let base_name := fst (os_path_splitext input_path) in
       let xml_path := base_name +:+ ".xml" in
       header_data <- call (load_header_from_xml xml_path) ;;
       if header_missing header_data then
         raise (ValueError ("Failed to load header from XML file: " +:+ xml_path))
       else
         let header_bytes := default [] header_data in
         write_binary output_path (header_bytes ++ dds_data) ;;
         log_message "✅ Successfully converted DDS to XBT" ;;
         log_message ("📂 Used header from: " +:+ os_path_basename xml_path) ;;
         log_message ("📊 Added " +:+ str_int (len header_bytes) +:+ " bytes XBT header") ;;
         log_message ("📊 Total XBT file size: " +:+
                      str_int (len header_bytes + len dds_data) +:+ " bytes") ;;
         ret true)
    (fun e => "❌ Error converting DDS to XBT: " +:+ exn_str e)
    false.

Definition check_conversion_requirements (w : world)
  (input_path current_conversion : string) : bool * string :=
  if String.eqb current_conversion "dds_to_xbt" then
    let base_name := fst (os_path_splitext input_path) in
    let xml_path := base_name +:+ ".xml" in
    if negb (os_path_exists w xml_path) then
      (false, "Required XML header file not found: " +:+ os_path_basename xml_path)
    else (true, EmptyString)
  else (true, EmptyString).

(* ---------------------------------------------------------------- *)
(** *** [convert_batch] *)

(** Where step 2 copies a wrapped file: the extraction directory and the
    base name of the file, nothing of the directory it comes from. *)
Definition staged_path (extract_dir xbt_file : string) : string :=
  os_path_join extract_dir (os_path_basename xbt_file).

(** The body of the copy loop of step 2, for the file of index [i]. *)
Definition stage_file (folder_path extract_dir : string) (total : Z)
  (i : Z) (xbt_file : string) : world -> world * unit :=
  try_except
    (let filename := os_path_basename xbt_file in
     let dest_path := os_path_join extract_dir filename in
     lift (update_copy_progress xbt_file i total) ;;
     present <- path_exists dest_path ;;
     if negb present || overwrite_existing then
       shutil_copy2 xbt_file dest_path ;;
       rel_path <- lift (os_path_relpath xbt_file folder_path) ;;
       log_message ("   📋 Copied: " +:+ rel_path)
     else
       log_message ("   ⚠️ Skipped existing: " +:+ filename))
    (fun e => "   ❌ Error copying " +:+ os_path_basename xbt_file +:+ ": " +:+ exn_str e)
    tt.

(** [for i, xbt_file in enumerate(xbt_files)], from index [i]. *)
Fixpoint stage_files (folder_path extract_dir : string) (total : Z)
  (i : Z) (xbt_files : list string) (w : world) : world :=
  match xbt_files with
  | [] => w
  | xbt_file :: rest =>
      let '(w', _) := stage_file folder_path extract_dir total i xbt_file w in
      stage_files folder_path extract_dir total (i + 1) rest w'
  end.

(** The direction for one file, [None] when the file is skipped as of
    unknown type. *)
Definition current_conversion_of (input_path : string) : M (option string) :=
  if String.eqb conversion_type "auto" then
    file_type <- call (detect_file_type input_path) ;;
    if String.eqb file_type "xbt" then ret (Some "xbt_to_dds")
    else if String.eqb file_type "dds" then ret (Some "dds_to_xbt")
    else
      log_message ("⚠️ Skipping unknown file type: " +:+ os_path_basename input_path) ;;
      ret None
  else ret (Some conversion_type).

(** The body of the conversion loop of step 3 for the file of index [i]:
    the counters after the file, [c] being the counters before it. *)
Definition convert_file_in_batch (convert_dir : string) (total : Z)
  (c : counters) (i : Z) (input_path : string) : world -> world * counters :=
  try_except
    (lift (update_convert_progress input_path i total) ;;
     resolved <- current_conversion_of input_path ;;
     match resolved with
     | None => ret (count_skipped c)
     | Some current_conversion =>
         checked <- ask (fun w => check_conversion_requirements w input_path current_conversion) ;;
         let '(can_convert, error_msg) := checked in
         if negb can_convert then
           log_message ("⚠️ Skipping " +:+ os_path_basename input_path +:+ ": " +:+ error_msg) ;;
           ret (count_skipped c)
         else
           let input_filename := os_path_basename input_path in
           let base_name := fst (os_path_splitext input_filename) in
           let to_dds := String.eqb current_conversion "xbt_to_dds" in
           let output_filename := base_name +:+ (if to_dds then ".dds" else ".xbt") in
           let xml_filename := base_name +:+ ".xml" in
           let output_path := os_path_join convert_dir output_filename in
           let xml_output_path := os_path_join convert_dir xml_filename in
           present <- path_exists output_path ;;
           if present && negb overwrite_existing then
             log_message ("⚠️ Skipping existing file: " +:+ output_filename) ;;
             ret (count_skipped c)
           else
             log_message ("🔄 Converting: " +:+ input_filename +:+ " → " +:+ output_filename) ;;
             success <-
               (if to_dds
                then call (xbt_to_dds_batch input_path output_path xml_output_path)
                else call (dds_to_xbt input_path output_path)) ;;
             if success then ret (count_converted c) else ret (count_error c)
     end)
    (fun e => "❌ Error processing " +:+ os_path_basename input_path +:+ ": " +:+ exn_str e)
    (count_error c).

(** [for i, input_path in enumerate(files_to_convert)], from index [i]. *)
Fixpoint convert_files (convert_dir : string) (total : Z) (c : counters)
  (i : Z) (files_to_convert : list string) (w : world) : world * counters :=
  match files_to_convert with
  | [] => (w, c)
  | input_path :: rest =>
      let '(w', c') := convert_file_in_batch convert_dir total c i input_path w in
      convert_files convert_dir total c' (i + 1) rest w'
  end.

Definition extensions_of_type : list string :=
  if String.eqb conversion_type "auto" then [".xbt"; ".dds"]
  else if String.eqb conversion_type "xbt_to_dds" then [".xbt"]
  else [".dds"].

(** [conversion_type in ["auto", other]]. *)
Definition type_in_auto_or (other : string) : bool :=
  String.eqb conversion_type "auto" || String.eqb conversion_type other.

(** [if not os.path.exists(d): os.makedirs(d)], with the line logged. *)
Definition ensure_dir (d created existing : string) : M unit :=
  present <- path_exists d ;;
  if negb present then
    os_makedirs d ;;
    log_message (created +:+ os_path_basename d)
  else
    log_message (existing +:+ os_path_basename d).

(** Step 2 of [convert_batch]: the copy of the wrapped files into the
    extraction directory. *)
Definition step2_extract (folder_path extract_dir : string)
  (xbt_files : list string) : M unit :=
  match xbt_files with
  | [] => ret tt
  | _ =>
      log_message (newl +:+ "🔍 Step 2: Extracting " +:+
                   str_int (len xbt_files) +:+ " XBT files...") ;;
      ensure_dir extract_dir "📁 Created extraction directory: "
                             "📁 Using existing extraction directory: " ;;
      call (fun w => (stage_files folder_path extract_dir (len xbt_files) 0 xbt_files w, tt)) ;;
      lift (update_copy_progress "Copy Complete!" (len xbt_files) (len xbt_files))
  end.

(** The files step 3 converts: the staged copies of the wrapped files,
    then the payload files, each kind when the direction asks for it. *)
Definition files_to_convert_of (extract_dir : string)
  (xbt_files dds_files : list string) : list string :=
  (if type_in_auto_or "xbt_to_dds"
   then map (fun f => os_path_join extract_dir (os_path_basename f)) xbt_files
   else []) ++
  (if type_in_auto_or "dds_to_xbt" then dds_files else []).

(** The summary at the end of [convert_batch] and its return value. *)
Definition log_summary (found xbt_files dds_files files_to_convert : list string)
  (extract_dir convert_dir : string) (c : counters) : M bool :=
  log_message (str_repeat "=" 60) ;;
  log_message "📊 Batch conversion summary:" ;;
  log_message ("   Files found: " +:+ str_int (len found) +:+ " (" +:+
               str_int (len xbt_files) +:+ " XBT, " +:+
               str_int (len dds_files) +:+ " DDS)") ;;
  log_message ("   Files processed: " +:+ str_int (len files_to_convert)) ;;
  log_message ("   ✅ Successfully converted: " +:+ str_int (converted c)) ;;
  log_message ("   ⚠️ Skipped: " +:+ str_int (skipped c)) ;;
  log_message ("   ❌ Errors: " +:+ str_int (errors c)) ;;
  match xbt_files with
  | [] => ret tt
  | _ =>
      rel <- lift (os_path_relpath extract_dir converter_root) ;;
      log_message ("   📁 Extracted XBT files: " +:+ rel)
  end ;;
  rel <- lift (os_path_relpath convert_dir converter_root) ;;
  log_message ("   📁 Converted files: " +:+ rel) ;;
  ret (errors c =? 0).

(** Step 3 of [convert_batch]: the conversions and the summary. *)
Definition step3_convert (found xbt_files dds_files : list string)
  (extract_dir convert_dir : string) : M bool :=
  log_message (newl +:+ "🔄 Step 3: Converting files...") ;;
  ensure_dir convert_dir "📁 Created conversion directory: "
                         "📁 Using existing conversion directory: " ;;
  let files_to_convert := files_to_convert_of extract_dir xbt_files dds_files in
  match files_to_convert with
  | [] =>
      log_message "❌ No files to convert after extraction" ;;
      ret false
  | _ =>
      c <- call (convert_files convert_dir (len files_to_convert)
                   (Counters 0 0 0) 0 files_to_convert) ;;
      lift (update_convert_progress "Conversion Complete!"
              (len files_to_convert) (len files_to_convert)) ;;
      log_summary found xbt_files dds_files files_to_convert extract_dir convert_dir c
  end.

Definition convert_batch (folder_path : string) : world -> world * bool :=
  try_except
    (log_message "🔍 Step 1: Scanning for files..." ;;
     let extensions := extensions_of_type in
     found <- find_files_in_folder_with_progress folder_path extensions ;;
     match found with
     | [] =>
         log_message ("❌ No files found with extensions: " +:+ str_join ", " extensions) ;;
         ret false
     | _ =>
         let xbt_files := List.filter (fun f => lower_endswith f ".xbt") found in
         let dds_files := List.filter (fun f => lower_endswith f ".dds") found in
         log_message ("📊 Found " +:+ str_int (len found) +:+ " total file(s):") ;;
         log_message ("   📦 XBT files: " +:+ str_int (len xbt_files)) ;;
         log_message ("   🖼️ DDS files: " +:+ str_int (len dds_files)) ;;
         let extract_dir := os_path_join converter_root "extracted_xbt_files" in
         let convert_dir := os_path_join converter_root "converted_dds_files" in
         step2_extract folder_path extract_dir xbt_files ;;
         step3_convert found xbt_files dds_files extract_dir convert_dir
     end)
    (fun e => "❌ Batch conversion error: " +:+ exn_str e)
    false.

(* ---------------------------------------------------------------- *)
(** *** The preview methods *)

(** [try: m  except Exception as e: return h e]: the shape of the methods
    that answer with a value and log nothing. *)
Definition try_return {A} (m : M A) (h : exn -> A) : world -> world * A :=
  fun w =>
    match m w with
    | (w', Ok x) => (w', x)
    | (w', Raise e) => (w', h e)
    end.

(** The pair [(dds_data, error)] the method returns, one of the two being
    [None]. *)
Definition extract_dds_data (filepath : string)
  : world -> world * (option bytes * option string) :=
  try_return
    (data <- read_binary filepath ;;
     if bytes_eqb (slice_to data 4) TBX_MAGIC then
       let dds_start := bytes_find data DDS_MAGIC in
       if dds_start =? -1 then ret (None, Some "No DDS data found in XBT file")
       else ret (Some (slice_from data dds_start), None)
     else if bytes_eqb (slice_to data 4) DDS_MAGIC then ret (Some data, None)
     else ret (None, Some "File is neither XBT nor DDS format"))
    (fun e => (None, Some ("Error reading file: " +:+ exn_str e))).

(** [f.read(128)] is the slice [data[:128]] of the bytes of the file. *)
Definition parse_dds_header_from_file (dds_path : string)
  : world -> world * (option DdsInfo.t * option string) :=
  try_return
    (data <- read_binary dds_path ;;
     let dds_data := slice_to data 128 in
     ret (parse_dds_header dds_data))
    (fun e => (None, Some ("Error reading DDS file: " +:+ exn_str e))).

(** [f.read(4)] then [f.read(28)]: [header] is [data[4:32]]. *)
Definition has_mipmaps (filepath : string) : world -> world * bool :=
  try_return
    (data <- read_binary filepath ;;
     let header := slice data 4 32 in
     flags <- lift (unpack_u32_le (slice header 4 8)) ;;
     mip_count <- lift (unpack_u32_le (slice header 24 28)) ;;
     ret (has_flag flags 131072 && (1 <? mip_count)))
    (fun _ => false).

(** [tempfile.mkstemp(suffix, prefix)]: creates a file and answers its
    path. *)
Variable tempfile_mkstemp : string -> string -> M string.

(** [self.temp_files] is passed in and returned with the answer. *)
Definition create_temp_dds (temp_files : list string) (filepath : string)
  : world -> world * (list string * option string) :=
  try_except
    (data <- read_binary filepath ;;
     let write_temp (dds_data : bytes) : M (list string * option string) :=
       temp_path <- tempfile_mkstemp ".dds" "preview_" ;;
       let temp_files' := temp_files ++ [temp_path] in
       write_binary temp_path dds_data ;;
       ret (temp_files', Some temp_path) in
     if bytes_eqb (slice_to data 4) TBX_MAGIC then
       let dds_start := bytes_find data DDS_MAGIC in
       if dds_start =? -1 then ret (temp_files, None)
       else write_temp (slice_from data dds_start)
     else if bytes_eqb (slice_to data 4) DDS_MAGIC then write_temp data
     else ret (temp_files, None))
    (fun e => "❌ Error creating temp DDS: " +:+ exn_str e)
    (temp_files, None).

(** [os.unlink(path)]; the text for a directory is the one of Linux. *)
Definition os_unlink (path : string) : M unit :=
  fun w =>
    match files w !! path with
    | Some _ => (set_files (delete path (files w)) w, Ok tt)
    | None =>
        if bool_decide (path ∈ dirs w)
        then (w, Raise (OtherError ("[Errno 21] Is a directory: '" +:+ path +:+ "'")))
        else (w, Raise (FileNotFoundError path))
    end.

(** The body of the loop of [cleanup_temp_files]. *)
Definition remove_temp_file (temp_path : string) : world -> world * unit :=
  try_except
    (present <- path_exists temp_path ;;
     if present then os_unlink temp_path else ret tt)
    (fun e => "⚠️ Could not delete temp file: " +:+ exn_str e)
    tt.

(** The world and [self.temp_files] after the method. *)
Definition cleanup_temp_files (temp_files : list string) (w : world)
  : world * list string :=
  (fold_left (fun w temp_path => fst (remove_temp_file temp_path w)) temp_files w, []).

(* ---------------------------------------------------------------- *)
(** *** [find_files_in_folder] *)

(** [os.walk(folder_path)]: the triples [(root, dirs, filenames)]. *)
Variable os_walk : string -> list (string * list string * list string).

(** The order of [sorted] on [str]: by code points, which is the order
    of the UTF-8 bytes. *)
Definition str_le (a b : string) : Prop := String.leb a b = true.

#[local] Instance str_le_dec (a b : string) : Decision (str_le a b).
Proof. unfold str_le. apply _. Defined.

Definition sorted (l : list string) : list string := merge_sort str_le l.

(** [s.lower()] for an ASCII text. *)
Definition str_lower (s : string) : string :=
  string_of_list_ascii (map ascii_lower (list_ascii_of_string s)).

(** [any(filename.lower().endswith(ext.lower()) for ext in extensions)],
    for extensions of ASCII letters other than k (the lower-case form of
    the Kelvin sign): the program passes [.xbt] and [.dds]. *)
Definition has_extension (extensions : list string) (filename : string) : bool :=
  existsb (fun ext => lower_endswith filename (str_lower ext)) extensions.

Definition find_files_in_folder (folder_path : string) (extensions : list string)
  : list string :=
  let files :=
    flat_map
      (fun '(root, _, filenames) =>
         map (os_path_join root) (List.filter (has_extension extensions) filenames))
      (os_walk folder_path) in
  sorted files.

(* ---------------------------------------------------------------- *)
(** *** [convert_single_file] *)

Definition convert_single_file (input_path : string) : world -> world * bool :=
  try_except
    (conversion_type <-
       (if String.eqb conversion_type "auto" then
          file_type <- call (detect_file_type input_path) ;;
          if String.eqb file_type "xbt" then ret "xbt_to_dds"
          else if String.eqb file_type "dds" then ret "dds_to_xbt"
          else raise (ValueError
                 "Unable to detect file type. Please specify conversion direction manually.")
        else ret conversion_type) ;;
     log_message ("🚀 Starting conversion: " +:+ conversion_type) ;;
     log_message ("📂 Input file: " +:+ input_path) ;;
     let base_name := fst (os_path_splitext input_path) in
     let to_dds := String.eqb conversion_type "xbt_to_dds" in
     let output_path := base_name +:+ (if to_dds then ".dds" else ".xbt") in
     success <-
       (if to_dds
        then call (xbt_to_dds input_path output_path)
        else call (dds_to_xbt input_path output_path)) ;;
     (if success then log_message ("💾 Output file: " +:+ output_path) else ret tt) ;;
     ret success)
    (fun e => "❌ Single file conversion error: " +:+ exn_str e)
    false.

(* ---------------------------------------------------------------- *)
(** *** Footprints *)

(** A method stays within [R] when the world it leaves is related by [R]
    to the world it was given, whatever it answers or raises. *)
Definition within (R : relation world) {A} (m : world -> world * A) : Prop :=
  forall w, R w (fst (m w)).

(** The path [d] holds the same file, or none, in both worlds. *)
Definition same_file_at (d : string) : relation world :=
  fun w w' => files w' !! d = files w !! d.

(** Every directory is still there, and the new ones are among [made]. *)
Definition dirs_grow_by (made : gset string) : relation world :=
  fun w w' => dirs w ⊆ dirs w' /\ dirs w' ⊆ dirs w ∪ made.

(* ================================================================ *)
(** ** Properties of the library functions *)

Lemma bytes_eqb_eq (a b : bytes) : bytes_eqb a b = true <-> a = b.
Proof.
  revert b; induction a as [|x a IH]; intros [|y b]; simpl; try easy.
  rewrite andb_true_iff, IH. split.
  - intros [Hxy ->]. apply Byte.byte_dec_bl in Hxy. now subst.
  - intros [= -> ->]. split; [apply Byte.byte_dec_lb|]; reflexivity.
Qed.

Lemma bytes_eqb_refl (a : bytes) : bytes_eqb a a = true.
Proof. now apply bytes_eqb_eq. Qed.

Lemma startswith_app (p rest : bytes) : startswith (p ++ rest) p = true.
Proof.
  induction p as [|x p IH]; simpl; [reflexivity|].
  rewrite IH, andb_true_r. now apply Byte.byte_dec_lb.
Qed.

Lemma startswith_inv (data p : bytes) :
  startswith data p = true -> exists rest, data = p ++ rest.
Proof.
  revert data; induction p as [|x p IH]; intros data H; simpl in *.
  - now exists data.
  - destruct data as [|d data]; [discriminate|].
    apply andb_true_iff in H as [Hx Hp]. apply Byte.byte_dec_bl in Hx. subst d.
    destruct (IH _ Hp) as [rest ->]. now exists rest.
Qed.

Lemma startswith_iff (data p : bytes) :
  startswith data p = true <-> exists rest, data = p ++ rest.
Proof.
  split; [apply startswith_inv|]. intros [rest ->]. apply startswith_app.
Qed.

(** The index answered by a search is that of an occurrence, and no
    occurrence starts before it. *)
Lemma find_from_bounds (sub data : bytes) (i : Z) :
  0 <= i ->
  find_from sub data i = -1 \/
  (i <= find_from sub data i <= i + len data).
Proof.
  revert i; induction data as [|d data IH]; intros i Hi; simpl.
  - destruct (startswith [] sub); [right; unfold len; simpl; lia | now left].
  - destruct (startswith (d :: data) sub).
    + right. unfold len; simpl. lia.
    + destruct (IH (i + 1)) as [-> | H]; [lia | now left |].
      right. unfold len in *. simpl length. lia.
Qed.

Lemma find_from_occurrence (sub data : bytes) (i k : Z) :
  0 <= i -> find_from sub data i = k -> k <> -1 ->
  startswith (drop (Z.to_nat (k - i)) data) sub = true.
Proof.
  revert i; induction data as [|d data IH]; intros i Hi Hk Hne; simpl in Hk.
  - destruct (startswith [] sub) eqn:E; [|congruence].
    now rewrite drop_nil.
  - destruct (startswith (d :: data) sub) eqn:E.
    + subst k. now replace (i - i) with 0 by lia.
    + pose proof (find_from_bounds sub data (i + 1) ltac:(lia)) as [Hb|Hb];
        [congruence|].
      specialize (IH (i + 1) ltac:(lia) Hk Hne).
      replace (Z.to_nat (k - i)) with (S (Z.to_nat (k - (i + 1)))) by lia.
      exact IH.
Qed.

Lemma find_from_first (sub data : bytes) (i k : Z) (j : nat) :
  0 <= i -> find_from sub data i = k -> k <> -1 ->
  (Z.of_nat j < k - i) ->
  startswith (drop j data) sub = false.
Proof.
  revert i j; induction data as [|d data IH]; intros i j Hi Hk Hne Hj; simpl in Hk.
  - destruct (startswith [] sub) eqn:E; [lia | now rewrite drop_nil].
  - destruct (startswith (d :: data) sub) eqn:E; [lia|].
    destruct j as [|j]; [exact E|]. simpl.
    apply (IH (i + 1)); lia.
Qed.

Lemma find_from_none (sub data : bytes) (i : Z) (j : nat) :
  0 <= i -> find_from sub data i = -1 ->
  startswith (drop j data) sub = false.
Proof.
  revert i j; induction data as [|d data IH]; intros i j Hi Hk; simpl in Hk.
  - destruct (startswith [] sub) eqn:E; [lia | now rewrite drop_nil].
  - destruct (startswith (d :: data) sub) eqn:E; [lia|].
    destruct j as [|j]; [exact E|]. simpl.
    apply (IH (i + 1)); [lia | exact Hk].
Qed.

(** A container that starts with the wrapper magic has its payload magic,
    if any, at a positive offset: the header is never empty. *)
Lemma find_after_magic (data : bytes) :
  startswith data TBX_MAGIC = true ->
  bytes_find data DDS_MAGIC = -1 \/ 1 <= bytes_find data DDS_MAGIC <= len data.
Proof.
  intros H. apply startswith_inv in H as [rest ->].
  unfold bytes_find.
  change (find_from DDS_MAGIC (TBX_MAGIC ++ rest) 0)
    with (find_from DDS_MAGIC (x42 :: x58 :: x00 :: rest) (0 + 1)).
  change (len (TBX_MAGIC ++ rest)) with (len (x54 :: x42 :: x58 :: x00 :: rest)).
  pose proof (find_from_bounds DDS_MAGIC (x42 :: x58 :: x00 :: rest) (0 + 1)
                ltac:(lia)) as [Hb|Hb]; [now left|right].
  unfold len in *. simpl length in *. lia.
Qed.

(** A search in a header that has no occurrence of the payload magic,
    followed by a payload that starts with it, stops at the payload: no
    occurrence can straddle the boundary. *)
Lemma find_from_header_payload (header rest : bytes) (i : Z) :
  0 <= i ->
  find_from DDS_MAGIC header i = -1 ->
  find_from DDS_MAGIC (header ++ DDS_MAGIC ++ rest) i = i + len header.
Proof.
  revert i; induction header as [|a header IH]; intros i Hi Hnone.
  - change (find_from DDS_MAGIC ([] ++ DDS_MAGIC ++ rest) i) with i.
    unfold len; simpl. lia.
  - cbn [find_from] in Hnone.
    destruct (startswith (a :: header) DDS_MAGIC) eqn:E; [lia|].
    cbn [app find_from].
    assert (startswith (a :: header ++ DDS_MAGIC ++ rest) DDS_MAGIC = false) as ->.
    { destruct header as [|b [|c [|d header]]];
        cbn [startswith app DDS_MAGIC] in E |- *.
      - destruct (Byte.eqb x44 a); reflexivity.
      - destruct (Byte.eqb x44 a), (Byte.eqb x44 b); reflexivity.
      - destruct (Byte.eqb x44 a), (Byte.eqb x44 b), (Byte.eqb x53 c); reflexivity.
      - exact E. }
    rewrite IH by (lia || exact Hnone).
    unfold len. simpl length. lia.
Qed.

(** *** Hexadecimal text *)

Lemma hex_pair_value (b : byte) :
  is_c_space (hex_digit (Byte.to_N b / 16)) = false /\
  hex_value (hex_digit (Byte.to_N b / 16)) = Some (Byte.to_N b / 16)%N /\
  hex_value (hex_digit (Byte.to_N b mod 16)) = Some (Byte.to_N b mod 16)%N /\
  byte_of_N ((Byte.to_N b / 16) * 16 + Byte.to_N b mod 16) = b.
Proof. destruct b; repeat split; reflexivity. Qed.

(** Decoding undoes encoding. *)
Lemma fromhex_hex (data : bytes) : bytes_fromhex (bytes_hex data) = Ok data.
Proof.
  induction data as [|b data IH]; [reflexivity|].
  destruct (hex_pair_value b) as (Hs & Hhi & Hlo & Hb).
  cbn [bytes_hex bytes_fromhex]. rewrite Hs, Hhi, Hlo, IH, Hb. reflexivity.
Qed.

Lemma fromhex_sound (s : string) :
  forall bs, bytes_fromhex s = Ok bs -> hex_text s bs.
Proof.
  assert (forall n s, (String.length s < n)%nat ->
           forall bs, bytes_fromhex s = Ok bs -> hex_text s bs) as Hn.
  { induction n as [|n IH]; intros s0 Hlen bs H; [lia|].
    destruct s0 as [|c s0]; cbn [bytes_fromhex] in H.
    - injection H as <-. constructor.
    - cbn [String.length] in Hlen.
      destruct (is_c_space c) eqn:Hc.
      + apply hex_text_space; [exact Hc|]. apply IH; [lia | exact H].
      + destruct (hex_value c) as [top|] eqn:Htop; [|discriminate].
        destruct s0 as [|d s0]; [discriminate|].
        destruct (hex_value d) as [bot|] eqn:Hbot; [|discriminate].
        destruct (bytes_fromhex s0) as [bs0|] eqn:Hrest; [|discriminate].
        injection H as <-. cbn [String.length] in Hlen.
        eapply hex_text_pair; eauto. apply IH; [lia | exact Hrest]. }
  eapply Hn. apply Nat.lt_succ_diag_r.
Qed.

Lemma fromhex_complete (s : string) (bs : bytes) :
  hex_text s bs -> bytes_fromhex s = Ok bs.
Proof.
  induction 1 as [|c s bs Hc _ IH|c d s bs top bot Hc Htop Hbot _ IH].
  - reflexivity.
  - cbn [bytes_fromhex]. now rewrite Hc.
  - cbn [bytes_fromhex]. now rewrite Hc, Htop, Hbot, IH.
Qed.

Lemma fromhex_iff (s : string) (bs : bytes) :
  bytes_fromhex s = Ok bs <-> hex_text s bs.
Proof. split; [apply fromhex_sound | apply fromhex_complete]. Qed.

(** A failure of [bytes.fromhex] is always the same [ValueError]. *)
Lemma fromhex_raise (s : string) (e : exn) :
  bytes_fromhex s = Raise e -> e = fromhex_error.
Proof.
  assert (forall n s, (String.length s < n)%nat ->
           bytes_fromhex s = Raise e -> e = fromhex_error) as Hn.
  { induction n as [|n IH]; intros s0 Hlen H; [lia|].
    destruct s0 as [|c s0]; cbn [bytes_fromhex] in H; [discriminate|].
    cbn [String.length] in Hlen.
    destruct (is_c_space c); [apply (IH s0); [lia | exact H]|].
    destruct (hex_value c); [|now injection H].
    destruct s0 as [|d s0]; [now injection H|].
    destruct (hex_value d); [|now injection H].
    destruct (bytes_fromhex s0) eqn:Hrest; [discriminate|].
    injection H as <-. cbn [String.length] in Hlen.
    apply (IH s0); [lia | exact Hrest]. }
  eapply Hn. apply Nat.lt_succ_diag_r.
Qed.

(** *** Texts made of digits *)

Ltac by_cases_on_char c H :=
  destruct c as [[] [] [] [] [] [] [] []];
  vm_compute in H; try discriminate H; reflexivity.

Lemma hex_char_not_space_l (c : ascii) (l : list ascii) :
  is_hex_char c = true -> drop_space unicode_whitespace (c :: l) = None.
Proof. intros H. by_cases_on_char c H. Qed.

Lemma hex_char_not_space_r (c : ascii) (l : list ascii) :
  is_hex_char c = true ->
  drop_space (map (@rev N) unicode_whitespace) (c :: l) = None.
Proof. intros H. by_cases_on_char c H. Qed.

Lemma hex_char_xml_ok (c : ascii) : is_hex_char c = true -> xml_char_ok c = true.
Proof. intros H. by_cases_on_char c H. Qed.

Lemma hex_char_not_cr (c : ascii) :
  is_hex_char c = true -> (N_of_ascii c =? 13)%N = false.
Proof. intros H. by_cases_on_char c H. Qed.

Lemma lstrip_fuel_id (ws : list (list N)) (n : nat) (l : list ascii) :
  drop_space ws l = None -> lstrip_fuel ws n l = l.
Proof. intros H. destruct n as [|n]; cbn [lstrip_fuel]; now rewrite ?H. Qed.

Lemma str_strip_hex_chars (s : string) :
  all_chars is_hex_char s = true -> str_strip s = s.
Proof.
  unfold all_chars, str_strip. intros H.
  set (l := list_ascii_of_string s) in *.
  assert (lstrip_fuel unicode_whitespace (length l) l = l) as ->.
  { apply lstrip_fuel_id. destruct l as [|c l']; [reflexivity|].
    apply hex_char_not_space_l. cbn in H. now apply andb_true_iff in H as [? _]. }
  assert (forallb is_hex_char (rev l) = true) as Hrev.
  { rewrite forallb_forall in *. intros c Hc. apply H. now apply in_rev. }
  assert (lstrip_fuel (map (@rev N) unicode_whitespace) (length l) (rev l) = rev l) as ->.
  { apply lstrip_fuel_id. destruct (rev l) as [|c l']; [reflexivity|].
    apply hex_char_not_space_r. cbn in Hrev. now apply andb_true_iff in Hrev as [? _]. }
  rewrite rev_involutive. apply string_of_list_ascii_of_string.
Qed.

Lemma eol_normalise_hex_chars (s : string) :
  all_chars is_hex_char s = true -> eol_normalise s = s.
Proof.
  unfold all_chars. induction s as [|c s IH]; [reflexivity|].
  cbn [list_ascii_of_string forallb]. intros H.
  apply andb_true_iff in H as [Hc Hs].
  cbn [eol_normalise]. rewrite (hex_char_not_cr c Hc). now rewrite IH.
Qed.

Lemma xml_text_ok_hex_chars (s : string) :
  all_chars is_hex_char s = true -> xml_text_ok s = true.
Proof.
  unfold xml_text_ok, all_chars. rewrite !forallb_forall.
  intros H c Hc. apply hex_char_xml_ok. now apply H.
Qed.

Lemma bytes_hex_chars (data : bytes) :
  all_chars is_hex_char (bytes_hex data) = true.
Proof.
  unfold all_chars. induction data as [|b data IH]; [reflexivity|].
  cbn [bytes_hex list_ascii_of_string forallb]. rewrite IH.
  destruct b; reflexivity.
Qed.

Lemma bytes_hex_truthy (data : bytes) :
  str_truthy (bytes_hex data) = negb (bytes_eqb data []).
Proof. destruct data; reflexivity. Qed.

Lemma xml_text_ok_uint (d : Decimal.uint) :
  xml_text_ok (NilEmpty.string_of_uint d) = true.
Proof. induction d; cbn; try reflexivity; exact IHd. Qed.

Lemma xml_text_ok_str_int (n : Z) : xml_text_ok (str_int n) = true.
Proof.
  unfold str_int. destruct (Z.to_int n) as [d|d]; cbn [NilEmpty.string_of_int].
  - apply xml_text_ok_uint.
  - unfold xml_text_ok, all_chars. cbn [list_ascii_of_string forallb].
    apply (xml_text_ok_uint d).
Qed.

(** *** Slices of a header of at least sixteen bytes *)

Lemma unpack_u32_le_ok (data : bytes) (a : Z) :
  0 <= a -> a + 4 <= len data ->
  exists v, unpack_u32_le (slice data a (a + 4)) = Ok v.
Proof.
  intros Ha Hlen. unfold slice.
  replace (Z.to_nat (a + 4 - a)) with 4%nat by lia.
  assert (length (take 4 (drop (Z.to_nat a) data)) = 4%nat) as Hl.
  { rewrite length_take, length_drop. unfold len in Hlen. lia. }
  destruct (take 4 (drop (Z.to_nat a) data)) as [|b0 [|b1 [|b2 [|b3 [|]]]]];
    try discriminate Hl.
  eexists. reflexivity.
Qed.

(** *** Running the methods *)

Lemma startswith_take (data p : bytes) :
  startswith data p = true <-> take (length p) data = p.
Proof.
  split.
  - intros H. apply startswith_inv in H as [rest ->].
    now rewrite take_app_length.
  - intros H. apply startswith_iff. exists (drop (length p) data).
    transitivity (take (length p) data ++ drop (length p) data);
      [symmetry; apply take_drop | now rewrite H].
Qed.

Lemma magic_slice (data : bytes) :
  bytes_eqb (slice_to data 4) TBX_MAGIC = startswith data TBX_MAGIC.
Proof.
  destruct (startswith data TBX_MAGIC) eqn:E.
  - apply bytes_eqb_eq. now apply startswith_take in E.
  - destruct (bytes_eqb (slice_to data 4) TBX_MAGIC) eqn:E'; [|reflexivity].
    apply bytes_eqb_eq in E'. apply (startswith_take data TBX_MAGIC) in E'.
    congruence.
Qed.

Lemma parse_xbt_header_run (data : bytes) (w : world) :
  parse_xbt_header data w =
    if len data <? 16 then
      (w, Raise (ValueError "Error parsing XBT header: File too small to be valid XBT"))
    else if negb (startswith data TBX_MAGIC) then
      (w, Raise (ValueError "Error parsing XBT header: Invalid XBT signature"))
    else
      match unpack_u32_le (slice data 8 12) with
      | Ok header_size =>
          if bytes_find data DDS_MAGIC =? -1 then
            (w, Raise (ValueError "Error parsing XBT header: No DDS data found in XBT file"))
          else
          (add_log ("📊 DDS data starts at offset: " +:+ str_int (bytes_find data DDS_MAGIC))
             (add_log ("📊 XBT header size: " +:+ str_int header_size +:+ " bytes") w),
           Ok (header_size, bytes_find data DDS_MAGIC,
               slice_to data (bytes_find data DDS_MAGIC)))
      | Raise e => (w, Raise (ValueError ("Error parsing XBT header: " +:+ exn_str e)))
      end.
Proof.
  unfold parse_xbt_header, try_catch. rewrite magic_slice.
  destruct (len data <? 16); [reflexivity|].
  destruct (startswith data TBX_MAGIC); [|reflexivity]. cbn [negb].
  unfold bind, lift.
  destruct (unpack_u32_le (slice data 8 12)) as [hs|e]; [|reflexivity].
  destruct (bytes_find data DDS_MAGIC =? -1); reflexivity.
Qed.

Lemma xml_text_ok_bytes_hex (data : bytes) : xml_text_ok (bytes_hex data) = true.
Proof. apply xml_text_ok_hex_chars, bytes_hex_chars. Qed.

Lemma metadata_fields_run (header_data : bytes) (w : world) :
  exists fields,
    metadata_fields header_data w =
      (match embedded_path_of header_data with
       | Some embedded_path => add_log ("📁 Found embedded path: " +:+ embedded_path) w
       | None => w
       end, Ok fields) /\
    forallb texts_ok fields = embedded_path_legal header_data.
Proof.
  unfold metadata_fields, embedded_path_legal, embedded_path_field.
  assert (embedded_path_of header_data <> None -> 16 <= len header_data) as Hlong.
  { unfold embedded_path_of. destruct (28 <? len header_data) eqn:E; [lia|congruence]. }
  destruct (16 <=? len header_data) eqn:Hlen.
  - apply Z.leb_le in Hlen.
    destruct (unpack_u32_le_ok header_data 4) as [u1 H1]; [lia|lia|].
    destruct (unpack_u32_le_ok header_data 8) as [u2 H2]; [lia|lia|].
    destruct (unpack_u32_le_ok header_data 12) as [u3 H3]; [lia|lia|].
    change (4 + 4) with 8 in H1. change (8 + 4) with 12 in H2.
    change (12 + 4) with 16 in H3.
    unfold bind, lift. rewrite H1, H2, H3.
    destruct (embedded_path_of header_data) as [p|]; eexists; (split; [reflexivity|]);
      rewrite !forallb_app; cbn [forallb texts_ok leaf andb];
      rewrite !xml_text_ok_str_int, !xml_text_ok_bytes_hex;
      destruct (28 <=? len header_data); cbn [forallb texts_ok leaf andb];
      rewrite ?xml_text_ok_bytes_hex; try destruct (xml_text_ok p); reflexivity.
  - destruct (embedded_path_of header_data) as [p|].
    + apply Z.leb_gt in Hlen. specialize (Hlong ltac:(discriminate)). lia.
    + eexists. split; [reflexivity|]. cbn [forallb texts_ok leaf andb].
      now rewrite xml_text_ok_str_int.
Qed.

Lemma tag_etree_of_pretty (depth : nat) (e : Element) :
  tag (etree_of_pretty depth e) = tag e.
Proof. destruct e as [t txt [|c cs]]; reflexivity. Qed.

Lemma tag_dom_of (e : Element) : tag (dom_of e) = tag e.
Proof. destruct e; reflexivity. Qed.

(** The document written for a header, as [ET.parse] reads it back: its
    root is [XBTHeader] and its raw field is the hexadecimal text of the
    header. *)
Lemma written_document (header_data : bytes) (fields : list Element) :
  let doc := etree_of_pretty 0 (dom_of (header_tree header_data fields)) in
  tag doc = "XBTHeader" /\
  raw_header_text doc =
    if str_truthy (bytes_hex header_data) then Some (bytes_hex header_data) else None.
Proof.
  cbn zeta. split; [reflexivity|].
  unfold raw_header_text, find, header_tree.
  cbn [dom_of map etree_of_pretty children List.find leaf].
  destruct (map dom_of fields); cbn [tag];
  change (String.eqb "Metadata" "RawHeaderData") with false; cbn iota;
  change (String.eqb "RawHeaderData" "RawHeaderData") with true; cbn iota;
  (destruct (str_truthy (bytes_hex header_data)) eqn:E; cbn [text];
   [rewrite eol_normalise_hex_chars by apply bytes_hex_chars; now rewrite E
   |reflexivity]).
Qed.

Lemma save_header_to_xml_ok (header_data : bytes) (xml_path : string) (w : world) :
  embedded_path_legal header_data = true ->
  exists w' data doc,
    save_header_to_xml header_data xml_path w = (w', true) /\
    files w' = <[xml_path := File data (Some doc)]> (files w) /\
    dirs w' = dirs w /\
    tag doc = "XBTHeader" /\
    raw_header_text doc =
      if str_truthy (bytes_hex header_data) then Some (bytes_hex header_data) else None.
Proof.
  intros Hlegal.
  destruct (metadata_fields_run header_data w) as (fields & Hrun & Hok).
  rewrite Hlegal in Hok.
  set (w1 := match embedded_path_of header_data with
             | Some p => add_log ("📁 Found embedded path: " +:+ p) w
             | None => w
             end) in Hrun.
  assert (files w1 = files w /\ dirs w1 = dirs w) as [Hf Hd]
    by (subst w1; destruct (embedded_path_of header_data); split; reflexivity).
  unfold save_header_to_xml, try_except, bind. rewrite Hrun.
  unfold lift, minidom_parse_tostring.
  assert (texts_ok (header_tree header_data fields) = true) as ->.
  { unfold header_tree. cbn [texts_ok forallb leaf]. rewrite Hok.
    now rewrite xml_text_ok_bytes_hex. }
  cbn [write_pretty_xml log_message ret].
  do 3 eexists. split; [reflexivity|].
  split; [|split; [|apply written_document]].
  - cbn [files add_log set_files]. now rewrite Hf.
  - cbn [dirs add_log set_files]. exact Hd.
Qed.

Lemma log_metadata_run (root : Element) (w : world) :
  exists w', log_metadata root w = (w', Ok tt) /\
             files w' = files w /\ dirs w' = dirs w.
Proof.
  unfold log_metadata, bind.
  destruct (find root "Metadata") as [metadata|]; [|now exists w].
  destruct (find metadata "HeaderSize");
    (destruct (find metadata "EmbeddedPath") as [ep|];
     [destruct (text ep) as [s|]; [destruct (str_truthy s)|]|]);
    cbn [log_message ret]; eexists; (split; [reflexivity|]); split; reflexivity.
Qed.

(** [load_header_from_xml] on a path that holds a document. *)
Lemma load_header_from_xml_run (xml_path : string) (w : world) (f : file) (root : Element) :
  files w !! xml_path = Some f -> file_xml f = Some root ->
  load_header_from_xml xml_path w =
    if negb (String.eqb (tag root) "XBTHeader") then
      (add_log "❌ Error loading header from XML: Invalid XML header file format" w, None)
    else
      match raw_header_text root with
      | None =>
          (add_log "❌ Error loading header from XML: No raw header data found in XML" w,
           None)
      | Some s =>
          match bytes_fromhex (str_strip s) with
          | Raise e =>
              (add_log ("❌ Error loading header from XML: " +:+ exn_str e) w, None)
          | Ok header_data =>
              (add_log ("📂 Header loaded from XML: " +:+ os_path_basename xml_path)
                 (fst (log_metadata root w)),
               Some header_data)
          end
      end.
Proof.
  intros Hf Hx.
  unfold load_header_from_xml, try_except, bind, path_exists, os_path_exists, ET_parse.
  rewrite Hf. cbn [negb]. rewrite Hf, Hx.
  destruct (String.eqb (tag root) "XBTHeader"); [|reflexivity]. cbn [negb].
  destruct (raw_header_text root) as [s|]; [|reflexivity].
  unfold lift. destruct (bytes_fromhex (str_strip s)) as [h|e]; [|reflexivity].
  destruct (log_metadata_run root w) as (w' & -> & _). reflexivity.
Qed.

Lemma load_header_from_xml_files (xml_path : string) (w : world) :
  files (fst (load_header_from_xml xml_path w)) = files w /\
  dirs (fst (load_header_from_xml xml_path w)) = dirs w.
Proof.
  unfold load_header_from_xml, try_except, bind, path_exists, os_path_exists, ET_parse.
  destruct (files w !! xml_path) as [f|] eqn:Hf; cbn [negb].
  - rewrite Hf. destruct (file_xml f) as [root|]; [|split; reflexivity].
    destruct (negb (String.eqb (tag root) "XBTHeader")); [split; reflexivity|].
    destruct (raw_header_text root) as [s|]; [|split; reflexivity].
    unfold lift. destruct (bytes_fromhex (str_strip s)) as [h|e]; [|split; reflexivity].
    destruct (log_metadata_run root w) as (w' & -> & ? & ?). now split.
  - destruct (bool_decide (xml_path ∈ dirs w)); cbn [negb]; rewrite ?Hf;
      split; reflexivity.
Qed.

(** [dds_to_xbt] once the path of the payload to wrap is known: [w1] is
    the world the optional re-encoding leaves. *)
Lemma dds_to_xbt_run (input_path output_path actual : string) (w w1 : world) :
  actual_dds_path_of input_path w = (w1, Ok actual) ->
  dds_to_xbt input_path output_path w =
    match files w1 !! actual with
    | None =>
        (add_log ("❌ Error converting DDS to XBT: " +:+
                  exn_str (FileNotFoundError actual)) w1, false)
    | Some payload =>
        let dds_data := file_data payload in
        if negb (startswith dds_data DDS_MAGIC) then
          (add_log "❌ Error converting DDS to XBT: Invalid DDS file - missing DDS signature"
             w1, false)
        else
          let xml_path := fst (os_path_splitext input_path) +:+ ".xml" in
          let loaded := load_header_from_xml xml_path w1 in
          if header_missing (snd loaded) then
            (add_log ("❌ Error converting DDS to XBT: Failed to load header from XML file: "
                      +:+ xml_path) (fst loaded), false)
          else
            let header_bytes := default [] (snd loaded) in
            (add_log ("📊 Total XBT file size: " +:+
                      str_int (len header_bytes + len dds_data) +:+ " bytes")
              (add_log ("📊 Added " +:+ str_int (len header_bytes) +:+ " bytes XBT header")
                (add_log ("📂 Used header from: " +:+ os_path_basename xml_path)
                  (add_log "✅ Successfully converted DDS to XBT"
                    (set_files (<[output_path := File (header_bytes ++ dds_data) None]>
                                  (files (fst loaded))) (fst loaded))))),
             true)
    end.
Proof.
  intros Hactual.
  unfold dds_to_xbt, try_except, bind. rewrite Hactual.
  unfold read_binary. destruct (files w1 !! actual) as [payload|]; [|reflexivity].
  cbn zeta. destruct (negb (startswith (file_data payload) DDS_MAGIC)); [reflexivity|].
  unfold call.
  destruct (load_header_from_xml (fst (os_path_splitext input_path) +:+ ".xml") w1)
    as [w2 header_data].
  cbn [fst snd]. destruct (header_missing header_data); reflexivity.
Qed.

Lemma actual_dds_path_unfixed (input_path : string) (w : world) :
  fix_dds_format = false -> actual_dds_path_of input_path w = (w, Ok input_path).
Proof. intros Hfix. unfold actual_dds_path_of. now rewrite Hfix. Qed.

(** The header cut from a container that starts with the wrapper magic
    is not empty. *)
Lemma header_not_empty (data : bytes) :
  startswith data TBX_MAGIC = true ->
  bytes_find data DDS_MAGIC <> -1 ->
  exists b header, slice_to data (bytes_find data DDS_MAGIC) = b :: header.
Proof.
  intros Hmagic Hfound.
  destruct (find_after_magic data Hmagic) as [?|Hk]; [contradiction|].
  apply startswith_inv in Hmagic as [rest ->]. unfold slice_to.
  destruct (Z.to_nat (bytes_find (TBX_MAGIC ++ rest) DDS_MAGIC)) as [|n] eqn:E; [lia|].
  cbn [TBX_MAGIC app take]. eauto.
Qed.

(** [xbt_to_dds_batch] on a file that holds a container with a payload
    and a header whose sidecar can be written. *)
Lemma xbt_to_dds_batch_ok (input_path output_path xml_output_path : string)
  (w : world) (f : file) :
  files w !! input_path = Some f ->
  16 <= len (file_data f) ->
  startswith (file_data f) TBX_MAGIC = true ->
  bytes_find (file_data f) DDS_MAGIC <> -1 ->
  embedded_path_legal (slice_to (file_data f) (bytes_find (file_data f) DDS_MAGIC)) = true ->
  exists w' data doc,
    xbt_to_dds_batch input_path output_path xml_output_path w = (w', true) /\
    files w' =
      <[output_path := File (slice_from (file_data f) (bytes_find (file_data f) DDS_MAGIC)) None]>
        (<[xml_output_path := File data (Some doc)]> (files w)) /\
    dirs w' = dirs w /\
    tag doc = "XBTHeader" /\
    raw_header_text doc =
      Some (bytes_hex (slice_to (file_data f) (bytes_find (file_data f) DDS_MAGIC))).
Proof.
  intros Hf Hlen Hmagic Hfound Hlegal.
  set (X := file_data f) in *. set (k := bytes_find X DDS_MAGIC) in *.
  destruct (unpack_u32_le_ok X 8) as [hs Hhs]; [lia|lia|]. change (8 + 4) with 12 in Hhs.
  unfold xbt_to_dds_batch, try_except, bind, read_binary. rewrite Hf. fold X.
  rewrite parse_xbt_header_run.
  replace (len X <? 16) with false by (symmetry; apply Z.ltb_ge; lia).
  rewrite Hmagic, Hhs. cbn [negb]. fold k.
  replace (k =? -1) with false by (symmetry; now apply Z.eqb_neq).
  unfold call.
  match goal with |- context [save_header_to_xml ?h ?p ?w0] =>
    destruct (save_header_to_xml_ok h p w0 Hlegal)
      as (w2 & data & doc & Hsave & Hfiles & Hdirs & Htag & Hraw)
  end.
  rewrite Hsave. cbn [negb write_binary log_message ret].
  eexists; exists data, doc. split; [reflexivity|].
  split; [|split; [|split]].
  - cbn [files add_log set_files]. now rewrite Hfiles.
  - cbn [dirs add_log set_files]. exact Hdirs.
  - exact Htag.
  - rewrite Hraw.
    destruct (header_not_empty X Hmagic Hfound) as (b & header & Hh).
    fold k in Hh. rewrite Hh. reflexivity.
Qed.

Lemma xbt_to_dds_as_batch (input_path output_path : string) (w : world) :
  xbt_to_dds input_path output_path w =
  xbt_to_dds_batch input_path output_path
    (fst (os_path_splitext output_path) +:+ ".xml") w.
Proof. reflexivity. Qed.

(* ================================================================ *)
(** ** The container codec *)

(** C1 (amended).  Round trip, with the re-encoding of payloads
    disabled: when [input_path] holds a container of at least sixteen
    bytes that starts with the wrapper magic, contains the payload magic
    and whose embedded path, if any, has no character that XML forbids,
    [xbt_to_dds] succeeds, and [dds_to_xbt] on the payload file and the
    sidecar it wrote succeeds and writes the container back, byte for
    byte.  The sidecar path must differ from the payload path. *)
Theorem round_trip_of_split_and_join
  (input_path output_path rejoined_path : string) (w : world) (f : file) :
  fix_dds_format = false ->
  files w !! input_path = Some f ->
  16 <= len (file_data f) ->
  startswith (file_data f) TBX_MAGIC = true ->
  bytes_find (file_data f) DDS_MAGIC <> -1 ->
  embedded_path_legal
    (slice_to (file_data f) (bytes_find (file_data f) DDS_MAGIC)) = true ->
  fst (os_path_splitext output_path) +:+ ".xml" <> output_path ->
  let split := xbt_to_dds input_path output_path w in
  let joined := dds_to_xbt output_path rejoined_path (fst split) in
  snd split = true /\
  snd joined = true /\
  file_data <$> (files (fst joined) !! rejoined_path) = Some (file_data f).
Proof.
  intros Hfix Hf Hlen Hmagic Hfound Hlegal Hpaths. cbn zeta.
  rewrite xbt_to_dds_as_batch.
  set (xml_path := fst (os_path_splitext output_path) +:+ ".xml") in *.
  destruct (xbt_to_dds_batch_ok input_path output_path xml_path w f
              Hf Hlen Hmagic Hfound Hlegal)
    as (w1 & data & doc & Hsplit & Hfiles & _ & Htag & Hraw).
  rewrite Hsplit. cbn [fst snd]. split; [reflexivity|].
  set (X := file_data f) in *. set (k := bytes_find X DDS_MAGIC) in *.
  rewrite (dds_to_xbt_run output_path rejoined_path output_path w1 w1)
    by now apply actual_dds_path_unfixed.
  assert (files w1 !! output_path = Some (File (slice_from X k) None)) as Hout
    by (rewrite Hfiles; apply lookup_insert_eq).
  assert (files w1 !! xml_path = Some (File data (Some doc))) as Hxml
    by (rewrite Hfiles, lookup_insert_ne by congruence; apply lookup_insert_eq).
  rewrite Hout. cbn [file_data]. cbn zeta. fold xml_path.
  assert (startswith (slice_from X k) DDS_MAGIC = true) as ->.
  { unfold slice_from. replace k with (k - 0) by lia.
    apply (find_from_occurrence DDS_MAGIC X 0 k); [lia|reflexivity|exact Hfound]. }
  cbn [negb].
  rewrite (load_header_from_xml_run xml_path w1 _ doc Hxml eq_refl).
  rewrite Htag, Hraw. change (negb ("XBTHeader" =? "XBTHeader")%string) with false.
  cbn iota.
  rewrite str_strip_hex_chars by apply bytes_hex_chars. rewrite fromhex_hex.
  cbn [fst snd].
  destruct (header_not_empty X Hmagic Hfound) as (b & header & Hh). fold k in Hh.
  rewrite Hh. cbn [header_missing default]. cbn [fst snd]. split; [reflexivity|].
  cbn [files add_log set_files]. rewrite lookup_insert_eq. cbn [fmap option_fmap option_map file_data].
  rewrite <- Hh. unfold slice_to, slice_from, id. now rewrite take_drop.
Qed.

(** C3 (amended).  Header boundary: for a container built as a header of
    [N >= 16] bytes that starts with the wrapper magic and holds no
    occurrence of the payload magic, followed by a payload that starts
    with the payload magic, [parse_xbt_header] answers the offset [N] and
    the [N] bytes of the header.  In general the offset it answers is
    that of the first occurrence of the payload magic and the header is
    the slice before it. *)
Theorem header_boundary (header payload_rest data : bytes) (w : world) :
  (16 <= len header ->
   startswith header TBX_MAGIC = true ->
   bytes_find header DDS_MAGIC = -1 ->
   exists w' header_size,
     parse_xbt_header (header ++ DDS_MAGIC ++ payload_rest) w =
       (w', Ok (header_size, len header, header))) /\
  (forall w' header_size dds_start header_data,
     parse_xbt_header data w = (w', Ok (header_size, dds_start, header_data)) ->
     0 <= dds_start /\
     header_data = slice_to data dds_start /\
     startswith (slice_from data dds_start) DDS_MAGIC = true /\
     forall j : nat, Z.of_nat j < dds_start ->
       startswith (drop j data) DDS_MAGIC = false).
Proof.
  split.
  - intros Hlen Hmagic Hnone.
    set (X := header ++ DDS_MAGIC ++ payload_rest).
    assert (bytes_find X DDS_MAGIC = len header) as Hk.
    { unfold bytes_find, X. rewrite find_from_header_payload; [lia|lia|exact Hnone]. }
    assert (len X = len header + 4 + len payload_rest) as HlenX.
    { unfold X, len. rewrite !length_app. cbn [length DDS_MAGIC]. lia. }
    destruct (unpack_u32_le_ok X 8) as [hs Hhs]; [lia|unfold len in *; lia|].
    change (8 + 4) with 12 in Hhs.
    rewrite parse_xbt_header_run.
    replace (len X <? 16) with false by (symmetry; apply Z.ltb_ge; unfold len in *; lia).
    assert (startswith X TBX_MAGIC = true) as ->.
    { apply startswith_inv in Hmagic as [rest ->]. unfold X.
      rewrite <- app_assoc. apply startswith_app. }
    cbn [negb]. rewrite Hhs, Hk.
    replace (len header =? -1) with false by (symmetry; apply Z.eqb_neq; unfold len; lia).
    do 2 eexists. f_equal. f_equal. f_equal.
    unfold slice_to, X, len. rewrite Nat2Z.id. now rewrite take_app_length.
  - intros w' hs k h Hparse. rewrite parse_xbt_header_run in Hparse.
    destruct (len data <? 16); [discriminate|].
    destruct (negb (startswith data TBX_MAGIC)); [discriminate|].
    destruct (unpack_u32_le (slice data 8 12)); [|discriminate].
    destruct (bytes_find data DDS_MAGIC =? -1) eqn:Hk; [discriminate|].
    apply Z.eqb_neq in Hk. injection Hparse as _ _ <- <-.
    pose proof (find_from_bounds DDS_MAGIC data 0 ltac:(lia)) as [Hb|Hb];
      [unfold bytes_find in Hk; contradiction|].
    fold (bytes_find data DDS_MAGIC) in Hb.
    split; [lia|]. split; [reflexivity|]. split.
    + unfold slice_from.
      replace (bytes_find data DDS_MAGIC) with (bytes_find data DDS_MAGIC - 0) at 1 by lia.
      now apply (find_from_occurrence DDS_MAGIC data 0).
    + intros j Hj. apply (find_from_first DDS_MAGIC data 0 (bytes_find data DDS_MAGIC));
        [lia|reflexivity|exact Hk|lia].
Qed.

(** C6 (amended).  The outcomes of [parse_xbt_header]: an input shorter
    than sixteen bytes is rejected as too small, whatever it holds;
    a longer input is rejected for its signature when its first four
    bytes are not the wrapper magic, rejected for the missing payload
    when it has the wrapper magic and no payload magic, and accepted
    otherwise.  Every failure is a [ValueError] whose message starts
    with "Error parsing XBT header: ". *)
Theorem parse_xbt_header_outcomes (data : bytes) (w : world) :
  (len data < 16 ->
   parse_xbt_header data w =
     (w, Raise (ValueError "Error parsing XBT header: File too small to be valid XBT"))) /\
  (16 <= len data -> slice_to data 4 <> TBX_MAGIC ->
   parse_xbt_header data w =
     (w, Raise (ValueError "Error parsing XBT header: Invalid XBT signature"))) /\
  (16 <= len data -> slice_to data 4 = TBX_MAGIC ->
   bytes_find data DDS_MAGIC = -1 ->
   parse_xbt_header data w =
     (w, Raise (ValueError "Error parsing XBT header: No DDS data found in XBT file"))) /\
  (16 <= len data -> slice_to data 4 = TBX_MAGIC ->
   bytes_find data DDS_MAGIC <> -1 ->
   exists w' header_size,
     parse_xbt_header data w =
       (w', Ok (header_size, bytes_find data DDS_MAGIC,
                slice_to data (bytes_find data DDS_MAGIC))) /\
     files w' = files w).
Proof.
  rewrite parse_xbt_header_run, <- magic_slice.
  repeat split.
  - intros Hlen. now replace (len data <? 16) with true by (symmetry; apply Z.ltb_lt; lia).
  - intros Hlen Hmagic.
    replace (len data <? 16) with false by (symmetry; apply Z.ltb_ge; lia).
    destruct (bytes_eqb (slice_to data 4) TBX_MAGIC) eqn:E; [|reflexivity].
    now apply bytes_eqb_eq in E.
  - intros Hlen Hmagic Hnone.
    replace (len data <? 16) with false by (symmetry; apply Z.ltb_ge; lia).
    rewrite Hmagic, bytes_eqb_refl, Hnone. cbn [negb].
    destruct (unpack_u32_le_ok data 8) as [hs Hhs]; [lia|lia|].
    change (8 + 4) with 12 in Hhs. now rewrite Hhs.
  - intros Hlen Hmagic Hfound.
    replace (len data <? 16) with false by (symmetry; apply Z.ltb_ge; lia).
    rewrite Hmagic, bytes_eqb_refl. cbn [negb].
    destruct (unpack_u32_le_ok data 8) as [hs Hhs]; [lia|lia|].
    change (8 + 4) with 12 in Hhs. rewrite Hhs.
    replace (bytes_find data DDS_MAGIC =? -1) with false
      by (symmetry; now apply Z.eqb_neq).
    do 2 eexists. split; reflexivity.
Qed.

(** C4 (amended).  [dds_to_xbt], [w1] being the world and [actual] the
    payload path the optional re-encoding leaves (the world and the input
    path themselves when it is disabled): a payload that does not start
    with the payload magic fails with the missing-signature error and
    nothing is written; a payload that does, with a sidecar from which a
    header of at least one byte is loaded, succeeds and the output file
    is exactly the header bytes followed by the payload bytes; with a
    sidecar that cannot be loaded or that decodes to no byte at all, it
    fails and nothing is written. *)
Theorem dds_to_xbt_outcomes
  (input_path output_path actual : string) (w w1 : world) (payload : file) :
  actual_dds_path_of input_path w = (w1, Ok actual) ->
  files w1 !! actual = Some payload ->
  let xml_path := fst (os_path_splitext input_path) +:+ ".xml" in
  let loaded := snd (load_header_from_xml xml_path w1) in
  let joined := dds_to_xbt input_path output_path w in
  (startswith (file_data payload) DDS_MAGIC = false ->
   joined =
     (add_log "❌ Error converting DDS to XBT: Invalid DDS file - missing DDS signature" w1,
      false)) /\
  (startswith (file_data payload) DDS_MAGIC = true ->
   forall b header, loaded = Some (b :: header) ->
     snd joined = true /\
     files (fst joined) =
       <[output_path := File ((b :: header) ++ file_data payload) None]> (files w1)) /\
  (startswith (file_data payload) DDS_MAGIC = true ->
   loaded = None \/ loaded = Some [] ->
   snd joined = false /\ files (fst joined) = files w1).
Proof.
  intros Hactual Hpayload. cbn zeta.
  rewrite (dds_to_xbt_run _ _ _ _ _ Hactual), Hpayload. cbn zeta.
  pose proof (load_header_from_xml_files
                (fst (os_path_splitext input_path) +:+ ".xml") w1) as [Hfiles _].
  split; [|split].
  - now intros ->.
  - intros Hmagic b header Hloaded. rewrite Hmagic, Hloaded.
    cbn [negb header_missing default fst snd files add_log set_files].
    split; [reflexivity | now rewrite Hfiles].
  - intros Hmagic Hloaded. rewrite Hmagic.
    destruct Hloaded as [Hl | Hl]; rewrite Hl;
      cbn [negb header_missing fst snd files add_log]; (split; [reflexivity | exact Hfiles]).
Qed.

(* ================================================================ *)
(** ** The sidecar codec *)

Lemma raw_header_text_none (root : Element) :
  raw_header_text root = None <->
  (find root "RawHeaderData" = None \/
   exists raw_data_elem, find root "RawHeaderData" = Some raw_data_elem /\
     (text raw_data_elem = None \/ text raw_data_elem = Some EmptyString)).
Proof.
  unfold raw_header_text.
  destruct (find root "RawHeaderData") as [el|]; [|split; [now left | reflexivity]].
  destruct (text el) as [[|c s]|] eqn:Ht; cbn [str_truthy].
  - split; [intros _; right; exists el; split; [reflexivity | now right] | reflexivity].
  - split; [discriminate|].
    intros [Hnone | (el' & Hel & [Hnone | Hempty])]; [discriminate Hnone| |];
      injection Hel as <-; rewrite Ht in *; discriminate.
  - split; [intros _; right; exists el; split; [reflexivity | now left] | reflexivity].
Qed.

(** C5 (amended).  Reading a document whose root is [XBTHeader]: the
    bytes returned are a function of the text of [RawHeaderData] alone,
    whatever the metadata; the read fails with "No raw header data found
    in XML" when that child is missing or has no text; it fails with the
    [bytes.fromhex] error when the text, its surrounding white space
    stripped, is not a sequence of pairs of hexadecimal digits with
    white space allowed between pairs, and returns the decoded bytes when
    it is.  (An odd number of characters, or characters that are not
    digits, are accepted when they are such white space.) *)
Theorem load_header_from_xml_outcomes
  (xml_path : string) (w : world) (f : file) (root : Element) :
  files w !! xml_path = Some f ->
  file_xml f = Some root ->
  tag root = "XBTHeader" ->
  let loaded := load_header_from_xml xml_path w in
  snd loaded =
    match raw_header_text root with
    | Some s =>
        match bytes_fromhex (str_strip s) with
        | Ok header_data => Some header_data
        | Raise _ => None
        end
    | None => None
    end /\
  files (fst loaded) = files w /\
  ((find root "RawHeaderData" = None \/
    exists raw_data_elem, find root "RawHeaderData" = Some raw_data_elem /\
      (text raw_data_elem = None \/ text raw_data_elem = Some EmptyString)) ->
   loaded =
     (add_log "❌ Error loading header from XML: No raw header data found in XML" w,
      None)) /\
  (forall s, raw_header_text root = Some s ->
     (forall header_data, ~ hex_text (str_strip s) header_data) ->
     loaded =
       (add_log ("❌ Error loading header from XML: " +:+ exn_str fromhex_error) w,
        None)) /\
  (forall s header_data, raw_header_text root = Some s ->
     hex_text (str_strip s) header_data ->
     snd loaded = Some header_data).
Proof.
  intros Hf Hx Htag. cbn zeta.
  pose proof (load_header_from_xml_files xml_path w) as [Hfiles _].
  revert Hfiles. rewrite (load_header_from_xml_run xml_path w f root Hf Hx).
  rewrite Htag. change (negb ("XBTHeader" =? "XBTHeader")%string) with false.
  cbn iota. intros Hfiles.
  split; [|split; [exact Hfiles|split; [|split]]].
  - destruct (raw_header_text root) as [s|]; [|reflexivity].
    destruct (bytes_fromhex (str_strip s)); reflexivity.
  - intros Hnone. apply raw_header_text_none in Hnone. now rewrite Hnone.
  - intros s Hs Hbad. rewrite Hs.
    destruct (bytes_fromhex (str_strip s)) as [h|e] eqn:E.
    + apply fromhex_sound in E. now apply Hbad in E.
    + now rewrite (fromhex_raise _ _ E).
  - intros s h Hs Hgood. rewrite Hs. now rewrite (fromhex_complete _ _ Hgood).
Qed.

(** C10.  Reading a document whose root element is not named
    [XBTHeader] fails, whatever its [RawHeaderData] holds, and so does
    [dds_to_xbt] when the sidecar of its input is such a document: it
    returns [False] and writes no file ([w1] is the world the optional
    re-encoding of the payload leaves, [w] itself when it is disabled). *)
Theorem wrong_root_is_rejected
  (xml_path input_path output_path actual : string) (w w1 : world)
  (f : file) (root : Element) :
  files w !! xml_path = Some f ->
  file_xml f = Some root ->
  tag root <> "XBTHeader" ->
  load_header_from_xml xml_path w =
    (add_log "❌ Error loading header from XML: Invalid XML header file format" w, None) /\
  (xml_path = fst (os_path_splitext input_path) +:+ ".xml" ->
   actual_dds_path_of input_path w = (w1, Ok actual) ->
   files w1 !! xml_path = Some f ->
   snd (dds_to_xbt input_path output_path w) = false /\
   files (fst (dds_to_xbt input_path output_path w)) = files w1).
Proof.
  intros Hf Hx Htag.
  assert (negb (String.eqb (tag root) "XBTHeader") = true) as Hneq.
  { apply negb_true_iff. destruct (String.eqb_spec (tag root) "XBTHeader"); congruence. }
  split.
  - rewrite (load_header_from_xml_run xml_path w f root Hf Hx). now rewrite Hneq.
  - intros -> Hactual Hf1.
    rewrite (dds_to_xbt_run _ _ _ _ _ Hactual).
    destruct (files w1 !! actual) as [payload|]; [|split; reflexivity].
    cbn zeta. destruct (negb (startswith (file_data payload) DDS_MAGIC));
      [split; reflexivity|].
    rewrite (load_header_from_xml_run _ w1 f root Hf1 Hx). rewrite Hneq.
    split; reflexivity.
Qed.

(* ================================================================ *)
(** ** The batch orchestrator *)

Lemma detect_file_type_dds (input_path : string) (w : world) (f : file) :
  files w !! input_path = Some f ->
  slice_to (file_data f) 4 = DDS_MAGIC ->
  detect_file_type input_path w = (w, "dds").
Proof.
  intros Hf Hmagic. unfold detect_file_type, try_except, bind, read_binary.
  rewrite Hf, Hmagic. reflexivity.
Qed.

(** One turn of the loop for a file to be joined (the direction is
    [dds_to_xbt], or it is [auto] and the file starts with the payload
    magic) whose sidecar does not exist: [check_conversion_requirements]
    stops it before any join, one line is logged and the file is counted
    in [skipped]. *)
Lemma missing_sidecar_turn
  (convert_dir input_path : string) (total i : Z) (c : counters) (w : world) :
  update_convert_progress input_path i total = Ok tt ->
  (conversion_type = "dds_to_xbt" \/
   (conversion_type = "auto" /\
    exists f, files w !! input_path = Some f /\ slice_to (file_data f) 4 = DDS_MAGIC)) ->
  os_path_exists w (fst (os_path_splitext input_path) +:+ ".xml") = false ->
  let xml_path := fst (os_path_splitext input_path) +:+ ".xml" in
  check_conversion_requirements w input_path "dds_to_xbt" =
    (false, "Required XML header file not found: " +:+ os_path_basename xml_path) /\
  convert_file_in_batch convert_dir total c i input_path w =
    (add_log ("⚠️ Skipping " +:+ os_path_basename input_path +:+
              ": Required XML header file not found: " +:+ os_path_basename xml_path) w,
     Counters (converted c) (skipped c + 1) (errors c)).
Proof.
  intros Hprogress Hdirection Hmissing. cbn zeta.
  assert (check_conversion_requirements w input_path "dds_to_xbt" =
          (false, "Required XML header file not found: " +:+
                  os_path_basename (fst (os_path_splitext input_path) +:+ ".xml")))
    as Hcheck.
  { unfold check_conversion_requirements.
    change (String.eqb "dds_to_xbt" "dds_to_xbt") with true. cbn iota.
    now rewrite Hmissing. }
  split; [exact Hcheck|].
  unfold convert_file_in_batch, try_except, bind, lift. rewrite Hprogress.
  assert (current_conversion_of input_path w = (w, Ok (Some "dds_to_xbt"))) as ->.
  { unfold current_conversion_of.
    destruct Hdirection as [-> | (-> & f & Hf & Hmagic)].
    - reflexivity.
    - change (String.eqb "auto" "auto") with true. cbn iota.
      unfold bind, call. now rewrite (detect_file_type_dds input_path w f Hf Hmagic). }
  unfold ask. rewrite Hcheck. reflexivity.
Qed.

Lemma counts_ret (c c' : counters) : counts_once c c' -> counts_when_done c (ret c').
Proof. intros H w w' c'' [= _ <-]. exact H. Qed.

Lemma counts_bind {A} (c : counters) (m : M A) (k : A -> M counters) :
  (forall a, counts_when_done c (k a)) -> counts_when_done c (bind m k).
Proof.
  intros Hk w w' c' H. unfold bind in H.
  destruct (m w) as [w1 [a|e]]; [|discriminate]. now apply (Hk a w1 w').
Qed.

Lemma counts_try_except (c : counters) (m : M counters) (msg : exn -> string) (w : world) :
  counts_when_done c m ->
  counts_once c (snd (try_except m msg (count_error c) w)).
Proof.
  intros Hm. unfold try_except.
  destruct (m w) as [w1 [c'|e]] eqn:E; cbn [snd].
  - now apply (Hm w w1).
  - right; right; reflexivity.
Qed.

Lemma convert_file_counts_once
  (convert_dir input_path : string) (total i : Z) (c : counters) (w : world) :
  counts_once c (snd (convert_file_in_batch convert_dir total c i input_path w)).
Proof.
  unfold convert_file_in_batch. apply counts_try_except.
  apply counts_bind; intros _. apply counts_bind; intros [current_conversion|].
  - apply counts_bind; intros [[] error_msg]; cbn [negb].
    + apply counts_bind; intros present.
      destruct (present && negb overwrite_existing).
      * apply counts_bind; intros _. apply counts_ret. right; left; reflexivity.
      * apply counts_bind; intros _. apply counts_bind; intros [].
        -- apply counts_ret. left; reflexivity.
        -- apply counts_ret. right; right; reflexivity.
    + apply counts_bind; intros _. apply counts_ret. right; left; reflexivity.
  - apply counts_ret. right; left; reflexivity.
Qed.

Lemma convert_files_app (convert_dir : string) (total : Z)
  (before after : list string) (c : counters) (i : Z) (w : world) :
  convert_files convert_dir total c i (before ++ after) w =
  let '(w1, c1) := convert_files convert_dir total c i before w in
  convert_files convert_dir total c1 (i + len before) after w1.
Proof.
  revert c i w; induction before as [|p before IH]; intros c i w.
  - cbn. now rewrite Z.add_0_r.
  - cbn [app convert_files].
    destruct (convert_file_in_batch convert_dir total c i p w) as [w1 c1].
    rewrite IH. unfold len. cbn [length].
    replace (i + 1 + Z.of_nat (length before)) with (i + Z.of_nat (S (length before)))
      by lia.
    reflexivity.
Qed.

Lemma convert_files_total (convert_dir : string) (total : Z)
  (files_to_convert : list string) (c : counters) (i : Z) (w : world) :
  let c' := snd (convert_files convert_dir total c i files_to_convert w) in
  converted c' + skipped c' + errors c' =
    converted c + skipped c + errors c + len files_to_convert /\
  converted c <= converted c' /\ skipped c <= skipped c' /\ errors c <= errors c'.
Proof.
  cbn zeta. revert c i w; induction files_to_convert as [|p rest IH]; intros c i w.
  - cbn [convert_files snd]. unfold len. cbn [length]. lia.
  - cbn [convert_files].
    pose proof (convert_file_counts_once convert_dir p total i c w) as Hone.
    destruct (convert_file_in_batch convert_dir total c i p w) as [w1 c1].
    cbn [snd] in Hone. specialize (IH c1 (i + 1) w1).
    unfold len in *. cbn [length]. rewrite Nat2Z.inj_succ.
    destruct Hone as [-> | [-> | ->]]; cbn [converted skipped errors
      count_converted count_skipped count_error] in IH; lia.
Qed.

Lemma ensure_dir_run (d created existing : string) (w : world) :
  exists w', ensure_dir d created existing w = (w', Ok tt) /\
             files w' = files w /\ (forall x, In x (log w) -> In x (log w')).
Proof.
  unfold ensure_dir, bind, path_exists.
  destruct (os_path_exists w d); cbn [negb os_makedirs log_message];
    eexists; (split; [reflexivity|]); (split; [reflexivity|]);
    intros x Hx; cbn [log add_log]; apply in_or_app; now left.
Qed.

Ltac find_in_log :=
  cbn [log add_log];
  repeat (apply in_or_app; first [right; left; reflexivity | left]).

(** The summary is logged whatever the counters are, when
    [os.path.relpath] answers for the working directories: nothing but
    the log changes, and the answer is [errors == 0]. *)
Lemma log_summary_run
  (found xbt_files dds_files files_to_convert : list string)
  (extract_dir convert_dir : string) (c : counters) (w : world) :
  (xbt_files <> [] -> exists rel, os_path_relpath extract_dir converter_root = Ok rel) ->
  (exists rel, os_path_relpath convert_dir converter_root = Ok rel) ->
  exists w',
    log_summary found xbt_files dds_files files_to_convert extract_dir convert_dir c w =
      (w', Ok (errors c =? 0)) /\
    files w' = files w /\ dirs w' = dirs w /\
    (forall line, In line (log w) -> In line (log w')) /\
    In "📊 Batch conversion summary:" (log w') /\
    In ("   Files found: " +:+ str_int (len found) +:+ " (" +:+
        str_int (len xbt_files) +:+ " XBT, " +:+
        str_int (len dds_files) +:+ " DDS)") (log w') /\
    In ("   Files processed: " +:+ str_int (len files_to_convert)) (log w') /\
    In ("   ✅ Successfully converted: " +:+ str_int (converted c)) (log w') /\
    In ("   ⚠️ Skipped: " +:+ str_int (skipped c)) (log w') /\
    In ("   ❌ Errors: " +:+ str_int (errors c)) (log w').
Proof.
  intros Hrel1 [rel2 Hrel2].
  unfold log_summary, bind, lift. cbn [log_message]. rewrite Hrel2.
  destruct xbt_files as [|x xs].
  - cbn [ret]. eexists. split; [reflexivity|].
    split; [reflexivity|]. split; [reflexivity|]. split.
    + intros line Hline. cbn [log add_log].
      repeat (apply in_or_app; left). exact Hline.
    + repeat split; find_in_log.
  - destruct (Hrel1 ltac:(discriminate)) as [rel1 ->]. cbn [log_message ret].
    eexists. split; [reflexivity|].
    split; [reflexivity|]. split; [reflexivity|]. split.
    + intros line Hline. cbn [log add_log].
      repeat (apply in_or_app; left). exact Hline.
    + repeat split; find_in_log.
Qed.

(** Step 3 from the world [w1] in which its loop starts: the answer and
    the summary are those of the counters that [convert_files] leaves,
    and nothing but the log changes after the loop. *)
Lemma step3_convert_run
  (found xbt_files dds_files : list string) (extract_dir convert_dir : string)
  (w w1 : world) :
  let files_to_convert := files_to_convert_of extract_dir xbt_files dds_files in
  files_to_convert <> [] ->
  (log_message (newl +:+ "🔄 Step 3: Converting files...") ;;
   ensure_dir convert_dir "📁 Created conversion directory: "
                          "📁 Using existing conversion directory: ") w = (w1, Ok tt) ->
  update_convert_progress "Conversion Complete!"
    (len files_to_convert) (len files_to_convert) = Ok tt ->
  (xbt_files <> [] -> exists rel, os_path_relpath extract_dir converter_root = Ok rel) ->
  (exists rel, os_path_relpath convert_dir converter_root = Ok rel) ->
  let looped := convert_files convert_dir (len files_to_convert) (Counters 0 0 0) 0
                  files_to_convert w1 in
  let c := snd looped in
  exists w',
    step3_convert found xbt_files dds_files extract_dir convert_dir w =
      (w', Ok (errors c =? 0)) /\
    files w' = files (fst looped) /\ dirs w' = dirs (fst looped) /\
    (forall line, In line (log (fst looped)) -> In line (log w')) /\
    converted c + skipped c + errors c = len files_to_convert /\
    In "📊 Batch conversion summary:" (log w') /\
    In ("   Files found: " +:+ str_int (len found) +:+ " (" +:+
        str_int (len xbt_files) +:+ " XBT, " +:+
        str_int (len dds_files) +:+ " DDS)") (log w') /\
    In ("   Files processed: " +:+ str_int (len files_to_convert)) (log w') /\
    In ("   ✅ Successfully converted: " +:+ str_int (converted c)) (log w') /\
    In ("   ⚠️ Skipped: " +:+ str_int (skipped c)) (log w') /\
    In ("   ❌ Errors: " +:+ str_int (errors c)) (log w').
Proof.
  cbn zeta. intros Hfiles Hentry Hprogress Hrel1 Hrel2.
  unfold bind in Hentry. cbn [log_message] in Hentry.
  unfold step3_convert, bind. cbn [log_message]. rewrite Hentry.
  remember (files_to_convert_of extract_dir xbt_files dds_files) as l0 eqn:El.
  destruct l0 as [|p l']; [congruence|].
  remember (p :: l') as l eqn:El'. clear El El' Hfiles.
  unfold call.
  pose proof (convert_files_total convert_dir (len l) l (Counters 0 0 0) 0 w1) as Htotal.
  destruct (convert_files convert_dir (len l) (Counters 0 0 0) 0 l w1) as [w2 c].
  cbn [fst snd converted skipped errors] in *. destruct Htotal as [Htotal _].
  unfold lift. rewrite Hprogress.
  destruct (log_summary_run found xbt_files dds_files l extract_dir convert_dir c w2
              Hrel1 Hrel2) as (w' & -> & Hsame & Hdirs & Hlog & Hlines).
  exists w'. split; [reflexivity|]. split; [exact Hsame|]. split; [exact Hdirs|].
  split; [exact Hlog|]. split; [lia|]. exact Hlines.
Qed.

(** [convert_batch] from the list [found] that the scan answers and the
    world [w1] that the steps before the loop leave: the answer and the
    summary are those of the counters that [convert_files] leaves. *)
Lemma convert_batch_run (folder_path : string) (found : list string)
  (w ws w1 : world) :
  find_files_in_folder_with_progress folder_path extensions_of_type
    (add_log "🔍 Step 1: Scanning for files..." w) = (ws, Ok found) ->
  found <> [] ->
  let xbt_files := List.filter (fun f => lower_endswith f ".xbt") found in
  let dds_files := List.filter (fun f => lower_endswith f ".dds") found in
  let extract_dir := os_path_join converter_root "extracted_xbt_files" in
  let convert_dir := os_path_join converter_root "converted_dds_files" in
  let files_to_convert := files_to_convert_of extract_dir xbt_files dds_files in
  files_to_convert <> [] ->
  (log_message ("📊 Found " +:+ str_int (len found) +:+ " total file(s):") ;;
   log_message ("   📦 XBT files: " +:+ str_int (len xbt_files)) ;;
   log_message ("   🖼️ DDS files: " +:+ str_int (len dds_files)) ;;
   step2_extract folder_path extract_dir xbt_files ;;
   log_message (newl +:+ "🔄 Step 3: Converting files...") ;;
   ensure_dir convert_dir "📁 Created conversion directory: "
                          "📁 Using existing conversion directory: ") ws = (w1, Ok tt) ->
  update_convert_progress "Conversion Complete!"
    (len files_to_convert) (len files_to_convert) = Ok tt ->
  (xbt_files <> [] -> exists rel, os_path_relpath extract_dir converter_root = Ok rel) ->
  (exists rel, os_path_relpath convert_dir converter_root = Ok rel) ->
  let looped := convert_files convert_dir (len files_to_convert) (Counters 0 0 0) 0
                  files_to_convert w1 in
  let c := snd looped in
  exists w',
    convert_batch folder_path w = (w', errors c =? 0) /\
    files w' = files (fst looped) /\ dirs w' = dirs (fst looped) /\
    (forall line, In line (log (fst looped)) -> In line (log w')) /\
    converted c + skipped c + errors c = len files_to_convert /\
    In "📊 Batch conversion summary:" (log w') /\
    In ("   Files found: " +:+ str_int (len found) +:+ " (" +:+
        str_int (len xbt_files) +:+ " XBT, " +:+
        str_int (len dds_files) +:+ " DDS)") (log w') /\
    In ("   Files processed: " +:+ str_int (len files_to_convert)) (log w') /\
    In ("   ✅ Successfully converted: " +:+ str_int (converted c)) (log w') /\
    In ("   ⚠️ Skipped: " +:+ str_int (skipped c)) (log w') /\
    In ("   ❌ Errors: " +:+ str_int (errors c)) (log w').
Proof.
  cbn zeta. intros Hscan Hfound Hfiles Hentry Hprogress Hrel1 Hrel2.
  unfold convert_batch, try_except. unfold bind at 1 2. cbn [log_message]. cbn zeta.
  rewrite Hscan. destruct found as [|p found']; [congruence|].
  remember (p :: found') as found eqn:Efound. clear Efound Hfound.
  unfold bind in Hentry |- *. cbn [log_message] in Hentry |- *.
  destruct (step2_extract folder_path
              (os_path_join converter_root "extracted_xbt_files")
              (List.filter (fun f => lower_endswith f ".xbt") found) _)
    as [w2 [[]|e]]; [|discriminate Hentry].
  assert ((log_message (newl +:+ "🔄 Step 3: Converting files...") ;;
           ensure_dir (os_path_join converter_root "converted_dds_files")
             "📁 Created conversion directory: "
             "📁 Using existing conversion directory: ") w2 = (w1, Ok tt)) as Hentry'
    by (unfold bind; cbn [log_message]; exact Hentry).
  clear Hentry. rename Hentry' into Hentry.
  destruct (step3_convert_run found
              (List.filter (fun f => lower_endswith f ".xbt") found)
              (List.filter (fun f => lower_endswith f ".dds") found)
              (os_path_join converter_root "extracted_xbt_files")
              (os_path_join converter_root "converted_dds_files")
              w2 w1 Hfiles Hentry Hprogress Hrel1 Hrel2) as (w' & Hrun & Hrest).
  rewrite Hrun. exists w'. split; [reflexivity|exact Hrest].
Qed.

(** The steps between the scan and the loop of step 3 do not raise when
    the last update of the copy window does not. *)
Lemma steps_before_loop_run (folder_path extract_dir convert_dir : string)
  (found xbt_files dds_files : list string) (ws : world) :
  (xbt_files <> [] ->
   update_copy_progress "Copy Complete!" (len xbt_files) (len xbt_files) = Ok tt) ->
  exists w1,
    (log_message ("📊 Found " +:+ str_int (len found) +:+ " total file(s):") ;;
     log_message ("   📦 XBT files: " +:+ str_int (len xbt_files)) ;;
     log_message ("   🖼️ DDS files: " +:+ str_int (len dds_files)) ;;
     step2_extract folder_path extract_dir xbt_files ;;
     log_message (newl +:+ "🔄 Step 3: Converting files...") ;;
     ensure_dir convert_dir "📁 Created conversion directory: "
                            "📁 Using existing conversion directory: ") ws = (w1, Ok tt).
Proof.
  intros Hcopy. unfold bind at 1 2 3 4 5. cbn [log_message].
  assert (forall w0, exists w2,
            step2_extract folder_path extract_dir xbt_files w0 = (w2, Ok tt)) as Hstep2.
  { intros w0. unfold step2_extract. destruct xbt_files as [|x xs].
    - eexists. reflexivity.
    - remember (x :: xs) as l eqn:El.
      assert (l <> []) as Hl by (rewrite El; discriminate).
      unfold bind. cbn [log_message].
      match goal with |- context [ensure_dir ?d ?a ?b ?w3] =>
        destruct (ensure_dir_run d a b w3) as (w4 & -> & _ & _) end.
      unfold call, lift. rewrite (Hcopy Hl). eexists. reflexivity. }
  match goal with |- context [step2_extract ?a ?b ?c ?w0] =>
    destruct (Hstep2 w0) as (w2 & ->) end.
  match goal with |- context [ensure_dir ?d ?a ?b ?w3] =>
    destruct (ensure_dir_run d a b w3) as (w4 & -> & _ & _) end.
  eexists. reflexivity.
Qed.


(** *** Staging *)

Lemma os_path_exists_same (w w' : world) (d : string) :
  files w' !! d = files w !! d -> dirs w' = dirs w ->
  os_path_exists w' d = os_path_exists w d.
Proof. intros Hf Hd. unfold os_path_exists. now rewrite Hf, Hd. Qed.

(** One turn of the copy loop leaves the files as they are or copies the
    file to its staged path, and that only when the staged path is free
    or overwriting is enabled. *)
Lemma stage_file_effect (folder_path extract_dir : string) (total i : Z)
  (xbt_file : string) (w : world) :
  let w' := fst (stage_file folder_path extract_dir total i xbt_file w) in
  dirs w' = dirs w /\
  (files w' = files w \/
   exists f, files w !! xbt_file = Some f /\
     (os_path_exists w (staged_path extract_dir xbt_file) = false \/
      overwrite_existing = true) /\
     files w' = <[staged_path extract_dir xbt_file := f]> (files w)).
Proof.
  cbn zeta. unfold stage_file, try_except, bind, lift, path_exists.
  fold (staged_path extract_dir xbt_file).
  destruct (update_copy_progress xbt_file i total) as [[]|e]; [|split; [reflexivity|now left]].
  destruct (os_path_exists w (staged_path extract_dir xbt_file)) eqn:Hpresent;
    destruct overwrite_existing eqn:Hover; cbn [negb orb];
    try (split; [reflexivity|now left]).
  all: unfold shutil_copy2;
    (destruct (files w !! xbt_file) as [f|] eqn:Hf; [|split; [reflexivity|now left]]);
    (destruct (String.eqb xbt_file (staged_path extract_dir xbt_file));
     [split; [reflexivity|now left]|]);
    destruct (os_path_relpath xbt_file folder_path);
    (split; [reflexivity|right; exists f; repeat split; auto]).
Qed.

(** The copy does happen when nothing stands in its way. *)
Lemma stage_file_copies (folder_path extract_dir : string) (total i : Z)
  (xbt_file : string) (w : world) (f : file) :
  update_copy_progress xbt_file i total = Ok tt ->
  (os_path_exists w (staged_path extract_dir xbt_file) = false \/
   overwrite_existing = true) ->
  files w !! xbt_file = Some f ->
  staged_path extract_dir xbt_file <> xbt_file ->
  files (fst (stage_file folder_path extract_dir total i xbt_file w)) =
    <[staged_path extract_dir xbt_file := f]> (files w).
Proof.
  intros Hprogress Hfree Hf Hne.
  unfold stage_file, try_except, bind, lift, path_exists.
  fold (staged_path extract_dir xbt_file). rewrite Hprogress.
  assert (negb (os_path_exists w (staged_path extract_dir xbt_file))
          || overwrite_existing = true) as ->.
  { destruct Hfree as [-> | ->]; [reflexivity | apply orb_true_r]. }
  unfold shutil_copy2. rewrite Hf.
  assert (String.eqb xbt_file (staged_path extract_dir xbt_file) = false) as ->.
  { apply String.eqb_neq. congruence. }
  destruct (os_path_relpath xbt_file folder_path); reflexivity.
Qed.

Lemma stage_files_app (folder_path extract_dir : string) (total : Z)
  (before after : list string) (i : Z) (w : world) :
  stage_files folder_path extract_dir total i (before ++ after) w =
  stage_files folder_path extract_dir total (i + len before) after
    (stage_files folder_path extract_dir total i before w).
Proof.
  revert i w; induction before as [|g before IH]; intros i w.
  - cbn [app stage_files]. unfold len. cbn [length]. now rewrite Z.add_0_r.
  - cbn [app stage_files].
    destruct (stage_file folder_path extract_dir total i g w) as [w1 []].
    rewrite IH. unfold len. cbn [length].
    replace (i + 1 + Z.of_nat (length before)) with (i + Z.of_nat (S (length before)))
      by lia.
    reflexivity.
Qed.

(** A path that no file of the list is staged to keeps its file. *)
Lemma stage_files_elsewhere (folder_path extract_dir : string) (total : Z)
  (xbt_files : list string) (i : Z) (w : world) (d : string) :
  (forall h, In h xbt_files -> staged_path extract_dir h <> d) ->
  files (stage_files folder_path extract_dir total i xbt_files w) !! d = files w !! d.
Proof.
  revert i w; induction xbt_files as [|g rest IH]; intros i w Hd; [reflexivity|].
  cbn [stage_files].
  pose proof (stage_file_effect folder_path extract_dir total i g w) as [_ Hstep].
  destruct (stage_file folder_path extract_dir total i g w) as [w1 []].
  cbn [fst] in Hstep. rewrite IH by (intros h Hh; apply Hd; now right).
  destruct Hstep as [-> | (f & _ & _ & ->)]; [reflexivity|].
  apply lookup_insert_ne. apply Hd. now left.
Qed.

(** With overwriting disabled, a path that exists keeps its file. *)
Lemma stage_files_keeps_existing (folder_path extract_dir : string) (total : Z)
  (xbt_files : list string) (i : Z) (w : world) (d : string) :
  overwrite_existing = false ->
  os_path_exists w d = true ->
  files (stage_files folder_path extract_dir total i xbt_files w) !! d = files w !! d.
Proof.
  intros Hover. revert i w; induction xbt_files as [|g rest IH]; intros i w Hd;
    [reflexivity|].
  cbn [stage_files].
  pose proof (stage_file_effect folder_path extract_dir total i g w) as [Hdirs Hstep].
  destruct (stage_file folder_path extract_dir total i g w) as [w1 []].
  cbn [fst] in Hstep, Hdirs.
  assert (files w1 !! d = files w !! d) as Hsame.
  { destruct Hstep as [-> | (f & _ & [Hfree | Hov] & ->)]; [reflexivity| |congruence].
    apply lookup_insert_ne. intros Heq. rewrite Heq in Hfree. congruence. }
  rewrite IH; [exact Hsame|].
  now rewrite (os_path_exists_same w w1 d Hsame Hdirs).
Qed.

Lemma stage_files_dirs (folder_path extract_dir : string) (total : Z)
  (xbt_files : list string) (i : Z) (w : world) :
  dirs (stage_files folder_path extract_dir total i xbt_files w) = dirs w.
Proof.
  revert i w; induction xbt_files as [|g rest IH]; intros i w; [reflexivity|].
  cbn [stage_files].
  pose proof (stage_file_effect folder_path extract_dir total i g w) as [Hdirs _].
  destruct (stage_file folder_path extract_dir total i g w) as [w1 []].
  cbn [fst] in Hdirs. now rewrite IH.
Qed.

(** C9 (amended).  Staging of wrapped files that share a staged path
    (the same base name), for a file [g] of the list that exists, whose
    progress update does not raise, no staged path being [g] itself:
    with overwriting enabled the last write wins, the staged file is the
    copy of [g] when no later file of the list has its staged path; with
    overwriting disabled the first write wins, the staged file is the
    copy of [g] when the staged path was free and no earlier file of the
    list has it, and a staged path that exists before the run keeps the
    file it has. *)
Theorem staging_collisions (folder_path extract_dir : string) (total : Z)
  (before after : list string) (g : string) (i : Z) (w : world) (f : file) :
  files w !! g = Some f ->
  update_copy_progress g (i + len before) total = Ok tt ->
  (forall h, In h (before ++ g :: after) -> staged_path extract_dir h <> g) ->
  let staged := stage_files folder_path extract_dir total i (before ++ g :: after) w in
  (overwrite_existing = true ->
   (forall h, In h after -> staged_path extract_dir h <> staged_path extract_dir g) ->
   files staged !! staged_path extract_dir g = Some f) /\
  (overwrite_existing = false ->
   os_path_exists w (staged_path extract_dir g) = false ->
   (forall h, In h before -> staged_path extract_dir h <> staged_path extract_dir g) ->
   files staged !! staged_path extract_dir g = Some f) /\
  (overwrite_existing = false ->
   os_path_exists w (staged_path extract_dir g) = true ->
   files staged !! staged_path extract_dir g = files w !! staged_path extract_dir g).
Proof.
  intros Hf Hprogress Hsources. cbn zeta.
  rewrite stage_files_app. cbn [stage_files].
  set (w1 := stage_files folder_path extract_dir total i before w).
  assert (files w1 !! g = Some f) as Hf1.
  { unfold w1. rewrite stage_files_elsewhere; [exact Hf|].
    intros h Hh. apply Hsources, in_or_app. now left. }
  assert (staged_path extract_dir g <> g) as Hself
    by (apply Hsources, in_or_app; right; now left).
  split; [|split].
  - intros Hover Hlast.
    pose proof (stage_file_copies folder_path extract_dir total (i + len before) g w1 f
                  Hprogress (or_intror Hover) Hf1 Hself) as Hcopy.
    destruct (stage_file folder_path extract_dir total (i + len before) g w1) as [w2 []].
    cbn [fst] in Hcopy.
    rewrite stage_files_elsewhere by exact Hlast.
    rewrite Hcopy. apply lookup_insert_eq.
  - intros Hover Hfree Hfirst.
    assert (os_path_exists w1 (staged_path extract_dir g) = false) as Hfree1.
    { rewrite <- Hfree. apply os_path_exists_same.
      - unfold w1. now apply stage_files_elsewhere.
      - apply stage_files_dirs. }
    pose proof (stage_file_copies folder_path extract_dir total (i + len before) g w1 f
                  Hprogress (or_introl Hfree1) Hf1 Hself) as Hcopy.
    destruct (stage_file folder_path extract_dir total (i + len before) g w1) as [w2 []].
    cbn [fst] in Hcopy.
    assert (files w2 !! staged_path extract_dir g = Some f) as Hstaged
      by (rewrite Hcopy; apply lookup_insert_eq).
    rewrite stage_files_keeps_existing; [exact Hstaged|exact Hover|].
    unfold os_path_exists. now rewrite Hstaged.
  - intros Hover Hpresent.
    rewrite <- (stage_files_keeps_existing folder_path extract_dir total
                  (before ++ g :: after) i w _ Hover Hpresent).
    rewrite stage_files_app. reflexivity.
Qed.

(** And where it does not: no sidecar is written for a header whose
    embedded path has a character that XML forbids. *)
Lemma save_header_to_xml_illegal (header_data : bytes) (xml_path : string) (w : world) :
  embedded_path_legal header_data = false ->
  let written := save_header_to_xml header_data xml_path w in
  snd written = false /\ files (fst written) = files w.
Proof.
  intros Hillegal. cbn zeta.
  destruct (metadata_fields_run header_data w) as (fields & Hrun & Hok).
  rewrite Hillegal in Hok.
  unfold save_header_to_xml, try_except, bind. rewrite Hrun.
  unfold lift, minidom_parse_tostring.
  assert (texts_ok (header_tree header_data fields) = false) as ->.
  { unfold header_tree. cbn [texts_ok forallb leaf]. now rewrite Hok. }
  cbn [fst snd files add_log]. split; [reflexivity|].
  destruct (embedded_path_of header_data); reflexivity.
Qed.

(** Where the sidecar codec does round-trip: a header of at least one
    byte whose embedded path, if any, has no character that XML
    forbids. *)
Lemma sidecar_round_trip (b : byte) (header : bytes) (xml_path : string) (w : world) :
  embedded_path_legal (b :: header) = true ->
  let written := save_header_to_xml (b :: header) xml_path w in
  snd written = true /\
  snd (load_header_from_xml xml_path (fst written)) = Some (b :: header).
Proof.
  intros Hlegal. cbn zeta.
  destruct (save_header_to_xml_ok (b :: header) xml_path w Hlegal)
    as (w1 & data & doc & -> & Hfiles & _ & Htag & Hraw).
  cbn [fst snd]. split; [reflexivity|].
  assert (files w1 !! xml_path = Some (File data (Some doc))) as Hxml
    by (rewrite Hfiles; apply lookup_insert_eq).
  rewrite (load_header_from_xml_run xml_path w1 _ doc Hxml eq_refl).
  rewrite Htag, Hraw. change (negb ("XBTHeader" =? "XBTHeader")%string) with false.
  cbn iota. change (str_truthy (bytes_hex (b :: header))) with true. cbn iota.
  rewrite str_strip_hex_chars by apply bytes_hex_chars. now rewrite fromhex_hex.
Qed.

(* ================================================================ *)
(** ** Type detection, the payload of a preview and the split *)

Lemma dds_magic_slice (data : bytes) :
  bytes_eqb (slice_to data 4) DDS_MAGIC = startswith data DDS_MAGIC.
Proof.
  destruct (startswith data DDS_MAGIC) eqn:E.
  - apply bytes_eqb_eq. now apply startswith_take in E.
  - destruct (bytes_eqb (slice_to data 4) DDS_MAGIC) eqn:E'; [|reflexivity].
    apply bytes_eqb_eq in E'. apply (startswith_take data DDS_MAGIC) in E'.
    congruence.
Qed.

(** No file starts with both magics. *)
Lemma magics_exclude (data : bytes) :
  startswith data TBX_MAGIC = true -> startswith data DDS_MAGIC = false.
Proof. intros H. apply startswith_inv in H as [rest ->]. reflexivity. Qed.


Lemma detect_file_type_run (filepath : string) (w : world) :
  detect_file_type filepath w =
    match files w !! filepath with
    | Some f =>
        (w, if startswith (file_data f) TBX_MAGIC then "xbt"
            else if startswith (file_data f) DDS_MAGIC then "dds"
            else "unknown")
    | None =>
        (add_log ("❌ Error detecting file type: " +:+
                  exn_str (FileNotFoundError filepath)) w, "unknown")
    end.
Proof.
  unfold detect_file_type, try_except, bind, read_binary.
  destruct (files w !! filepath) as [f|]; [|reflexivity].
  rewrite magic_slice, dds_magic_slice.
  destruct (startswith (file_data f) TBX_MAGIC); [reflexivity|].
  destruct (startswith (file_data f) DDS_MAGIC); reflexivity.
Qed.

(** X1.  [detect_file_type] answers by the first four bytes alone: [xbt]
    exactly for a file that starts with the wrapper magic, [dds] exactly
    for a file that starts with the payload magic, [unknown] for every
    other file and for a path that cannot be read.  It never changes a
    file or a directory, and it logs only when the path cannot be
    read. *)
Theorem detect_file_type_classifies (filepath : string) (w : world) :
  let detected := detect_file_type filepath w in
  files (fst detected) = files w /\
  dirs (fst detected) = dirs w /\
  (snd detected = "xbt" <->
   exists f, files w !! filepath = Some f /\
             startswith (file_data f) TBX_MAGIC = true) /\
  (snd detected = "dds" <->
   exists f, files w !! filepath = Some f /\
             startswith (file_data f) DDS_MAGIC = true) /\
  (snd detected = "xbt" \/ snd detected = "dds" \/ snd detected = "unknown") /\
  (fst detected = w <-> is_Some (files w !! filepath)).
Proof.
  cbn zeta. rewrite detect_file_type_run.
  destruct (files w !! filepath) as [f|] eqn:Hf.
  - cbn [fst snd]. repeat split; try reflexivity.
    + intros H. exists f. split; [reflexivity|].
      destruct (startswith (file_data f) TBX_MAGIC); [reflexivity|].
      destruct (startswith (file_data f) DDS_MAGIC); discriminate H.
    + intros (g & Hg & Hmagic). injection Hg as <-. now rewrite Hmagic.
    + intros H. exists f. split; [reflexivity|].
      destruct (startswith (file_data f) TBX_MAGIC); [discriminate H|].
      destruct (startswith (file_data f) DDS_MAGIC); [reflexivity|discriminate H].
    + intros (g & Hg & Hmagic). injection Hg as <-.
      destruct (startswith (file_data f) TBX_MAGIC) eqn:Hx.
      * apply magics_exclude in Hx. congruence.
      * now rewrite Hmagic.
    + destruct (startswith (file_data f) TBX_MAGIC); [now left|].
      destruct (startswith (file_data f) DDS_MAGIC); [right; now left|right; now right].
    + intros _. now exists f.
  - cbn [fst snd files dirs add_log]. repeat split; try reflexivity.
    + discriminate.
    + intros (g & Hg & _). discriminate Hg.
    + discriminate.
    + intros (g & Hg & _). discriminate Hg.
    + right; now right.
    + intros H. apply (f_equal log) in H. cbn [log add_log] in H.
      apply (f_equal (@length string)) in H. rewrite length_app in H.
      cbn [length] in H. lia.
    + intros [g Hg]. discriminate Hg.
Qed.

Lemma extract_dds_data_run (filepath : string) (w : world) :
  extract_dds_data filepath w =
    (w, match files w !! filepath with
        | Some f =>
            let data := file_data f in
            if startswith data TBX_MAGIC then
              if bytes_find data DDS_MAGIC =? -1
              then (None, Some "No DDS data found in XBT file")
              else (Some (slice_from data (bytes_find data DDS_MAGIC)), None)
            else if startswith data DDS_MAGIC then (Some data, None)
            else (None, Some "File is neither XBT nor DDS format")
        | None =>
            (None, Some ("Error reading file: " +:+
                         exn_str (FileNotFoundError filepath)))
        end).
Proof.
  unfold extract_dds_data, try_return, bind, read_binary.
  destruct (files w !! filepath) as [f|]; [|reflexivity].
  rewrite magic_slice, dds_magic_slice. cbn zeta.
  destruct (startswith (file_data f) TBX_MAGIC).
  - destruct (bytes_find (file_data f) DDS_MAGIC =? -1); reflexivity.
  - destruct (startswith (file_data f) DDS_MAGIC); reflexivity.
Qed.


(** The sidecar of a header whose embedded path XML forbids: nothing is
    written, no directory is made. *)
Lemma save_header_to_xml_refused (header_data : bytes) (xml_path : string) (w : world) :
  embedded_path_legal header_data = false ->
  let written := save_header_to_xml header_data xml_path w in
  snd written = false /\ files (fst written) = files w /\ dirs (fst written) = dirs w.
Proof.
  intros Hillegal. cbn zeta.
  destruct (metadata_fields_run header_data w) as (fields & Hrun & Hok).
  rewrite Hillegal in Hok.
  unfold save_header_to_xml, try_except, bind. rewrite Hrun.
  unfold lift, minidom_parse_tostring.
  assert (texts_ok (header_tree header_data fields) = false) as ->.
  { unfold header_tree. cbn [texts_ok forallb leaf]. now rewrite Hok. }
  cbn [fst snd files dirs add_log]. split; [reflexivity|].
  destruct (embedded_path_of header_data); split; reflexivity.
Qed.

(** What a split does to the files, by the container it is given. *)
Lemma xbt_to_dds_batch_effect (input_path output_path xml_output_path : string)
  (w : world) :
  let split := xbt_to_dds_batch input_path output_path xml_output_path w in
  dirs (fst split) = dirs w /\
  match files w !! input_path with
  | Some f =>
      let data := file_data f in
      let dds_start := bytes_find data DDS_MAGIC in
      if (16 <=? len data) && startswith data TBX_MAGIC && negb (dds_start =? -1) &&
         embedded_path_legal (slice_to data dds_start)
      then
        snd split = true /\
        exists sidecar,
          files (fst split) =
            <[output_path := File (slice_from data dds_start) None]>
              (<[xml_output_path := sidecar]> (files w))
      else snd split = false /\ files (fst split) = files w
  | None => snd split = false /\ files (fst split) = files w
  end.
Proof.
  cbn zeta.
  destruct (files w !! input_path) as [f|] eqn:Hf.
  2: { unfold xbt_to_dds_batch, try_except, bind, read_binary. rewrite Hf.
       repeat split. }
  set (X := file_data f). set (k := bytes_find X DDS_MAGIC).
  destruct (16 <=? len X) eqn:Hlen; cbn [andb].
  2: { apply Z.leb_gt in Hlen.
       unfold xbt_to_dds_batch, try_except, bind, read_binary. rewrite Hf. fold X.
       rewrite parse_xbt_header_run.
       replace (len X <? 16) with true by (symmetry; apply Z.ltb_lt; lia).
       repeat split. }
  apply Z.leb_le in Hlen.
  destruct (startswith X TBX_MAGIC) eqn:Hmagic; cbn [andb].
  2: { unfold xbt_to_dds_batch, try_except, bind, read_binary. rewrite Hf. fold X.
       rewrite parse_xbt_header_run.
       replace (len X <? 16) with false by (symmetry; apply Z.ltb_ge; lia).
       rewrite Hmagic. repeat split. }
  destruct (unpack_u32_le_ok X 8) as [hs Hhs]; [lia|lia|]. change (8 + 4) with 12 in Hhs.
  destruct (k =? -1) eqn:Hk; cbn [andb negb].
  { unfold xbt_to_dds_batch, try_except, bind, read_binary. rewrite Hf. fold X.
    rewrite parse_xbt_header_run.
    replace (len X <? 16) with false by (symmetry; apply Z.ltb_ge; lia).
    rewrite Hmagic, Hhs. fold k. rewrite Hk. repeat split. }
  apply Z.eqb_neq in Hk.
  destruct (embedded_path_legal (slice_to X k)) eqn:Hlegal.
  - destruct (xbt_to_dds_batch_ok input_path output_path xml_output_path w f
                Hf Hlen Hmagic Hk Hlegal)
      as (w1 & data & doc & -> & Hfiles & Hdirs & _).
    cbn [fst snd]. repeat split; [exact Hdirs|]. now exists (File data (Some doc)).
  - unfold xbt_to_dds_batch, try_except, bind, read_binary. rewrite Hf. fold X.
    rewrite parse_xbt_header_run.
    replace (len X <? 16) with false by (symmetry; apply Z.ltb_ge; lia).
    rewrite Hmagic, Hhs. cbn [negb]. fold k.
    replace (k =? -1) with false by (symmetry; now apply Z.eqb_neq).
    unfold call.
    match goal with |- context [save_header_to_xml ?h ?p ?w0] =>
      pose proof (save_header_to_xml_refused h p w0 Hlegal) as (Hsaved & Hfiles & Hdirs);
      destruct (save_header_to_xml h p w0) as [w2 saved]
    end.
    cbn [fst snd] in Hsaved, Hfiles, Hdirs. subst saved.
    cbn [negb raise fst snd files dirs add_log]. repeat split; assumption.
Qed.

(** X3.  The split succeeds exactly for a container that can be read, has
    at least sixteen bytes, starts with the wrapper magic, holds the
    payload magic, and whose embedded path, if any, has no character that
    XML forbids.  It then writes the payload, the container from the
    first occurrence of the payload magic on, and the sidecar, and
    nothing else; when it fails it writes nothing at all.  It never makes
    a directory. *)
Theorem xbt_to_dds_succeeds_iff (input_path output_path : string) (w : world) :
  let split := xbt_to_dds input_path output_path w in
  let xml_path := fst (os_path_splitext output_path) +:+ ".xml" in
  (snd split = true <->
   exists f, files w !! input_path = Some f /\
     16 <= len (file_data f) /\
     startswith (file_data f) TBX_MAGIC = true /\
     bytes_find (file_data f) DDS_MAGIC <> -1 /\
     embedded_path_legal
       (slice_to (file_data f) (bytes_find (file_data f) DDS_MAGIC)) = true) /\
  (forall f, snd split = true -> files w !! input_path = Some f ->
     file_data <$> files (fst split) !! output_path =
       Some (slice_from (file_data f) (bytes_find (file_data f) DDS_MAGIC)) /\
     forall d, d <> output_path -> d <> xml_path ->
       files (fst split) !! d = files w !! d) /\
  (snd split = false -> files (fst split) = files w) /\
  dirs (fst split) = dirs w.
Proof.
  cbn zeta. rewrite xbt_to_dds_as_batch.
  set (xml_path := fst (os_path_splitext output_path) +:+ ".xml").
  pose proof (xbt_to_dds_batch_effect input_path output_path xml_path w) as [Hdirs Heffect].
  cbn zeta in Heffect.
  destruct (xbt_to_dds_batch input_path output_path xml_path w) as [w1 done].
  cbn [fst snd] in *.
  destruct (files w !! input_path) as [f|] eqn:Hf.
  2: { destruct Heffect as [-> Hfiles]. repeat split; try discriminate; auto.
       intros (g & Hg & _). discriminate Hg. }
  set (X := file_data f) in *. set (k := bytes_find X DDS_MAGIC) in *.
  destruct ((16 <=? len X) && startswith X TBX_MAGIC && negb (k =? -1) &&
            embedded_path_legal (slice_to X k)) eqn:Hgood.
  - destruct Heffect as [-> [sidecar Hfiles]].
    apply andb_prop in Hgood as [Hgood Hlegal].
    apply andb_prop in Hgood as [Hgood Hk].
    apply andb_prop in Hgood as [Hlen Hmagic].
    apply Z.leb_le in Hlen. apply negb_true_iff, Z.eqb_neq in Hk.
    split; [|split; [|split]]; [| |discriminate|exact Hdirs].
    + split; [intros _|reflexivity]. exists f. repeat split; assumption.
    + intros g _ Hg. injection Hg as <-. fold X k. rewrite Hfiles. split.
      * now rewrite lookup_insert_eq.
      * intros d Hout Hxml. now rewrite !lookup_insert_ne by congruence.
  - destruct Heffect as [-> Hfiles].
    split; [|split; [|split]]; [|discriminate|auto|exact Hdirs].
    split; [discriminate|].
    intros (g & Hg & Hlen & Hmagic & Hk & Hlegal). injection Hg as <-.
    fold X in Hlen, Hmagic, Hk, Hlegal. fold k in Hk, Hlegal.
    apply Z.leb_le in Hlen. apply Z.eqb_neq in Hk.
    rewrite Hlen, Hmagic, Hk, Hlegal in Hgood. discriminate Hgood.
Qed.

(** X4.  The payload the preview extracts from a container is the payload
    the split writes: wherever [xbt_to_dds] succeeds, [extract_dds_data]
    answers the bytes of the file that [xbt_to_dds] has written. *)
Theorem extract_matches_conversion (input_path output_path : string) (w : world) :
  snd (xbt_to_dds input_path output_path w) = true ->
  exists dds_data,
    snd (extract_dds_data input_path w) = (Some dds_data, None) /\
    file_data <$> files (fst (xbt_to_dds input_path output_path w)) !! output_path =
      Some dds_data.
Proof.
  intros Hdone.
  rewrite xbt_to_dds_as_batch in *.
  set (xml_path := fst (os_path_splitext output_path) +:+ ".xml") in *.
  pose proof (xbt_to_dds_batch_effect input_path output_path xml_path w) as [_ Heffect].
  cbn zeta in Heffect. rewrite extract_dds_data_run.
  destruct (xbt_to_dds_batch input_path output_path xml_path w) as [w1 done].
  cbn [fst snd] in *. subst done.
  destruct (files w !! input_path) as [f|]; [|destruct Heffect; discriminate].
  set (X := file_data f) in *. set (k := bytes_find X DDS_MAGIC) in *.
  destruct ((16 <=? len X) && startswith X TBX_MAGIC && negb (k =? -1) &&
            embedded_path_legal (slice_to X k)) eqn:Hgood;
    [|destruct Heffect; discriminate].
  destruct Heffect as [_ [sidecar Hfiles]].
  apply andb_prop in Hgood as [Hgood _].
  apply andb_prop in Hgood as [Hgood Hk].
  apply andb_prop in Hgood as [_ Hmagic].
  apply negb_true_iff in Hk.
  exists (slice_from X k). cbn zeta. rewrite Hmagic, Hk. split; [reflexivity|].
  rewrite Hfiles. now rewrite lookup_insert_eq.
Qed.

(* ================================================================ *)
(** ** DDS headers *)

Lemma byte_val_range (b : byte) : 0 <= byte_val b < 256.
Proof. destruct b; vm_compute; split; congruence. Qed.

Lemma lor_range (a b n : Z) :
  0 <= a < 2 ^ n -> 0 <= b < 2 ^ n -> 0 <= Z.lor a b < 2 ^ n.
Proof.
  intros Ha Hb. split; [apply Z.lor_nonneg; lia|].
  destruct (Z.eq_dec a 0) as [->|Hna]; [now rewrite Z.lor_0_l|].
  destruct (Z.eq_dec b 0) as [->|Hnb]; [now rewrite Z.lor_0_r|].
  assert (0 <= Z.lor a b) as Hnonneg by (apply Z.lor_nonneg; lia).
  destruct (Z.eq_dec (Z.lor a b) 0) as [->|Hn]; [lia|].
  apply Z.log2_lt_pow2; [lia|].
  rewrite Z.log2_lor by lia.
  apply Z.max_lub_lt; apply Z.log2_lt_pow2; lia.
Qed.

(** An unpacked integer is an unsigned 32-bit integer. *)
Lemma unpack_u32_le_range (b : bytes) (v : Z) :
  unpack_u32_le b = Ok v -> 0 <= v < 2 ^ 32.
Proof.
  destruct b as [|b0 [|b1 [|b2 [|b3 [|]]]]]; try discriminate.
  intros H. injection H as <-.
  pose proof (byte_val_range b0). pose proof (byte_val_range b1).
  pose proof (byte_val_range b2). pose proof (byte_val_range b3).
  rewrite !Z.shiftl_mul_pow2 by lia.
  repeat apply lor_range; lia.
Qed.

(** The slices of the first [n] bytes are those of the whole. *)
Lemma slice_slice_to (data : bytes) (n a b : Z) :
  0 <= a -> a <= b -> b <= n -> slice (slice_to data n) a b = slice data a b.
Proof.
  intros Ha Hab Hbn. unfold slice, slice_to.
  rewrite !take_drop_commute, take_take.
  do 2 f_equal. lia.
Qed.

Lemma len_slice_to (data : bytes) (n : Z) :
  0 <= n -> n <= len data -> len (slice_to data n) = n.
Proof. intros Hn Hlen. unfold len, slice_to in *. rewrite length_take. lia. Qed.

Lemma decode_ascii_length (data : bytes) (s : string) :
  decode_ascii data = Some s -> String.length s = length data.
Proof.
  revert s; induction data as [|b data IH]; intros s H; cbn [decode_ascii] in H.
  - injection H as <-. reflexivity.
  - destruct (Byte.to_N b <? 128)%N; [|discriminate H].
    destruct (decode_ascii data) as [s'|]; [|discriminate H].
    injection H as <-. cbn [String.length length]. f_equal. now apply IH.
Qed.

Lemma lstrip_char_length (c : ascii) (l : list ascii) :
  (length (lstrip_char c l) <= length l)%nat.
Proof.
  induction l as [|x l IH]; cbn [lstrip_char length]; [lia|].
  destruct (Ascii.eqb x c); cbn [length]; lia.
Qed.

Lemma string_length_of_list (l : list ascii) :
  String.length (string_of_list_ascii l) = length l.
Proof. induction l as [|x l IH]; cbn; [reflexivity|now f_equal]. Qed.

Lemma length_list_of_string (s : string) :
  length (list_ascii_of_string s) = String.length s.
Proof. induction s as [|x s IH]; cbn; [reflexivity|now f_equal]. Qed.

Lemma str_strip_char_length (c : ascii) (s : string) :
  (String.length (str_strip_char c s) <= String.length s)%nat.
Proof.
  unfold str_strip_char. rewrite string_length_of_list, length_rev.
  etransitivity; [apply lstrip_char_length|]. rewrite length_rev.
  etransitivity; [apply lstrip_char_length|]. now rewrite length_list_of_string.
Qed.

(** The body of [parse_dds_header] on 128 bytes or more that start with
    the magic: every unpacking reads four bytes, so that nothing is
    raised. *)
Lemma parse_dds_header_run (dds_data : bytes) :
  128 <= len dds_data ->
  startswith dds_data DDS_MAGIC = true ->
  exists height width mipmap_count pf_flags rgb_bit_count,
    unpack_u32_le (slice dds_data 12 16) = Ok height /\
    unpack_u32_le (slice dds_data 16 20) = Ok width /\
    unpack_u32_le (slice dds_data 28 32) = Ok mipmap_count /\
    unpack_u32_le (slice dds_data 80 84) = Ok pf_flags /\
    unpack_u32_le (slice dds_data 88 92) = Ok rgb_bit_count /\
    parse_dds_header dds_data =
      (Some (DdsInfo.Make width height
               (if has_flag pf_flags 4 then
                  match decode_ascii (slice dds_data 84 88) with
                  | Some s => str_strip_char zero s
                  | None => "FourCC: " +:+ str_upper (bytes_hex (slice dds_data 84 88))
                  end
                else if has_flag pf_flags 64 then
                  "RGB " +:+ str_int rgb_bit_count +:+ "-bit"
                else "Unknown")
               mipmap_count (len dds_data)), None).
Proof.
  intros Hlen Hmagic.
  destruct (unpack_u32_le_ok dds_data 4) as [v4 H4]; [lia|lia|].
  destruct (unpack_u32_le_ok dds_data 8) as [v8 H8]; [lia|lia|].
  destruct (unpack_u32_le_ok dds_data 12) as [v12 H12]; [lia|lia|].
  destruct (unpack_u32_le_ok dds_data 16) as [v16 H16]; [lia|lia|].
  destruct (unpack_u32_le_ok dds_data 20) as [v20 H20]; [lia|lia|].
  destruct (unpack_u32_le_ok dds_data 24) as [v24 H24]; [lia|lia|].
  destruct (unpack_u32_le_ok dds_data 28) as [v28 H28]; [lia|lia|].
  destruct (unpack_u32_le_ok dds_data 76) as [v76 H76]; [lia|lia|].
  destruct (unpack_u32_le_ok dds_data 80) as [v80 H80]; [lia|lia|].
  destruct (unpack_u32_le_ok dds_data 88) as [v88 H88]; [lia|lia|].
  change (4 + 4) with 8 in H4. change (8 + 4) with 12 in H8.
  change (12 + 4) with 16 in H12. change (16 + 4) with 20 in H16.
  change (20 + 4) with 24 in H20. change (24 + 4) with 28 in H24.
  change (28 + 4) with 32 in H28. change (76 + 4) with 80 in H76.
  change (80 + 4) with 84 in H80. change (88 + 4) with 92 in H88.
  exists v12, v16, v28, v80, v88.
  repeat (split; [assumption|]).
  unfold parse_dds_header, parse_dds_header_body.
  replace (len dds_data <? 128) with false by (symmetry; apply Z.ltb_ge; lia).
  rewrite dds_magic_slice, Hmagic. cbn [negb].
  rewrite H4, H8, H12, H16, H20, H24, H28, H76, H80. cbn [result_bind].
  destruct (has_flag v80 4).
  - destruct (decode_ascii (slice dds_data 84 88)); reflexivity.
  - destruct (has_flag v80 64); [|reflexivity].
    rewrite H88. reflexivity.
Qed.

(** X5.  [parse_dds_header] has two failures and no other: data shorter
    than 128 bytes, whatever it holds, and data of 128 bytes or more that
    does not start with the payload magic.  On every other input it
    answers the dictionary: the handler of its [try] is never reached.
    The width, the height and the number of mipmaps are the little-endian
    integers at offsets 16, 12 and 28, each below [2^32], and [size] is
    the length of the data it was given. *)
Theorem parse_dds_header_outcomes (dds_data : bytes) :
  (len dds_data < 128 ->
   parse_dds_header dds_data = (None, Some "DDS data too small")) /\
  (128 <= len dds_data -> slice_to dds_data 4 <> DDS_MAGIC ->
   parse_dds_header dds_data = (None, Some "Invalid DDS magic signature")) /\
  (128 <= len dds_data -> slice_to dds_data 4 = DDS_MAGIC ->
   exists info,
     parse_dds_header dds_data = (Some info, None) /\
     DdsInfo.size info = len dds_data /\
     unpack_u32_le (slice dds_data 16 20) = Ok (DdsInfo.width info) /\
     unpack_u32_le (slice dds_data 12 16) = Ok (DdsInfo.height info) /\
     unpack_u32_le (slice dds_data 28 32) = Ok (DdsInfo.mipmap_count info) /\
     0 <= DdsInfo.width info < 2 ^ 32 /\
     0 <= DdsInfo.height info < 2 ^ 32 /\
     0 <= DdsInfo.mipmap_count info < 2 ^ 32).
Proof.
  split; [|split].
  - intros Hlen. unfold parse_dds_header, parse_dds_header_body.
    now replace (len dds_data <? 128) with true by (symmetry; apply Z.ltb_lt; lia).
  - intros Hlen Hmagic. unfold parse_dds_header, parse_dds_header_body.
    replace (len dds_data <? 128) with false by (symmetry; apply Z.ltb_ge; lia).
    destruct (bytes_eqb (slice_to dds_data 4) DDS_MAGIC) eqn:E; [|reflexivity].
    apply bytes_eqb_eq in E. contradiction.
  - intros Hlen Hmagic.
    assert (startswith dds_data DDS_MAGIC = true) as Hstart
      by (rewrite <- dds_magic_slice; now apply bytes_eqb_eq).
    destruct (parse_dds_header_run dds_data Hlen Hstart)
      as (height & width & mipmap_count & pf_flags & rgb & Hh & Hw & Hm & _ & _ & ->).
    eexists. split; [reflexivity|]. cbn [DdsInfo.size DdsInfo.width DdsInfo.height
                                         DdsInfo.mipmap_count].
    repeat split; try assumption;
      eapply unpack_u32_le_range; eassumption.
Qed.

(** X6.  The name of the format in the dictionary, by the pixel-format
    flags at offset 80: with bit [0x4] the four bytes at offset 84 as
    text, NUL bytes stripped at both ends, or their hexadecimal digits in
    upper case when a byte is not ASCII; else with bit [0x40] the bit
    count at offset 88; [Unknown] exactly when neither bit is set. *)
Theorem parse_dds_header_format (dds_data : bytes) (info : DdsInfo.t) :
  parse_dds_header dds_data = (Some info, None) ->
  exists pf_flags,
    unpack_u32_le (slice dds_data 80 84) = Ok pf_flags /\
    (has_flag pf_flags 4 = true ->
     forall s, decode_ascii (slice dds_data 84 88) = Some s ->
       DdsInfo.format info = str_strip_char zero s) /\
    (has_flag pf_flags 4 = true ->
     decode_ascii (slice dds_data 84 88) = None ->
     DdsInfo.format info = "FourCC: " +:+ str_upper (bytes_hex (slice dds_data 84 88))) /\
    (has_flag pf_flags 4 = false -> has_flag pf_flags 64 = true ->
     exists rgb_bit_count,
       unpack_u32_le (slice dds_data 88 92) = Ok rgb_bit_count /\
       DdsInfo.format info = "RGB " +:+ str_int rgb_bit_count +:+ "-bit") /\
    (DdsInfo.format info = "Unknown" <->
     has_flag pf_flags 4 = false /\ has_flag pf_flags 64 = false).
Proof.
  intros Hparsed.
  assert (128 <= len dds_data /\ startswith dds_data DDS_MAGIC = true) as [Hlen Hmagic].
  { unfold parse_dds_header, parse_dds_header_body in Hparsed.
    destruct (len dds_data <? 128) eqn:Hlen; [discriminate Hparsed|].
    apply Z.ltb_ge in Hlen. split; [exact Hlen|].
    rewrite dds_magic_slice in Hparsed.
    destruct (startswith dds_data DDS_MAGIC); [reflexivity|discriminate Hparsed]. }
  destruct (parse_dds_header_run dds_data Hlen Hmagic)
    as (height & width & mipmap_count & pf_flags & rgb & _ & _ & _ & Hpf & Hrgb & Hrun).
  rewrite Hrun in Hparsed. injection Hparsed as <-. cbn [DdsInfo.format].
  exists pf_flags. split; [exact Hpf|].
  destruct (has_flag pf_flags 4).
  - split; [|split; [|split; [|split]]].
    + intros _ s ->. reflexivity.
    + intros _ ->. reflexivity.
    + discriminate.
    + intros Hunknown. exfalso.
      destruct (decode_ascii (slice dds_data 84 88)) as [s|] eqn:Hs;
        [|discriminate Hunknown].
      pose proof (str_strip_char_length zero s) as Hshort.
      rewrite Hunknown, (decode_ascii_length _ _ Hs) in Hshort.
      unfold slice in Hshort. rewrite length_take in Hshort. cbn in Hshort. lia.
    + intros [H _]. discriminate H.
  - destruct (has_flag pf_flags 64).
    + split; [|split; [|split; [|split]]]; try discriminate.
      * intros _ _. now exists rgb.
      * intros [_ H]. discriminate H.
    + split; [|split; [|split; [|split]]]; try discriminate; [now split|reflexivity].
Qed.

Lemma startswith_slice_to (data p : bytes) (n : Z) :
  len p <= n -> startswith (slice_to data n) p = startswith data p.
Proof.
  intros Hn.
  assert (take (length p) (slice_to data n) = take (length p) data) as Htake.
  { unfold slice_to. rewrite take_take. f_equal. unfold len in Hn. lia. }
  destruct (startswith data p) eqn:E.
  - apply startswith_take. rewrite Htake. now apply startswith_take.
  - destruct (startswith (slice_to data n) p) eqn:E'; [|reflexivity].
    apply startswith_take in E'. rewrite Htake in E'.
    apply startswith_take in E'. congruence.
Qed.

(** The dictionary of the first 128 bytes is that of the whole, but for
    [size]. *)
Lemma parse_dds_header_of_head (dds_data : bytes) (info : DdsInfo.t) :
  parse_dds_header dds_data = (Some info, None) ->
  parse_dds_header (slice_to dds_data 128) =
    (Some (DdsInfo.Make (DdsInfo.width info) (DdsInfo.height info)
             (DdsInfo.format info) (DdsInfo.mipmap_count info) 128), None).
Proof.
  intros Hparsed.
  assert (128 <= len dds_data /\ startswith dds_data DDS_MAGIC = true) as [Hlen Hmagic].
  { unfold parse_dds_header, parse_dds_header_body in Hparsed.
    destruct (len dds_data <? 128) eqn:Hlen; [discriminate Hparsed|].
    apply Z.ltb_ge in Hlen. split; [exact Hlen|].
    rewrite dds_magic_slice in Hparsed.
    destruct (startswith dds_data DDS_MAGIC); [reflexivity|discriminate Hparsed]. }
  assert (len (slice_to dds_data 128) = 128) as Hhead by (apply len_slice_to; lia).
  destruct (parse_dds_header_run dds_data Hlen Hmagic)
    as (h & wd & m & pf & rgb & Hh & Hw & Hm & Hpf & Hrgb & Hrun).
  destruct (parse_dds_header_run (slice_to dds_data 128)) as
    (h' & wd' & m' & pf' & rgb' & Hh' & Hw' & Hm' & Hpf' & Hrgb' & Hrun');
    [lia|now rewrite startswith_slice_to| ].
  rewrite !slice_slice_to in * by lia.
  rewrite Hrun in Hparsed. injection Hparsed as <-.
  rewrite Hrun', Hhead. cbn [DdsInfo.width DdsInfo.height DdsInfo.format DdsInfo.mipmap_count].
  rewrite Hh in Hh'. rewrite Hw in Hw'. rewrite Hm in Hm'. rewrite Hpf in Hpf'.
  rewrite Hrgb in Hrgb'.
  injection Hh' as <-. injection Hw' as <-. injection Hm' as <-. injection Hpf' as <-.
  injection Hrgb' as <-. reflexivity.
Qed.


Lemma slice_slice (data : bytes) (a b c d : Z) :
  0 <= a -> 0 <= c -> c <= d -> d <= b - a ->
  slice (slice data a b) c d = slice data (a + c) (a + d).
Proof.
  intros Ha Hc Hcd Hdb. unfold slice.
  rewrite !take_drop_commute, take_take, drop_drop.
  f_equal; [lia|]. f_equal. lia.
Qed.

(** [x & 2^n] is the bit [n] of [x]. *)
Lemma has_flag_testbit (x n : Z) :
  0 <= n -> has_flag x (2 ^ n) = Z.testbit x n.
Proof.
  intros Hn. unfold has_flag.
  destruct (Z.testbit x n) eqn:Hbit.
  - apply negb_true_iff, Z.eqb_neq. intros Hzero.
    apply (f_equal (fun y => Z.testbit y n)) in Hzero.
    rewrite Z.land_spec, Hbit, Z.pow2_bits_true, Z.bits_0 in Hzero by lia.
    discriminate Hzero.
  - apply negb_false_iff, Z.eqb_eq. apply Z.bits_inj'. intros m Hm.
    rewrite Z.land_spec, Z.bits_0, Z.pow2_bits_eqb by lia.
    destruct (Z.eqb_spec n m) as [<-|]; [now rewrite Hbit|apply andb_false_r].
Qed.

Lemma has_mipmaps_run (filepath : string) (w : world) :
  has_mipmaps filepath w =
    (w, match files w !! filepath with
        | Some f =>
            match unpack_u32_le (slice (file_data f) 8 12),
                  unpack_u32_le (slice (file_data f) 28 32) with
            | Ok flags, Ok mip_count => Z.testbit flags 17 && (1 <? mip_count)
            | _, _ => false
            end
        | None => false
        end).
Proof.
  unfold has_mipmaps, try_return, bind, read_binary, lift.
  destruct (files w !! filepath) as [f|]; [|reflexivity].
  rewrite (slice_slice (file_data f) 4 32 4 8), (slice_slice (file_data f) 4 32 24 28)
    by lia.
  change (4 + 4) with 8. change (4 + 8) with 12. change (4 + 24) with 28.
  change (4 + 28) with 32.
  destruct (unpack_u32_le (slice (file_data f) 8 12)) as [flags|e]; [|reflexivity].
  destruct (unpack_u32_le (slice (file_data f) 28 32)) as [mip|e]; [|reflexivity].
  cbn [ret]. change 131072 with (2 ^ 17). now rewrite (has_flag_testbit _ 17) by lia.
Qed.

(** X8.  [has_mipmaps] changes nothing, and answers [True] exactly for a
    file that can be read, is long enough for the two integers to be
    unpacked, has bit 17 ([0x20000]) set in the integer at offset 8 and
    more than 1 in the integer at offset 28; the magic is not looked at.
    For a file that [parse_dds_header] accepts, the number it compares is
    the number of mipmaps of the dictionary. *)
Theorem has_mipmaps_spec (filepath : string) (w : world) :
  let answer := has_mipmaps filepath w in
  fst answer = w /\
  (snd answer = true <->
   exists f flags mip_count,
     files w !! filepath = Some f /\
     unpack_u32_le (slice (file_data f) 8 12) = Ok flags /\
     unpack_u32_le (slice (file_data f) 28 32) = Ok mip_count /\
     Z.testbit flags 17 = true /\ 1 < mip_count) /\
  (forall f info,
     files w !! filepath = Some f ->
     parse_dds_header (file_data f) = (Some info, None) ->
     exists flags,
       unpack_u32_le (slice (file_data f) 8 12) = Ok flags /\
       snd answer = Z.testbit flags 17 && (1 <? DdsInfo.mipmap_count info)).
Proof.
  cbn zeta. rewrite has_mipmaps_run. cbn [fst snd].
  split; [reflexivity|]. split; [split|].
  - intros Hyes. destruct (files w !! filepath) as [f|]; [|discriminate Hyes].
    destruct (unpack_u32_le (slice (file_data f) 8 12)) as [flags|e] eqn:Hflags;
      [|discriminate Hyes].
    destruct (unpack_u32_le (slice (file_data f) 28 32)) as [mip|e] eqn:Hmip;
      [|discriminate Hyes].
    apply andb_prop in Hyes as [Hbit Hmore]. apply Z.ltb_lt in Hmore.
    exists f, flags, mip. repeat split; assumption.
  - intros (f & flags & mip & -> & -> & -> & Hbit & Hmore).
    rewrite Hbit. now apply Z.ltb_lt.
  - intros f info -> Hinfo.
    assert (128 <= len (file_data f) /\ startswith (file_data f) DDS_MAGIC = true)
      as [Hlen Hmagic].
    { unfold parse_dds_header, parse_dds_header_body in Hinfo.
      destruct (len (file_data f) <? 128) eqn:Hlen; [discriminate Hinfo|].
      apply Z.ltb_ge in Hlen. split; [exact Hlen|].
      rewrite dds_magic_slice in Hinfo.
      destruct (startswith (file_data f) DDS_MAGIC); [reflexivity|discriminate Hinfo]. }
    destruct (parse_dds_header_run _ Hlen Hmagic)
      as (h & wd & m & pf & rgb & _ & _ & Hcount & _ & _ & Hrun).
    rewrite Hrun in Hinfo. injection Hinfo as <-. cbn [DdsInfo.mipmap_count].
    destruct (unpack_u32_le_ok (file_data f) 8) as [flags Hflags]; [lia|lia|].
    change (8 + 4) with 12 in Hflags.
    exists flags. split; [exact Hflags|]. now rewrite Hflags, Hcount.
Qed.

(* ================================================================ *)
(** ** The temporary files of the preview *)

Lemma create_temp_dds_run (temp_files : list string) (filepath : string) (w : world) :
  create_temp_dds temp_files filepath w =
    match files w !! filepath with
    | None =>
        (add_log ("❌ Error creating temp DDS: " +:+
                  exn_str (FileNotFoundError filepath)) w, (temp_files, None))
    | Some f =>
        match fst (snd (extract_dds_data filepath w)) with
        | None => (w, (temp_files, None))
        | Some dds_data =>
            match tempfile_mkstemp ".dds" "preview_" w with
            | (w1, Ok temp_path) =>
                (set_files (<[temp_path := File dds_data None]> (files w1)) w1,
                 (temp_files ++ [temp_path], Some temp_path))
            | (w1, Raise e) =>
                (add_log ("❌ Error creating temp DDS: " +:+ exn_str e) w1,
                 (temp_files, None))
            end
        end
    end.
Proof.
  rewrite extract_dds_data_run. cbn [fst snd].
  unfold create_temp_dds, try_except, bind, read_binary.
  destruct (files w !! filepath) as [f|]; [|reflexivity].
  rewrite magic_slice, dds_magic_slice. cbn zeta.
  destruct (startswith (file_data f) TBX_MAGIC).
  - destruct (bytes_find (file_data f) DDS_MAGIC =? -1); [reflexivity|].
    cbn [fst]. destruct (tempfile_mkstemp ".dds" "preview_" w) as [w1 [p|e]]; reflexivity.
  - destruct (startswith (file_data f) DDS_MAGIC); [|reflexivity].
    cbn [fst]. destruct (tempfile_mkstemp ".dds" "preview_" w) as [w1 [p|e]]; reflexivity.
Qed.

Lemma create_temp_dds_holds_payload_aux
  (temp_files : list string) (filepath temp_path : string) (w w1 : world) :
  tempfile_mkstemp ".dds" "preview_" w = (w1, Ok temp_path) ->
  match fst (snd (extract_dds_data filepath w)) with
  | Some dds_data =>
      snd (create_temp_dds temp_files filepath w) =
        (temp_files ++ [temp_path], Some temp_path) /\
      files (fst (create_temp_dds temp_files filepath w)) =
        <[temp_path := File dds_data None]> (files w1)
  | None =>
      snd (create_temp_dds temp_files filepath w) = (temp_files, None) /\
      files (fst (create_temp_dds temp_files filepath w)) = files w
  end.
Proof.
  intros Hmkstemp. rewrite create_temp_dds_run.
  destruct (files w !! filepath) as [f|] eqn:Hf.
  - destruct (fst (snd (extract_dds_data filepath w))) as [dds_data|].
    + rewrite Hmkstemp. split; reflexivity.
    + split; reflexivity.
  - rewrite extract_dds_data_run, Hf. split; reflexivity.
Qed.

(** X9.  The temporary file of a preview holds the payload that
    [extract_dds_data] answers for the same path, and is tracked: where
    [extract_dds_data] answers a payload and [mkstemp] a path, the method
    answers that path, appends it to the tracked paths and stores the
    payload there; where [extract_dds_data] answers no payload, the
    method answers [None], tracks nothing more and writes nothing; and
    where [mkstemp] raises, the method logs the error, answers [None]
    and tracks nothing more. *)
Theorem create_temp_dds_holds_the_payload
  (temp_files : list string) (filepath : string) (w : world) :
  let created := create_temp_dds temp_files filepath w in
  let extracted := fst (snd (extract_dds_data filepath w)) in
  (extracted = None ->
   snd created = (temp_files, None) /\ files (fst created) = files w) /\
  (forall dds_data w1 temp_path,
     extracted = Some dds_data ->
     tempfile_mkstemp ".dds" "preview_" w = (w1, Ok temp_path) ->
     snd created = (temp_files ++ [temp_path], Some temp_path) /\
     files (fst created) = <[temp_path := File dds_data None]> (files w1)) /\
  (forall dds_data w1 e,
     extracted = Some dds_data ->
     tempfile_mkstemp ".dds" "preview_" w = (w1, Raise e) ->
     created =
       (add_log ("❌ Error creating temp DDS: " +:+ exn_str e) w1, (temp_files, None))).
Proof.
  cbn zeta. rewrite create_temp_dds_run.
  destruct (files w !! filepath) as [f|] eqn:Hf.
  - destruct (fst (snd (extract_dds_data filepath w))) as [dds_data|].
    + split; [discriminate|]. split.
      * intros d w1 temp_path Hd Hmkstemp. injection Hd as <-.
        rewrite Hmkstemp. split; reflexivity.
      * intros d w1 e Hd Hmkstemp. injection Hd as <-. now rewrite Hmkstemp.
    + split; [intros _; split; reflexivity|]. split; discriminate.
  - rewrite extract_dds_data_run, Hf. cbn [fst snd].
    split; [intros _; split; reflexivity|]. split; discriminate.
Qed.

Lemma remove_temp_file_effect (temp_path : string) (w : world) :
  files (fst (remove_temp_file temp_path w)) = delete temp_path (files w) /\
  dirs (fst (remove_temp_file temp_path w)) = dirs w.
Proof.
  unfold remove_temp_file, try_except, bind, path_exists, os_path_exists, os_unlink.
  destruct (files w !! temp_path) as [f|] eqn:Hf.
  - rewrite Hf. split; reflexivity.
  - destruct (bool_decide (temp_path ∈ dirs w)) eqn:Hd.
    + rewrite Hf, Hd. cbn [fst files dirs add_log]. now rewrite delete_id.
    + cbn [fst files dirs ret]. now rewrite delete_id.
Qed.

Lemma cleanup_temp_files_effect (temp_files : list string) (w : world) (d : string) :
  dirs (fst (cleanup_temp_files temp_files w)) = dirs w /\
  files (fst (cleanup_temp_files temp_files w)) !! d =
    if bool_decide (d ∈ temp_files) then None else files w !! d.
Proof.
  unfold cleanup_temp_files. cbn [fst]. revert w.
  induction temp_files as [|p rest IH]; intros w; cbn [fold_left].
  - split; [reflexivity|]. rewrite bool_decide_eq_false_2; [reflexivity|].
    apply not_elem_of_nil.
  - destruct (remove_temp_file_effect p w) as [Hfiles Hdirs].
    destruct (IH (fst (remove_temp_file p w))) as [IHdirs IHfiles].
    split; [now rewrite IHdirs|]. rewrite IHfiles, Hfiles.
    destruct (decide (d = p)) as [->|Hne].
    + rewrite lookup_delete_eq.
      rewrite (bool_decide_eq_true_2 (p ∈ p :: rest)) by apply list_elem_of_here.
      now destruct (bool_decide (p ∈ rest)).
    + rewrite lookup_delete_ne by congruence.
      destruct (bool_decide (d ∈ rest)) eqn:Hrest.
      * apply bool_decide_eq_true_1 in Hrest.
        now rewrite bool_decide_eq_true_2 by now apply list_elem_of_further.
      * apply bool_decide_eq_false_1 in Hrest.
        rewrite bool_decide_eq_false_2; [reflexivity|].
        intros Hin. apply elem_of_cons in Hin as [?|?]; contradiction.
Qed.

(** X10.  [cleanup_temp_files] removes every tracked path that is a file,
    leaves every other file and every directory as it is, and tracks
    nothing afterwards; a tracked path that cannot be removed (it is
    missing, or a directory) does not stop the loop. *)
Theorem cleanup_removes_what_is_tracked (temp_files : list string) (w : world) :
  let cleaned := cleanup_temp_files temp_files w in
  snd cleaned = [] /\
  dirs (fst cleaned) = dirs w /\
  (forall d, d ∈ temp_files -> files (fst cleaned) !! d = None) /\
  (forall d, d ∉ temp_files -> files (fst cleaned) !! d = files w !! d).
Proof.
  cbn zeta. split; [reflexivity|].
  split; [apply (cleanup_temp_files_effect temp_files w EmptyString)|].
  split; intros d Hd; destruct (cleanup_temp_files_effect temp_files w d) as [_ ->].
  - now rewrite bool_decide_eq_true_2.
  - now rewrite bool_decide_eq_false_2.
Qed.

(** X11.  A preview leaves no file behind: when [mkstemp] creates an
    empty file at a path that was free, the temporary file that
    [create_temp_dds] writes is removed by the next [cleanup_temp_files],
    and the files are then those that the clean-up alone would have
    left: with nothing tracked before, the files as they were. *)
Theorem preview_leaves_no_file
  (temp_files : list string) (filepath temp_path : string) (w w1 : world) :
  tempfile_mkstemp ".dds" "preview_" w = (w1, Ok temp_path) ->
  files w !! temp_path = None ->
  files w1 = <[temp_path := File [] None]> (files w) ->
  let created := create_temp_dds temp_files filepath w in
  let cleaned := cleanup_temp_files (fst (snd created)) (fst created) in
  snd cleaned = [] /\
  files (fst cleaned) = files (fst (cleanup_temp_files temp_files w)) /\
  (temp_files = [] -> files (fst cleaned) = files w).
Proof.
  intros Hmkstemp Hfree Hmade. cbn zeta.
  pose proof (create_temp_dds_holds_payload_aux temp_files filepath temp_path w w1 Hmkstemp)
    as Hcreated.
  assert (files (fst (cleanup_temp_files (fst (snd (create_temp_dds temp_files filepath w)))
                        (fst (create_temp_dds temp_files filepath w)))) =
          files (fst (cleanup_temp_files temp_files w))) as Hsame.
  { apply map_eq. intros d.
    destruct (cleanup_temp_files_effect
                (fst (snd (create_temp_dds temp_files filepath w)))
                (fst (create_temp_dds temp_files filepath w)) d) as [_ ->].
    destruct (cleanup_temp_files_effect temp_files w d) as [_ ->].
    destruct (fst (snd (extract_dds_data filepath w))) as [dds_data|].
    - destruct Hcreated as [-> ->]. cbn [fst]. rewrite Hmade, insert_insert_eq.
      destruct (decide (d = temp_path)) as [->|Hne].
      + rewrite bool_decide_eq_true_2
          by (apply elem_of_app; right; apply list_elem_of_here).
        rewrite Hfree. now destruct (bool_decide (temp_path ∈ temp_files)).
      + rewrite lookup_insert_ne by congruence.
        destruct (bool_decide (d ∈ temp_files)) eqn:Hin.
        * apply bool_decide_eq_true_1 in Hin.
          now rewrite bool_decide_eq_true_2 by (apply elem_of_app; now left).
        * apply bool_decide_eq_false_1 in Hin.
          rewrite bool_decide_eq_false_2; [reflexivity|].
          intros Hd. apply elem_of_app in Hd as [?|Hd]; [contradiction|].
          apply list_elem_of_singleton in Hd. contradiction.
    - destruct Hcreated as [-> ->]. reflexivity. }
  split; [reflexivity|]. split; [exact Hsame|].
  intros ->. rewrite Hsame. reflexivity.
Qed.

Lemma extracted_payload_has_magic (filepath : string) (w : world) (dds_data : bytes) :
  fst (snd (extract_dds_data filepath w)) = Some dds_data ->
  startswith dds_data DDS_MAGIC = true.
Proof.
  rewrite extract_dds_data_run. cbn [fst snd].
  destruct (files w !! filepath) as [f|]; [|discriminate]. cbn zeta.
  destruct (startswith (file_data f) TBX_MAGIC).
  - destruct (bytes_find (file_data f) DDS_MAGIC =? -1) eqn:Hk; [discriminate|].
    apply Z.eqb_neq in Hk. cbn [fst]. intros H. injection H as <-.
    unfold slice_from.
    replace (bytes_find (file_data f) DDS_MAGIC)
      with (bytes_find (file_data f) DDS_MAGIC - 0) by lia.
    apply (find_from_occurrence DDS_MAGIC (file_data f) 0); [lia|reflexivity|exact Hk].
  - destruct (startswith (file_data f) DDS_MAGIC) eqn:Hd; [|discriminate].
    cbn [fst]. intros H. now injection H as <-.
Qed.

Lemma parse_dds_header_from_file_run (dds_path : string) (w : world) :
  parse_dds_header_from_file dds_path w =
    (w, match files w !! dds_path with
        | Some f => parse_dds_header (slice_to (file_data f) 128)
        | None =>
            (None, Some ("Error reading DDS file: " +:+
                         exn_str (FileNotFoundError dds_path)))
        end).
Proof.
  unfold parse_dds_header_from_file, try_return, bind, read_binary.
  destruct (files w !! dds_path); reflexivity.
Qed.

(** X12.  The two steps of a preview, one after the other: the header
    read from the temporary file is the header of the extracted payload.
    Since that payload starts with the payload magic, the only refusal
    left is that of a payload shorter than 128 bytes; for every other
    payload the dictionary is that of [parse_dds_header] on the whole
    payload, with 128 for [size]. *)
Theorem preview_reads_the_payload_header
  (temp_files : list string) (filepath temp_path : string) (w w1 : world)
  (dds_data : bytes) :
  tempfile_mkstemp ".dds" "preview_" w = (w1, Ok temp_path) ->
  fst (snd (extract_dds_data filepath w)) = Some dds_data ->
  let created := create_temp_dds temp_files filepath w in
  let parsed := snd (parse_dds_header_from_file temp_path (fst created)) in
  snd (snd created) = Some temp_path /\
  (len dds_data < 128 -> parsed = (None, Some "DDS data too small")) /\
  (128 <= len dds_data ->
   exists info,
     parse_dds_header dds_data = (Some info, None) /\
     parsed =
       (Some (DdsInfo.Make (DdsInfo.width info) (DdsInfo.height info)
                (DdsInfo.format info) (DdsInfo.mipmap_count info) 128), None)).
Proof.
  intros Hmkstemp Hextracted. cbn zeta.
  pose proof (create_temp_dds_holds_payload_aux temp_files filepath temp_path w w1 Hmkstemp)
    as Hcreated.
  pose proof (extracted_payload_has_magic filepath w dds_data Hextracted) as Hmagic.
  rewrite Hextracted in Hcreated. destruct Hcreated as [Hanswer Hfiles].
  rewrite Hanswer. split; [reflexivity|].
  rewrite parse_dds_header_from_file_run, Hfiles, lookup_insert_eq. cbn [snd file_data].
  split.
  - intros Hlen. unfold parse_dds_header, parse_dds_header_body.
    assert (len (slice_to dds_data 128) < 128) as Hshort.
    { unfold len, slice_to in *. rewrite length_take. lia. }
    now replace (len (slice_to dds_data 128) <? 128) with true
      by (symmetry; apply Z.ltb_lt; lia).
  - intros Hlen.
    destruct (parse_dds_header_run dds_data Hlen Hmagic)
      as (h & wd & m & pf & rgb & _ & _ & _ & _ & _ & Hrun).
    eexists. split; [exact Hrun|].
    now rewrite (parse_dds_header_of_head dds_data _ Hrun).
Qed.

(* ================================================================ *)
(** ** The search for files *)

Lemma str_le_total (a b : string) : str_le a b \/ str_le b a.
Proof. apply String.leb_total. Qed.

Lemma str_le_trans (a b c : string) : str_le a b -> str_le b c -> str_le a c.
Proof.
  unfold str_le, String.leb. revert b c.
  induction a as [|x a IH]; intros [|y b] [|z c]; cbn [String.compare];
    try reflexivity; try discriminate.
  unfold Ascii.compare.
  destruct (N.compare_spec (N_of_ascii x) (N_of_ascii y)) as [Hxy|Hxy|Hxy];
    destruct (N.compare_spec (N_of_ascii y) (N_of_ascii z)) as [Hyz|Hyz|Hyz];
    destruct (N.compare_spec (N_of_ascii x) (N_of_ascii z)) as [Hxz|Hxz|Hxz];
    try reflexivity; try discriminate; try lia.
  apply IH.
Qed.

(** The files of the walk with one of the extensions, before sorting. *)
Lemma find_files_in_folder_elem (folder_path : string) (extensions : list string)
  (p : string) :
  p ∈ find_files_in_folder folder_path extensions <->
  exists root dirnames filenames filename,
    (root, dirnames, filenames) ∈ os_walk folder_path /\
    filename ∈ filenames /\
    has_extension extensions filename = true /\
    p = os_path_join root filename.
Proof.
  unfold find_files_in_folder, sorted. rewrite merge_sort_Permutation.
  rewrite !list_elem_of_In, in_flat_map. split.
  - intros ([[root dirnames] filenames] & Hwalk & Hp).
    apply in_map_iff in Hp as (filename & <- & Hfilename).
    apply filter_In in Hfilename as [Hfilename Hext].
    exists root, dirnames, filenames, filename.
    now rewrite !list_elem_of_In.
  - intros (root & dirnames & filenames & filename & Hwalk & Hfilename & Hext & ->).
    exists (root, dirnames, filenames). rewrite <- list_elem_of_In. split; [exact Hwalk|].
    apply in_map, filter_In. now rewrite <- list_elem_of_In.
Qed.

(** X13.  [find_files_in_folder] answers the paths in ascending order,
    and they are the joined paths of the files of the walk whose name
    ends, case set aside, with one of the extensions: none is left out
    and none is made up.  The answer is the only sorted arrangement of
    these paths, so that the order in which the walk lists directories
    and files does not show in it. *)
Theorem find_files_in_folder_sorted_and_complete
  (folder_path : string) (extensions : list string) :
  let found := find_files_in_folder folder_path extensions in
  StronglySorted str_le found /\
  (forall p,
     p ∈ found <->
     exists root dirnames filenames filename,
       (root, dirnames, filenames) ∈ os_walk folder_path /\
       filename ∈ filenames /\
       has_extension extensions filename = true /\
       p = os_path_join root filename) /\
  (forall l, l ≡ₚ found -> StronglySorted str_le l -> l = found).
Proof.
  cbn zeta.
  assert (StronglySorted str_le (find_files_in_folder folder_path extensions)) as Hsorted
    by (apply (@StronglySorted_merge_sort string str_le _ str_le_trans str_le_total)).
  split; [exact Hsorted|]. split; [apply find_files_in_folder_elem|].
  intros l Hperm Hl.
  now apply (@StronglySorted_unique string str_le String.leb_antisym).
Qed.

(** No name ends with both extensions. *)
Lemma extensions_exclude (s : string) :
  lower_endswith s ".xbt" = true -> lower_endswith s ".dds" = false.
Proof.
  unfold lower_endswith. destruct (rev (list_ascii_of_string s)) as [|c l];
    [discriminate|].
  cbn [list_ascii_of_string rev app rev_prefix_lower].
  destruct (Ascii.eqb_spec "t" (ascii_lower c)) as [<-|]; [reflexivity|discriminate].
Qed.

Lemma filter_lengths {A} (p q : A -> bool) (l : list A) :
  (forall x, In x l -> p x = negb (q x)) ->
  len l = len (List.filter p l) + len (List.filter q l).
Proof.
  unfold len. induction l as [|x l IH]; intros H; [reflexivity|].
  cbn [List.filter]. rewrite (H x) by now left.
  assert (forall y, In y l -> p y = negb (q y)) as Hl by (intros y Hy; apply H; now right).
  specialize (IH Hl). destruct (q x); cbn [negb length]; lia.
Qed.

(* ================================================================ *)
(** ** Where the methods write *)

Section Footprint.

(** A relation between the worlds before and after that holds when
    nothing happens, composes, and holds across a line of log, a write
    to a path of [may_write] and the making of a directory of
    [may_make]. *)
Variable R : relation world.
Variable may_write : string -> Prop.
Variable may_make : string -> Prop.
Hypothesis R_refl : forall w, R w w.
Hypothesis R_trans : forall w1 w2 w3, R w1 w2 -> R w2 w3 -> R w1 w3.
Hypothesis R_log : forall w msg, R w (add_log msg w).
Hypothesis R_write :
  forall w p f, may_write p -> R w (set_files (<[p := f]> (files w)) w).
Hypothesis R_make :
  forall w p, may_make p -> R w (World (files w) ({[p]} ∪ dirs w) (log w)).

Collection footprint := R_refl R_trans R_log R_write R_make.
Set Default Proof Using "Type + footprint".

Lemma within_ret {A} (a : A) : within R (ret a).
Proof. intros w. apply R_refl. Qed.

Lemma within_raise {A} (e : exn) : within R (raise (A := A) e).
Proof. intros w. apply R_refl. Qed.

Lemma within_lift {A} (r : result A) : within R (lift r).
Proof. intros w. apply R_refl. Qed.

Lemma within_ask {A} (f : world -> A) : within R (ask f).
Proof. intros w. apply R_refl. Qed.

Lemma within_log (msg : string) : within R (log_message msg).
Proof. intros w. apply R_log. Qed.

Lemma within_path_exists (path : string) : within R (path_exists path).
Proof. intros w. apply R_refl. Qed.

Lemma within_read_binary (path : string) : within R (read_binary path).
Proof. intros w. unfold read_binary. destruct (files w !! path); apply R_refl. Qed.

Lemma within_ET_parse (path : string) : within R (ET_parse path).
Proof.
  intros w. unfold ET_parse. destruct (files w !! path) as [f|]; [|apply R_refl].
  destruct (file_xml f); apply R_refl.
Qed.

Lemma within_write_binary (path : string) (data : bytes) :
  may_write path -> within R (write_binary path data).
Proof. intros Hpath w. now apply R_write. Qed.

Lemma within_write_pretty_xml (path : string) (dom : Element) :
  may_write path -> within R (write_pretty_xml path dom).
Proof. intros Hpath w. now apply R_write. Qed.

Lemma within_shutil_copy2 (src dst : string) :
  may_write dst -> within R (shutil_copy2 src dst).
Proof.
  intros Hdst w. unfold shutil_copy2. destruct (files w !! src); [|apply R_refl].
  destruct (String.eqb src dst); [apply R_refl|now apply R_write].
Qed.

Lemma within_os_makedirs (path : string) :
  may_make path -> within R (os_makedirs path).
Proof. intros Hpath w. now apply R_make. Qed.

Lemma within_bind {A B} (m : M A) (k : A -> M B) :
  within R m -> (forall a, within R (k a)) -> within R (bind m k).
Proof.
  intros Hm Hk w. unfold bind. specialize (Hm w).
  destruct (m w) as [w1 [a|e]]; cbn [fst] in *; [|exact Hm].
  eapply R_trans; [exact Hm|apply Hk].
Qed.

Lemma within_try_catch {A} (m : M A) (h : exn -> M A) :
  within R m -> (forall e, within R (h e)) -> within R (try_catch m h).
Proof.
  intros Hm Hh w. unfold try_catch. specialize (Hm w).
  destruct (m w) as [w1 [a|e]]; cbn [fst] in *; [exact Hm|].
  eapply R_trans; [exact Hm|apply Hh].
Qed.

Lemma within_try_except {A} (m : M A) (msg : exn -> string) (a : A) :
  within R m -> within R (try_except m msg a).
Proof.
  intros Hm w. unfold try_except. specialize (Hm w).
  destruct (m w) as [w1 [x|e]]; cbn [fst] in *; [exact Hm|].
  eapply R_trans; [exact Hm|apply R_log].
Qed.

Lemma within_try_return {A} (m : M A) (h : exn -> A) :
  within R m -> within R (try_return m h).
Proof.
  intros Hm w. unfold try_return. specialize (Hm w).
  destruct (m w) as [w1 [x|e]]; exact Hm.
Qed.

Lemma within_call {A} (f : world -> world * A) : within R f -> within R (call f).
Proof. intros Hf w. unfold call. specialize (Hf w). now destruct (f w). Qed.

Ltac within_step :=
  lazymatch goal with
  | |- within _ (bind _ _) => apply within_bind; [|intros ?]
  | |- within _ (ret _) => apply within_ret
  | |- within _ (raise _) => apply within_raise
  | |- within _ (lift _) => apply within_lift
  | |- within _ (ask _) => apply within_ask
  | |- within _ (log_message _) => apply within_log
  | |- within _ (path_exists _) => apply within_path_exists
  | |- within _ (read_binary _) => apply within_read_binary
  | |- within _ (ET_parse _) => apply within_ET_parse
  | |- within _ (call _) => apply within_call
  | |- within _ (try_catch _ _) => apply within_try_catch; [|intros ?]
  | |- within _ (try_except _ _ _) => apply within_try_except
  | |- within _ (try_return _ _) => apply within_try_return
  | |- within _ (if ?b then _ else _) => destruct b
  | |- within _ (match ?x with _ => _ end) => destruct x
  end.

Ltac within_steps := cbn zeta; repeat (within_step; cbn zeta).

Lemma within_detect_file_type (filepath : string) :
  within R (detect_file_type filepath).
Proof. unfold detect_file_type. within_steps. Qed.

Lemma within_parse_xbt_header (data : bytes) : within R (parse_xbt_header data).
Proof. unfold parse_xbt_header. within_steps. Qed.

Lemma within_save_header_to_xml (header_data : bytes) (xml_path : string) :
  may_write xml_path -> within R (save_header_to_xml header_data xml_path).
Proof.
  intros Hxml. unfold save_header_to_xml, metadata_fields, embedded_path_field.
  within_steps. now apply within_write_pretty_xml.
Qed.

Lemma within_load_header_from_xml (xml_path : string) :
  within R (load_header_from_xml xml_path).
Proof. unfold load_header_from_xml, log_metadata. within_steps. Qed.

Lemma within_xbt_to_dds_batch (input_path output_path xml_output_path : string) :
  may_write output_path -> may_write xml_output_path ->
  within R (xbt_to_dds_batch input_path output_path xml_output_path).
Proof.
  intros Hout Hxml. unfold xbt_to_dds_batch. within_steps.
  - apply within_parse_xbt_header.
  - now apply within_save_header_to_xml.
  - now apply within_write_binary.
Qed.

Lemma within_dds_to_xbt (input_path output_path : string) :
  fix_dds_format = false ->
  may_write output_path ->
  within R (dds_to_xbt input_path output_path).
Proof.
  intros Hfix Hout. unfold dds_to_xbt, actual_dds_path_of. rewrite Hfix.
  within_steps.
  - apply within_load_header_from_xml.
  - now apply within_write_binary.
Qed.

Lemma within_xbt_to_dds (input_path output_path : string) :
  may_write output_path ->
  may_write (fst (os_path_splitext output_path) +:+ ".xml") ->
  within R (xbt_to_dds input_path output_path).
Proof.
  intros Hout Hxml w. rewrite xbt_to_dds_as_batch. now apply within_xbt_to_dds_batch.
Qed.

Lemma within_convert_single_file (input_path : string) :
  fix_dds_format = false ->
  let base_name := fst (os_path_splitext input_path) in
  may_write (base_name +:+ ".dds") ->
  may_write (fst (os_path_splitext (base_name +:+ ".dds")) +:+ ".xml") ->
  may_write (base_name +:+ ".xbt") ->
  within R (convert_single_file input_path).
Proof.
  intros Hfix base_name Hdds Hxml Hxbt. unfold convert_single_file.
  fold base_name.
  apply within_try_except, within_bind.
  - within_steps. apply within_detect_file_type.
  - intros direction. within_steps.
    + now apply within_xbt_to_dds.
    + now apply within_dds_to_xbt.
Qed.

Lemma within_stage_file (folder_path extract_dir : string) (total i : Z)
  (xbt_file : string) :
  (forall f, may_write (os_path_join extract_dir (os_path_basename f))) ->
  within R (stage_file folder_path extract_dir total i xbt_file).
Proof.
  intros Hdir. unfold stage_file. within_steps. now apply within_shutil_copy2.
Qed.

Lemma within_stage_files (folder_path extract_dir : string) (total : Z)
  (xbt_files : list string) (i : Z) (w : world) :
  (forall f, may_write (os_path_join extract_dir (os_path_basename f))) ->
  R w (stage_files folder_path extract_dir total i xbt_files w).
Proof.
  intros Hdir. revert i w. induction xbt_files as [|g rest IH]; intros i w;
    cbn [stage_files]; [apply R_refl|].
  pose proof (within_stage_file folder_path extract_dir total i g Hdir w) as Hstep.
  destruct (stage_file folder_path extract_dir total i g w) as [w1 []].
  eapply R_trans; [exact Hstep|apply IH].
Qed.

Lemma within_convert_file_in_batch (convert_dir : string) (total : Z)
  (c : counters) (i : Z) (input_path : string) :
  fix_dds_format = false ->
  (forall f ext, In ext [".dds"; ".xbt"; ".xml"] ->
     may_write (os_path_join convert_dir
                  (fst (os_path_splitext (os_path_basename f)) +:+ ext))) ->
  within R (convert_file_in_batch convert_dir total c i input_path).
Proof.
  intros Hfix Hdir. unfold convert_file_in_batch, current_conversion_of.
  apply within_try_except, within_bind; [apply within_lift|intros _].
  apply within_bind.
  - within_steps. apply within_detect_file_type.
  - intros [direction|]; [|apply within_ret].
    apply within_bind; [apply within_ask|intros [can_convert error_msg]].
    within_steps.
    + apply within_xbt_to_dds_batch; apply Hdir; cbn [In]; auto.
    + apply within_dds_to_xbt; [exact Hfix|]. apply Hdir; cbn [In]; auto.
Qed.

Lemma within_convert_files (convert_dir : string) (total : Z)
  (files_to_convert : list string) (c : counters) (i : Z) :
  fix_dds_format = false ->
  (forall f ext, In ext [".dds"; ".xbt"; ".xml"] ->
     may_write (os_path_join convert_dir
                  (fst (os_path_splitext (os_path_basename f)) +:+ ext))) ->
  within R (convert_files convert_dir total c i files_to_convert).
Proof.
  intros Hfix Hdir. revert c i.
  induction files_to_convert as [|g rest IH]; intros c i w;
    cbn [convert_files]; [apply R_refl|].
  pose proof (within_convert_file_in_batch convert_dir total c i g Hfix Hdir w) as Hstep.
  destruct (convert_file_in_batch convert_dir total c i g w) as [w1 c1].
  eapply R_trans; [exact Hstep|apply IH].
Qed.

Lemma within_ensure_dir (d created existing : string) :
  may_make d -> within R (ensure_dir d created existing).
Proof.
  intros Hd. unfold ensure_dir. within_steps. now apply within_os_makedirs.
Qed.

Lemma within_convert_batch (folder_path : string) :
  fix_dds_format = false ->
  within R (find_files_in_folder_with_progress folder_path extensions_of_type) ->
  let extract_dir := os_path_join converter_root "extracted_xbt_files" in
  let convert_dir := os_path_join converter_root "converted_dds_files" in
  may_make extract_dir -> may_make convert_dir ->
  (forall f, may_write (os_path_join extract_dir (os_path_basename f))) ->
  (forall f ext, In ext [".dds"; ".xbt"; ".xml"] ->
     may_write (os_path_join convert_dir
                  (fst (os_path_splitext (os_path_basename f)) +:+ ext))) ->
  within R (convert_batch folder_path).
Proof.
  intros Hfix Hfind extract_dir convert_dir Hextract Hconvert Hstaged Hconverted.
  unfold convert_batch. fold extract_dir convert_dir.
  apply within_try_except, within_bind; [apply within_log|intros _]. cbn zeta.
  apply within_bind; [exact Hfind|intros found].
  destruct found as [|p found']; [within_steps|].
  remember (p :: found') as found.
  do 3 (apply within_bind; [apply within_log|intros _]).
  apply within_bind.
  - unfold step2_extract.
    destruct (List.filter (fun f => lower_endswith f ".xbt") found) as [|x xbt_files];
      [apply within_ret|].
    apply within_bind; [apply within_log|intros _].
    apply within_bind; [now apply within_ensure_dir|intros _].
    apply within_bind; [|intros _; apply within_lift].
    apply within_call. intros w. cbn [fst]. now apply within_stage_files.
  - intros _. unfold step3_convert.
    apply within_bind; [apply within_log|intros _].
    apply within_bind; [now apply within_ensure_dir|intros _]. cbn zeta.
    destruct (files_to_convert_of extract_dir
                (List.filter (fun f => lower_endswith f ".xbt") found)
                (List.filter (fun f => lower_endswith f ".dds") found))
      as [|q files_to_convert]; [within_steps|].
    apply within_bind; [apply within_call; now apply within_convert_files|intros c].
    apply within_bind; [apply within_lift|intros _].
    unfold log_summary. within_steps.
Qed.

Set Default Proof Using "Type".

End Footprint.

(** X15.  A batch run, with the re-encoding of payloads disabled and a
    search that writes nothing, writes nowhere but at the staged paths
    of its extraction directory (the directory joined with a base name)
    and at the output and sidecar paths of its conversion directory (the
    directory joined with a base name whose extension is replaced by
    [.dds], [.xbt] or [.xml]): every other path, and so every file of
    the folder it converts, holds after the run what it held before.
    It removes no directory and makes none but these two. *)
Theorem batch_footprint (folder_path : string) (w : world) :
  fix_dds_format = false ->
  (forall w0,
     let searched :=
       fst (find_files_in_folder_with_progress folder_path extensions_of_type w0) in
     files searched = files w0 /\ dirs searched = dirs w0) ->
  let extract_dir := os_path_join converter_root "extracted_xbt_files" in
  let convert_dir := os_path_join converter_root "converted_dds_files" in
  let after := fst (convert_batch folder_path w) in
  (forall d,
     (forall f, os_path_join extract_dir (os_path_basename f) <> d) ->
     (forall f ext, In ext [".dds"; ".xbt"; ".xml"] ->
        os_path_join convert_dir
          (fst (os_path_splitext (os_path_basename f)) +:+ ext) <> d) ->
     files after !! d = files w !! d) /\
  dirs w ⊆ dirs after /\
  dirs after ⊆ dirs w ∪ {[extract_dir; convert_dir]}.
Proof.
  intros Hfix Hsearch. cbn zeta. split.
  - intros d Hstaged Hconverted.
    apply (within_convert_batch (same_file_at d) (fun p => p <> d) (fun _ => True)).
    + intros w0. reflexivity.
    + intros w1 w2 w3 H12 H23. unfold same_file_at in *. now rewrite H23.
    + intros w0 msg. reflexivity.
    + intros w0 p g Hp. unfold same_file_at. cbn [files set_files].
      now apply lookup_insert_ne.
    + intros w0 p _. reflexivity.
    + exact Hfix.
    + intros w0. unfold same_file_at. destruct (Hsearch w0) as [-> _]. reflexivity.
    + exact I.
    + exact I.
    + exact Hstaged.
    + exact Hconverted.
  - set (made := {[os_path_join converter_root "extracted_xbt_files";
                   os_path_join converter_root "converted_dds_files"]} : gset string).
    assert (forall w0, dirs_grow_by made w0 w0) as Hrefl
      by (intros w0; split; [reflexivity|apply union_subseteq_l]).
    apply (within_convert_batch (dirs_grow_by made) (fun _ => True) (fun p => p ∈ made)).
    + exact Hrefl.
    + intros w1 w2 w3 [H12 H21] [H23 H32]. split; [now transitivity (dirs w2)|].
      intros x Hx. apply H32, elem_of_union in Hx as [Hx|Hx].
      * now apply H21.
      * now apply elem_of_union_r.
    + intros w0 msg. exact (Hrefl w0).
    + intros w0 p g _. exact (Hrefl w0).
    + intros w0 p Hp. split; cbn [dirs]; [apply union_subseteq_r|].
      intros x Hx. apply elem_of_union in Hx as [Hx|Hx].
      * apply elem_of_singleton in Hx as ->. now apply elem_of_union_r.
      * now apply elem_of_union_l.
    + exact Hfix.
    + intros w0. destruct (Hsearch w0) as [_ Hdirs]. split; cbn zeta in Hdirs.
      * now rewrite Hdirs.
      * rewrite Hdirs. apply union_subseteq_l.
    + apply elem_of_union_l, elem_of_singleton. reflexivity.
    + apply elem_of_union_r, elem_of_singleton. reflexivity.
    + intros; exact I.
    + intros; exact I.
Qed.


(* ================================================================ *)
(** ** Single files *)

Lemma append_inj_l (a x y : string) : a +:+ x = a +:+ y -> x = y.
Proof.
  induction a as [|c a IH]; simpl; intros H; [exact H|].
  injection H as H. now apply IH.
Qed.

(** A single-file conversion, once its direction is known: the two lines
    of log, the split or the join, and the line that names the output
    when it succeeds. *)
Lemma convert_single_file_run (input_path direction : string) (w : world) :
  (if String.eqb conversion_type "auto" then
     exists f, files w !! input_path = Some f /\
       ((startswith (file_data f) TBX_MAGIC = true /\ direction = "xbt_to_dds") \/
        (startswith (file_data f) TBX_MAGIC = false /\
         startswith (file_data f) DDS_MAGIC = true /\ direction = "dds_to_xbt"))
   else direction = conversion_type) ->
  let w0 := add_log ("📂 Input file: " +:+ input_path)
              (add_log ("🚀 Starting conversion: " +:+ direction) w) in
  let base_name := fst (os_path_splitext input_path) in
  let to_dds := String.eqb direction "xbt_to_dds" in
  let output_path := base_name +:+ (if to_dds then ".dds" else ".xbt") in
  let done := if to_dds then xbt_to_dds input_path output_path w0
              else dds_to_xbt input_path output_path w0 in
  convert_single_file input_path w =
    (if snd done then add_log ("💾 Output file: " +:+ output_path) (fst done)
     else fst done,
     snd done).
Proof.
  intros Hdirection. cbn zeta.
  assert ((if String.eqb conversion_type "auto" then
             file_type <- call (detect_file_type input_path) ;;
             if String.eqb file_type "xbt" then ret "xbt_to_dds"
             else if String.eqb file_type "dds" then ret "dds_to_xbt"
             else raise (ValueError
                    "Unable to detect file type. Please specify conversion direction manually.")
           else ret conversion_type) w = (w, Ok direction)) as Hresolved.
  { destruct (String.eqb conversion_type "auto").
    - destruct Hdirection as (f & Hf & Hkind).
      unfold bind, call. rewrite detect_file_type_run, Hf.
      destruct Hkind as [[-> ->] | (-> & -> & ->)]; reflexivity.
    - now rewrite Hdirection. }
  unfold convert_single_file, try_except. unfold bind at 1.
  rewrite Hresolved. unfold bind, log_message.
  destruct (String.eqb direction "xbt_to_dds"); unfold call.
  - destruct (xbt_to_dds _ _ _) as [w1 [|]]; reflexivity.
  - destruct (dds_to_xbt _ _ _) as [w1 [|]]; reflexivity.
Qed.

(** X16.  The conversion of a single file, with the re-encoding of
    payloads disabled, writes nowhere but at its output path, [.dds] or
    [.xbt] in place of the extension of the input, and at the sidecar
    path of a split; it makes and removes no directory.  Once the
    direction is known, the other output path is left alone as well: a
    split writes only the payload and the sidecar, a join only the
    container, so that a container that is split stays as it is. *)
Theorem single_file_footprint (input_path : string) (w : world) :
  fix_dds_format = false ->
  let base_name := fst (os_path_splitext input_path) in
  let xml_path := fst (os_path_splitext (base_name +:+ ".dds")) +:+ ".xml" in
  let after := fst (convert_single_file input_path w) in
  (forall d,
     d <> base_name +:+ ".dds" -> d <> xml_path -> d <> base_name +:+ ".xbt" ->
     files after !! d = files w !! d) /\
  dirs after = dirs w /\
  (forall d,
     (conversion_type = "xbt_to_dds" \/
      (conversion_type = "auto" /\
       exists f, files w !! input_path = Some f /\
                 startswith (file_data f) TBX_MAGIC = true)) ->
     d <> base_name +:+ ".dds" -> d <> xml_path ->
     files after !! d = files w !! d) /\
  (forall d,
     (conversion_type = "dds_to_xbt" \/
      (conversion_type = "auto" /\
       exists f, files w !! input_path = Some f /\
                 startswith (file_data f) DDS_MAGIC = true)) ->
     d <> base_name +:+ ".xbt" ->
     files after !! d = files w !! d).
Proof.
  intros Hfix. cbn zeta.
  assert (forall d w1 w2 w3, same_file_at d w1 w2 -> same_file_at d w2 w3 ->
            same_file_at d w1 w3) as Htrans
    by (intros d w1 w2 w3 H12 H23; unfold same_file_at in *; now rewrite H23).
  assert (forall d w0 p g, p <> d ->
            same_file_at d w0 (set_files (<[p := g]> (files w0)) w0)) as Hwrite
    by (intros d w0 p g Hp; unfold same_file_at; cbn [files set_files];
        now apply lookup_insert_ne).
  split; [|split; [|split]].
  - intros d Hdds Hxml Hxbt.
    apply (within_convert_single_file (same_file_at d) (fun p => p <> d) (fun _ => False)).
    + intros w0. reflexivity.
    + apply Htrans.
    + intros w0 msg. reflexivity.
    + apply Hwrite.
    + intros w0 p [].
    + exact Hfix.
    + congruence.
    + congruence.
    + congruence.
  - apply (within_convert_single_file (fun w0 w1 => dirs w1 = dirs w0)
             (fun _ => True) (fun _ => False)).
    + intros w0. reflexivity.
    + intros w1 w2 w3 H12 H23. now rewrite H23.
    + intros w0 msg. reflexivity.
    + intros w0 p g _. reflexivity.
    + intros w0 p [].
    + exact Hfix.
    + exact I.
    + exact I.
    + exact I.
  - intros d Hdirection Hdds Hxml.
    rewrite (convert_single_file_run input_path "xbt_to_dds" w).
    2: { destruct Hdirection as [Hc | (Hc & f & Hf & Hmagic)]; rewrite Hc.
         - reflexivity.
         - change (String.eqb "auto" "auto") with true. cbn iota.
           exists f. split; [exact Hf|]. left. now split. }
    cbn zeta. change (String.eqb "xbt_to_dds" "xbt_to_dds") with true. cbn iota.
    match goal with |- context [xbt_to_dds ?i ?o ?w0] =>
      pose proof (within_xbt_to_dds (same_file_at d) (fun p => p <> d) (fun _ => False)
                    (fun w1 => eq_refl) (Htrans d) (fun w1 msg => eq_refl) (Hwrite d)
                    (fun w1 p (H : False) => match H with end) i o) as Hsplit;
      destruct (xbt_to_dds i o w0) as [w1 done] eqn:Hdone
    end.
    match type of Hdone with xbt_to_dds ?i ?o ?w0 = _ =>
      assert (files w1 !! d = files w0 !! d) as Hsame
        by (specialize (Hsplit ltac:(congruence) ltac:(congruence) w0);
            unfold same_file_at in Hsplit; now rewrite Hdone in Hsplit)
    end.
    cbn [fst snd]. destruct done; cbn [files add_log] in *; exact Hsame.
  - intros d Hdirection Hxbt.
    rewrite (convert_single_file_run input_path "dds_to_xbt" w).
    2: { destruct Hdirection as [Hc | (Hc & f & Hf & Hmagic)]; rewrite Hc.
         - reflexivity.
         - change (String.eqb "auto" "auto") with true. cbn iota.
           exists f. split; [exact Hf|]. right.
           destruct (startswith (file_data f) TBX_MAGIC) eqn:Hx;
             [apply magics_exclude in Hx; congruence|now repeat split]. }
    cbn zeta. change (String.eqb "dds_to_xbt" "xbt_to_dds") with false. cbn iota.
    match goal with |- context [dds_to_xbt ?i ?o ?w0] =>
      pose proof (within_dds_to_xbt (same_file_at d) (fun p => p <> d) (fun _ => False)
                    (fun w1 => eq_refl) (Htrans d) (fun w1 msg => eq_refl) (Hwrite d)
                    (fun w1 p (H : False) => match H with end) i o Hfix) as Hjoin;
      destruct (dds_to_xbt i o w0) as [w1 done] eqn:Hdone
    end.
    match type of Hdone with dds_to_xbt ?i ?o ?w0 = _ =>
      assert (files w1 !! d = files w0 !! d) as Hsame
        by (specialize (Hjoin ltac:(congruence) w0);
            unfold same_file_at in Hjoin; now rewrite Hdone in Hjoin)
    end.
    cbn [fst snd]. destruct done; cbn [files add_log] in *; exact Hsame.
Qed.

(** X17.  In the automatic mode a file of neither kind, or a path that
    cannot be read, is refused: the method answers [False], writes
    nothing, makes no directory, and the last line of the log says that
    the type could not be detected. *)
Theorem single_file_of_unknown_type (input_path : string) (w : world) :
  conversion_type = "auto" ->
  (forall f, files w !! input_path = Some f ->
     startswith (file_data f) TBX_MAGIC = false /\
     startswith (file_data f) DDS_MAGIC = false) ->
  let refused := convert_single_file input_path w in
  snd refused = false /\
  files (fst refused) = files w /\
  dirs (fst refused) = dirs w /\
  last (log (fst refused)) =
    Some ("❌ Single file conversion error: " +:+
          "Unable to detect file type. Please specify conversion direction manually.").
Proof.
  intros Hauto Hunknown. cbn zeta.
  unfold convert_single_file, try_except, bind, call. rewrite Hauto.
  change (String.eqb "auto" "auto") with true. cbn beta iota.
  rewrite detect_file_type_run.
  destruct (files w !! input_path) as [f|].
  - destruct (Hunknown f eq_refl) as [-> ->].
    change (String.eqb "unknown" "xbt") with false.
    change (String.eqb "unknown" "dds") with false.
    cbn [raise fst snd files dirs log add_log].
    repeat split. now rewrite last_snoc.
  - change (String.eqb "unknown" "xbt") with false.
    change (String.eqb "unknown" "dds") with false.
    cbn [raise fst snd files dirs log add_log]. repeat split. now rewrite last_snoc.
Qed.

(** The join of what a split has written gives the container back. *)
Lemma dds_to_xbt_rejoins (payload_path output_path : string) (w1 : world)
  (X sidecar_data : bytes) (doc : Element) :
  fix_dds_format = false ->
  startswith X TBX_MAGIC = true ->
  bytes_find X DDS_MAGIC <> -1 ->
  files w1 !! payload_path =
    Some (File (slice_from X (bytes_find X DDS_MAGIC)) None) ->
  files w1 !! (fst (os_path_splitext payload_path) +:+ ".xml") =
    Some (File sidecar_data (Some doc)) ->
  tag doc = "XBTHeader" ->
  raw_header_text doc = Some (bytes_hex (slice_to X (bytes_find X DDS_MAGIC))) ->
  snd (dds_to_xbt payload_path output_path w1) = true /\
  files (fst (dds_to_xbt payload_path output_path w1)) =
    <[output_path := File X None]> (files w1).
Proof.
  intros Hfix Hmagic Hfound Hout Hxml Htag Hraw.
  set (k := bytes_find X DDS_MAGIC) in *.
  rewrite (dds_to_xbt_run payload_path output_path payload_path w1 w1)
    by now apply actual_dds_path_unfixed.
  rewrite Hout. cbn [file_data]. cbn zeta.
  assert (startswith (slice_from X k) DDS_MAGIC = true) as ->.
  { unfold slice_from. replace k with (k - 0) by lia.
    apply (find_from_occurrence DDS_MAGIC X 0 k); [lia|reflexivity|exact Hfound]. }
  cbn [negb].
  rewrite (load_header_from_xml_run _ w1 _ doc Hxml eq_refl).
  rewrite Htag, Hraw. change (negb ("XBTHeader" =? "XBTHeader")%string) with false.
  cbn iota.
  rewrite str_strip_hex_chars by apply bytes_hex_chars. rewrite fromhex_hex.
  cbn [fst snd].
  destruct (header_not_empty X Hmagic Hfound) as (b & header & Hh). fold k in Hh.
  rewrite Hh. cbn [header_missing default]. cbn [fst snd]. split; [reflexivity|].
  cbn [files add_log set_files].
  destruct (log_metadata_run doc w1) as (w2 & Hlogged & Hfiles & _).
  rewrite Hlogged. cbn [fst]. rewrite Hfiles.
  unfold id. rewrite <- Hh. unfold slice_to, slice_from. now rewrite take_drop.
Qed.

(** X18.  Round trip of single files in the automatic mode, with the
    re-encoding of payloads disabled: the conversion of a container of
    at least sixteen bytes that starts with the wrapper magic, holds the
    payload magic and has no character that XML forbids in its embedded
    path writes the payload beside it under the extension [.dds]; the
    conversion of that payload file is detected as a join and writes the
    container back, byte for byte, under the extension [.xbt].  The
    extension of the payload file must be the one that
    [os.path.splitext] splits off. *)
Theorem single_file_round_trip (input_path : string) (w : world) (f : file) :
  conversion_type = "auto" ->
  fix_dds_format = false ->
  files w !! input_path = Some f ->
  16 <= len (file_data f) ->
  startswith (file_data f) TBX_MAGIC = true ->
  bytes_find (file_data f) DDS_MAGIC <> -1 ->
  embedded_path_legal
    (slice_to (file_data f) (bytes_find (file_data f) DDS_MAGIC)) = true ->
  let base_name := fst (os_path_splitext input_path) in
  fst (os_path_splitext (base_name +:+ ".dds")) = base_name ->
  let split := convert_single_file input_path w in
  let joined := convert_single_file (base_name +:+ ".dds") (fst split) in
  snd split = true /\
  snd joined = true /\
  file_data <$> files (fst split) !! (base_name +:+ ".dds") =
    Some (slice_from (file_data f) (bytes_find (file_data f) DDS_MAGIC)) /\
  file_data <$> files (fst joined) !! (base_name +:+ ".xbt") = Some (file_data f).
Proof.
  intros Hauto Hfix Hf Hlen Hmagic Hfound Hlegal base_name Hsplit. cbn zeta.
  set (X := file_data f) in *. set (k := bytes_find X DDS_MAGIC) in *.
  (* the split *)
  rewrite (convert_single_file_run input_path "xbt_to_dds" w).
  2: { rewrite Hauto. change (String.eqb "auto" "auto") with true. cbn iota.
       exists f. split; [exact Hf|]. left. now split. }
  cbn zeta. change (String.eqb "xbt_to_dds" "xbt_to_dds") with true. cbn iota.
  fold base_name. rewrite xbt_to_dds_as_batch, Hsplit.
  match goal with |- context [xbt_to_dds_batch _ _ _ ?w0] =>
    destruct (xbt_to_dds_batch_ok input_path (base_name +:+ ".dds")
                (base_name +:+ ".xml") w0 f Hf Hlen Hmagic Hfound Hlegal)
      as (w1 & data & doc & Hdone & Hfiles & _ & Htag & Hraw)
  end.
  fold X k in Hfiles, Hraw. rewrite Hdone. cbn [fst snd].
  assert (base_name +:+ ".xml" <> base_name +:+ ".dds") as Hpaths
    by (intros Heq; apply append_inj_l in Heq; discriminate Heq).
  assert (files w1 !! (base_name +:+ ".dds") = Some (File (slice_from X k) None)) as Hout
    by (rewrite Hfiles; apply lookup_insert_eq).
  assert (files w1 !! (base_name +:+ ".xml") = Some (File data (Some doc))) as Hxml
    by (rewrite Hfiles, lookup_insert_ne by congruence; apply lookup_insert_eq).
  assert (startswith (slice_from X k) DDS_MAGIC = true) as Hpayload.
  { unfold slice_from. replace k with (k - 0) by lia.
    apply (find_from_occurrence DDS_MAGIC X 0 k); [lia|reflexivity|exact Hfound]. }
  assert (startswith (slice_from X k) TBX_MAGIC = false) as Hnot.
  { destruct (startswith (slice_from X k) TBX_MAGIC) eqn:E; [|reflexivity].
    apply magics_exclude in E. congruence. }
  split; [reflexivity|].
  (* the join *)
  rewrite (convert_single_file_run (base_name +:+ ".dds") "dds_to_xbt").
  2: { rewrite Hauto. change (String.eqb "auto" "auto") with true. cbn iota.
       exists (File (slice_from X k) None). split; [exact Hout|]. right.
       cbn [file_data]. now repeat split. }
  cbn zeta. change (String.eqb "dds_to_xbt" "xbt_to_dds") with false. cbn iota.
  rewrite Hsplit.
  match goal with |- context [dds_to_xbt _ _ ?w2] =>
    destruct (dds_to_xbt_rejoins (base_name +:+ ".dds") (base_name +:+ ".xbt") w2
                X data doc Hfix Hmagic Hfound)
      as [Hjoined Hrejoined];
      [exact Hout|now rewrite Hsplit|exact Htag|exact Hraw|];
    destruct (dds_to_xbt (base_name +:+ ".dds") (base_name +:+ ".xbt") w2)
      as [w3 joined]
  end.
  cbn [fst snd] in Hjoined, Hrejoined. subst joined. cbn [fst snd files add_log].
  split; [reflexivity|]. split.
  - now rewrite Hout.
  - rewrite Hrejoined. cbn [files add_log]. now rewrite lookup_insert_eq.
Qed.

(* ================================================================ *)
(** ** The batch run and the files it finds *)

Lemma current_conversion_of_split (input_path : string) (w : world) :
  (conversion_type = "xbt_to_dds" \/
   (conversion_type = "auto" /\
    exists f, files w !! input_path = Some f /\
              startswith (file_data f) TBX_MAGIC = true)) ->
  current_conversion_of input_path w = (w, Ok (Some "xbt_to_dds")).
Proof.
  intros [Hc | (Hc & f & Hf & Hmagic)]; unfold current_conversion_of; rewrite Hc.
  - reflexivity.
  - change (String.eqb "auto" "auto") with true. cbn iota.
    unfold bind, call. rewrite detect_file_type_run, Hf, Hmagic. reflexivity.
Qed.

Lemma current_conversion_of_join (input_path : string) (w : world) :
  (conversion_type = "dds_to_xbt" \/
   (conversion_type = "auto" /\
    exists f, files w !! input_path = Some f /\
              startswith (file_data f) DDS_MAGIC = true)) ->
  current_conversion_of input_path w = (w, Ok (Some "dds_to_xbt")).
Proof.
  intros [Hc | (Hc & f & Hf & Hmagic)]; unfold current_conversion_of; rewrite Hc.
  - reflexivity.
  - change (String.eqb "auto" "auto") with true. cbn iota.
    unfold bind, call. rewrite detect_file_type_run, Hf, Hmagic.
    destruct (startswith (file_data f) TBX_MAGIC) eqn:Hx; [|reflexivity].
    apply magics_exclude in Hx. congruence.
Qed.

(** X19.  With overwriting disabled, a batch run keeps an output file
    that exists: the file to convert is counted in [skipped], one line
    of log names the output, and nothing is written, neither the output
    nor, for a split, the sidecar.  This holds for a split (the
    direction is [xbt_to_dds], or it is [auto] and the file starts with
    the wrapper magic) and for a join whose sidecar exists (the direction
    is [dds_to_xbt], or it is [auto] and the file starts with the payload
    magic), the progress window being taken not to raise. *)
Theorem existing_output_is_kept
  (convert_dir input_path : string) (total i : Z) (c : counters) (w : world) :
  overwrite_existing = false ->
  update_convert_progress input_path i total = Ok tt ->
  let base_name := fst (os_path_splitext (os_path_basename input_path)) in
  ((conversion_type = "xbt_to_dds" \/
    (conversion_type = "auto" /\
     exists f, files w !! input_path = Some f /\
               startswith (file_data f) TBX_MAGIC = true)) ->
   os_path_exists w (os_path_join convert_dir (base_name +:+ ".dds")) = true ->
   convert_file_in_batch convert_dir total c i input_path w =
     (add_log ("⚠️ Skipping existing file: " +:+ base_name +:+ ".dds") w,
      count_skipped c)) /\
  ((conversion_type = "dds_to_xbt" \/
    (conversion_type = "auto" /\
     exists f, files w !! input_path = Some f /\
               startswith (file_data f) DDS_MAGIC = true)) ->
   os_path_exists w (fst (os_path_splitext input_path) +:+ ".xml") = true ->
   os_path_exists w (os_path_join convert_dir (base_name +:+ ".xbt")) = true ->
   convert_file_in_batch convert_dir total c i input_path w =
     (add_log ("⚠️ Skipping existing file: " +:+ base_name +:+ ".xbt") w,
      count_skipped c)).
Proof.
  intros Hover Hprogress. cbn zeta. split.
  - intros Hdirection Hpresent.
    unfold convert_file_in_batch, try_except, bind, lift. rewrite Hprogress.
    rewrite (current_conversion_of_split input_path w Hdirection).
    unfold ask, check_conversion_requirements.
    change (String.eqb "xbt_to_dds" "dds_to_xbt") with false. cbn iota.
    change (String.eqb "xbt_to_dds" "xbt_to_dds") with true. cbn [negb]. cbn beta iota.
    unfold path_exists. rewrite Hpresent, Hover. reflexivity.
  - intros Hdirection Hsidecar Hpresent.
    unfold convert_file_in_batch, try_except, bind, lift. rewrite Hprogress.
    rewrite (current_conversion_of_join input_path w Hdirection).
    unfold ask, check_conversion_requirements.
    change (String.eqb "dds_to_xbt" "dds_to_xbt") with true. cbn iota.
    rewrite Hsidecar. cbn [negb].
    change (String.eqb "dds_to_xbt" "xbt_to_dds") with false. cbn beta iota.
    unfold path_exists. rewrite Hpresent, Hover. reflexivity.
Qed.

Lemma filter_all {A} (p : A -> bool) (l : list A) :
  (forall x, In x l -> p x = true) -> List.filter p l = l.
Proof.
  induction l as [|x l IH]; intros H; [reflexivity|].
  cbn [List.filter]. rewrite (H x) by now left.
  f_equal. apply IH. intros y Hy. apply H. now right.
Qed.

Lemma len_map {A B} (f : A -> B) (l : list A) : len (map f l) = len l.
Proof. unfold len. now rewrite length_map. Qed.

Lemma len_app {A} (l l' : list A) : len (l ++ l') = len l + len l'.
Proof. unfold len. rewrite length_app. lia. Qed.

(** The list that step 3 converts is as long as the list found. *)
Lemma files_to_convert_len (extract_dir : string) (found : list string) :
  (conversion_type = "auto" \/ conversion_type = "xbt_to_dds" \/
   conversion_type = "dds_to_xbt") ->
  (forall p, In p found ->
     existsb (fun ext => lower_endswith p ext) extensions_of_type = true) ->
  len (files_to_convert_of extract_dir
         (List.filter (fun f => lower_endswith f ".xbt") found)
         (List.filter (fun f => lower_endswith f ".dds") found)) = len found.
Proof.
  intros Hdirection Hfound.
  unfold files_to_convert_of, type_in_auto_or, extensions_of_type in *.
  destruct Hdirection as [Hc | [Hc | Hc]]; rewrite Hc in *.
  - change (String.eqb "auto" "auto") with true in *. cbn [orb] in *.
    rewrite len_app, len_map. symmetry. apply filter_lengths.
    intros p Hp. specialize (Hfound p Hp). cbn [existsb] in Hfound.
    rewrite orb_false_r in Hfound.
    destruct (lower_endswith p ".xbt") eqn:Hx.
    + now rewrite (extensions_exclude p Hx).
    + cbn [orb] in Hfound. now rewrite Hfound.
  - change (String.eqb "xbt_to_dds" "auto") with false in *.
    change (String.eqb "xbt_to_dds" "xbt_to_dds") with true in *.
    change (String.eqb "xbt_to_dds" "dds_to_xbt") with false in *.
    cbn [orb] in *. rewrite app_nil_r, len_map. f_equal. apply filter_all.
    intros p Hp. specialize (Hfound p Hp). cbn [existsb] in Hfound.
    now rewrite orb_false_r in Hfound.
  - change (String.eqb "dds_to_xbt" "auto") with false in *.
    change (String.eqb "dds_to_xbt" "xbt_to_dds") with false in *.
    change (String.eqb "dds_to_xbt" "dds_to_xbt") with true in *.
    cbn [orb app] in *. f_equal. apply filter_all.
    intros p Hp. specialize (Hfound p Hp). cbn [existsb] in Hfound.
    now rewrite orb_false_r in Hfound.
Qed.

(** X20.  In each of the three directions of the window, every file
    found is handed to the conversion loop: when each path found ends
    with one of the extensions searched for, the list that step 3
    converts is as long as the list found, the wrapped files being
    replaced by their staged copies.  With C8, the three counters of the
    summary then add up to the number of files found. *)
Theorem every_found_file_is_processed (extract_dir : string) (found : list string) :
  (conversion_type = "auto" \/ conversion_type = "xbt_to_dds" \/
   conversion_type = "dds_to_xbt") ->
  (forall p, In p found ->
     existsb (fun ext => lower_endswith p ext) extensions_of_type = true) ->
  let xbt_files := List.filter (fun f => lower_endswith f ".xbt") found in
  let dds_files := List.filter (fun f => lower_endswith f ".dds") found in
  len (files_to_convert_of extract_dir xbt_files dds_files) = len found /\
  forall total c i w,
    let c' := snd (convert_files (os_path_join converter_root "converted_dds_files")
                     total c i
                     (files_to_convert_of extract_dir xbt_files dds_files) w) in
    converted c' + skipped c' + errors c' =
      converted c + skipped c + errors c + len found.
Proof.
  intros Hdirection Hfound. cbn zeta.
  pose proof (files_to_convert_len extract_dir found Hdirection Hfound) as Hlen.
  split; [exact Hlen|].
  intros total c i w. rewrite <- Hlen. apply convert_files_total.
Qed.

(** The extensions of a batch run are in lower case. *)
Lemma extensions_of_type_lower (ext : string) :
  In ext extensions_of_type -> (ext = ".xbt" \/ ext = ".dds") /\ str_lower ext = ext.
Proof.
  unfold extensions_of_type.
  destruct (String.eqb conversion_type "auto");
    [|destruct (String.eqb conversion_type "xbt_to_dds")];
    cbn [In]; intros H; repeat destruct H as [<- | H]; try contradiction;
    split; auto.
Qed.

Lemma filter_none {A} (p : A -> bool) (l : list A) :
  (forall x, In x l -> p x = false) -> List.filter p l = [].
Proof.
  induction l as [|x l IH]; intros H; [reflexivity|].
  cbn [List.filter]. rewrite (H x) by now left.
  apply IH. intros y Hy. apply H. now right.
Qed.

(** A path that ends with one of the extensions searched for is a
    wrapped file or a payload file, and not both. *)
Lemma found_path_kind (p : string) :
  existsb (fun ext => lower_endswith p ext) extensions_of_type = true ->
  (lower_endswith p ".xbt" = true /\ lower_endswith p ".dds" = false) \/
  (lower_endswith p ".dds" = true /\ lower_endswith p ".xbt" = false).
Proof.
  intros Hext. apply existsb_exists in Hext as (ext & Hin & Hends).
  destruct (extensions_of_type_lower ext Hin) as [[Hx | Hd] _].
  - rewrite Hx in Hends. left. split; [exact Hends|].
    now apply extensions_exclude.
  - rewrite Hd in Hends. right. split; [exact Hends|].
    destruct (lower_endswith p ".xbt") eqn:Hx; [|reflexivity].
    apply extensions_exclude in Hx. congruence.
Qed.

(** In each direction, the list of step 3 is the staged copies of the
    wrapped files found, then the payload files found. *)
Lemma files_to_convert_of_found (extract_dir : string) (found : list string) :
  (conversion_type = "auto" \/ conversion_type = "xbt_to_dds" \/
   conversion_type = "dds_to_xbt") ->
  (forall p, In p found ->
     existsb (fun ext => lower_endswith p ext) extensions_of_type = true) ->
  files_to_convert_of extract_dir
    (List.filter (fun f => lower_endswith f ".xbt") found)
    (List.filter (fun f => lower_endswith f ".dds") found) =
  map (fun f => os_path_join extract_dir (os_path_basename f))
    (List.filter (fun f => lower_endswith f ".xbt") found) ++
  List.filter (fun f => lower_endswith f ".dds") found.
Proof.
  intros Hdirection Hfound.
  unfold files_to_convert_of, type_in_auto_or, extensions_of_type in *.
  destruct Hdirection as [Hc | [Hc | Hc]]; rewrite Hc in *.
  - reflexivity.
  - change (String.eqb "xbt_to_dds" "auto") with false in *.
    change (String.eqb "xbt_to_dds" "xbt_to_dds") with true in *.
    change (String.eqb "xbt_to_dds" "dds_to_xbt") with false in *.
    cbn [orb] in *. f_equal. symmetry. apply filter_none.
    intros p Hp. specialize (Hfound p Hp). cbn [existsb] in Hfound.
    rewrite orb_false_r in Hfound. now apply extensions_exclude.
  - change (String.eqb "dds_to_xbt" "auto") with false in *.
    change (String.eqb "dds_to_xbt" "xbt_to_dds") with false in *.
    change (String.eqb "dds_to_xbt" "dds_to_xbt") with true in *.
    cbn [orb] in *.
    rewrite (filter_none (fun f => lower_endswith f ".xbt") found); [reflexivity|].
    intros p Hp. specialize (Hfound p Hp). cbn [existsb] in Hfound.
    rewrite orb_false_r in Hfound.
    destruct (lower_endswith p ".xbt") eqn:Hx; [|reflexivity].
    apply extensions_exclude in Hx. congruence.
Qed.

(** [convert_batch] on a list [found] of paths that end with the
    extensions searched for: the steps before the loop leave a world
    [w1], the loop runs from it over the list of step 3, and the summary
    gives the numbers of files found and processed. *)
Lemma convert_batch_of_found (folder_path : string) (found : list string)
  (w ws : world) :
  (conversion_type = "auto" \/ conversion_type = "xbt_to_dds" \/
   conversion_type = "dds_to_xbt") ->
  find_files_in_folder_with_progress folder_path extensions_of_type
    (add_log "🔍 Step 1: Scanning for files..." w) = (ws, Ok found) ->
  found <> [] ->
  (forall p, In p found ->
     existsb (fun ext => lower_endswith p ext) extensions_of_type = true) ->
  let xbt_files := List.filter (fun f => lower_endswith f ".xbt") found in
  let dds_files := List.filter (fun f => lower_endswith f ".dds") found in
  let extract_dir := os_path_join converter_root "extracted_xbt_files" in
  let convert_dir := os_path_join converter_root "converted_dds_files" in
  let files_to_convert := files_to_convert_of extract_dir xbt_files dds_files in
  (xbt_files <> [] ->
   update_copy_progress "Copy Complete!" (len xbt_files) (len xbt_files) = Ok tt) ->
  update_convert_progress "Conversion Complete!"
    (len files_to_convert) (len files_to_convert) = Ok tt ->
  (xbt_files <> [] -> exists rel, os_path_relpath extract_dir converter_root = Ok rel) ->
  (exists rel, os_path_relpath convert_dir converter_root = Ok rel) ->
  exists w1 w',
    (log_message ("📊 Found " +:+ str_int (len found) +:+ " total file(s):") ;;
     log_message ("   📦 XBT files: " +:+ str_int (len xbt_files)) ;;
     log_message ("   🖼️ DDS files: " +:+ str_int (len dds_files)) ;;
     step2_extract folder_path extract_dir xbt_files ;;
     log_message (newl +:+ "🔄 Step 3: Converting files...") ;;
     ensure_dir convert_dir "📁 Created conversion directory: "
                            "📁 Using existing conversion directory: ") ws =
      (w1, Ok tt) /\
    let looped := convert_files convert_dir (len files_to_convert) (Counters 0 0 0) 0
                    files_to_convert w1 in
    let c := snd looped in
    convert_batch folder_path w = (w', errors c =? 0) /\
    files w' = files (fst looped) /\
    converted c + skipped c + errors c = len files_to_convert /\
    In ("   Files found: " +:+ str_int (len found) +:+ " (" +:+
        str_int (len xbt_files) +:+ " XBT, " +:+
        str_int (len dds_files) +:+ " DDS)") (log w') /\
    In ("   Files processed: " +:+ str_int (len files_to_convert)) (log w').
Proof.
  cbn zeta. intros Hdirection Hscan Hfound Hext Hcopy Hprogress Hrel1 Hrel2.
  pose proof (files_to_convert_len (os_path_join converter_root "extracted_xbt_files")
                found Hdirection Hext) as Hlen.
  assert (files_to_convert_of (os_path_join converter_root "extracted_xbt_files")
            (List.filter (fun f => lower_endswith f ".xbt") found)
            (List.filter (fun f => lower_endswith f ".dds") found) <> []) as Hfiles.
  { intros Hnil. rewrite Hnil in Hlen. destruct found; [congruence|].
    unfold len in Hlen. cbn [length] in Hlen. lia. }
  destruct (steps_before_loop_run folder_path
              (os_path_join converter_root "extracted_xbt_files")
              (os_path_join converter_root "converted_dds_files") found
              (List.filter (fun f => lower_endswith f ".xbt") found)
              (List.filter (fun f => lower_endswith f ".dds") found) ws Hcopy)
    as [w1 Hentry].
  destruct (convert_batch_run folder_path found w ws w1 Hscan Hfound Hfiles Hentry
              Hprogress Hrel1 Hrel2)
    as (w' & Hrun & Hsame & _ & _ & Hsum & _ & Hfoundline & Hprocessed & _).
  exists w1, w'. split; [exact Hentry|]. split; [exact Hrun|].
  split; [exact Hsame|]. split; [exact Hsum|]. split; [exact Hfoundline|].
  exact Hprocessed.
Qed.

(** X14.  In a batch run, each path that the scan answers, ending with
    one of the extensions searched for, is counted by [convert_batch] as
    a wrapped file or as a payload file and never as both: the line
    [Files found: N (X XBT, Y DDS)] of the summary that the run logs has
    N = X + Y.  (The progress windows and [os.path.relpath] of the two
    working directories are taken not to raise after the loops.) *)
Theorem found_files_are_split_by_kind (folder_path : string) (found : list string)
  (w ws : world) :
  (conversion_type = "auto" \/ conversion_type = "xbt_to_dds" \/
   conversion_type = "dds_to_xbt") ->
  find_files_in_folder_with_progress folder_path extensions_of_type
    (add_log "🔍 Step 1: Scanning for files..." w) = (ws, Ok found) ->
  found <> [] ->
  (forall p, In p found ->
     existsb (fun ext => lower_endswith p ext) extensions_of_type = true) ->
  let xbt_files := List.filter (fun f => lower_endswith f ".xbt") found in
  let dds_files := List.filter (fun f => lower_endswith f ".dds") found in
  let extract_dir := os_path_join converter_root "extracted_xbt_files" in
  let convert_dir := os_path_join converter_root "converted_dds_files" in
  let files_to_convert := files_to_convert_of extract_dir xbt_files dds_files in
  (xbt_files <> [] ->
   update_copy_progress "Copy Complete!" (len xbt_files) (len xbt_files) = Ok tt) ->
  update_convert_progress "Conversion Complete!"
    (len files_to_convert) (len files_to_convert) = Ok tt ->
  (xbt_files <> [] -> exists rel, os_path_relpath extract_dir converter_root = Ok rel) ->
  (exists rel, os_path_relpath convert_dir converter_root = Ok rel) ->
  (forall p, In p found ->
     lower_endswith p ".xbt" = negb (lower_endswith p ".dds")) /\
  len found = len xbt_files + len dds_files /\
  In ("   Files found: " +:+ str_int (len found) +:+ " (" +:+
      str_int (len xbt_files) +:+ " XBT, " +:+
      str_int (len dds_files) +:+ " DDS)")
     (log (fst (convert_batch folder_path w))).
Proof.
  cbn zeta. intros Hdirection Hscan Hfound Hext Hcopy Hprogress Hrel1 Hrel2.
  assert (forall p, In p found ->
            lower_endswith p ".xbt" = negb (lower_endswith p ".dds")) as Hkind.
  { intros p Hp. destruct (found_path_kind p (Hext p Hp)) as [[-> ->] | [-> ->]];
      reflexivity. }
  split; [exact Hkind|]. split; [now apply filter_lengths|].
  destruct (convert_batch_of_found folder_path found w ws Hdirection Hscan Hfound Hext
              Hcopy Hprogress Hrel1 Hrel2)
    as (w1 & w' & _ & Hrun & _ & _ & Hline & _).
  cbn zeta in Hrun. rewrite Hrun. exact Hline.
Qed.

(** X21.  In a batch run, in each of the three directions of the
    window, the paths that the scan answers, each ending with one of the
    extensions searched for, are all handed to the conversion loop of
    [convert_batch]: the list of the loop is the staged copies of the
    wrapped files found, in the order found, then the payload files
    found, as they are.  A wrapped file is there as its staged copy, a
    payload file as itself, nothing else is there, and the list is as
    long as the list found; the run answers for the counters of the loop
    over this list, which add up to the number of files found, and its
    summary says so.  (The progress windows and [os.path.relpath] of the
    two working directories are taken not to raise after the loops.) *)
Theorem searched_files_are_all_processed (folder_path : string) (found : list string)
  (w ws : world) :
  (conversion_type = "auto" \/ conversion_type = "xbt_to_dds" \/
   conversion_type = "dds_to_xbt") ->
  find_files_in_folder_with_progress folder_path extensions_of_type
    (add_log "🔍 Step 1: Scanning for files..." w) = (ws, Ok found) ->
  found <> [] ->
  (forall p, In p found ->
     existsb (fun ext => lower_endswith p ext) extensions_of_type = true) ->
  let xbt_files := List.filter (fun f => lower_endswith f ".xbt") found in
  let dds_files := List.filter (fun f => lower_endswith f ".dds") found in
  let extract_dir := os_path_join converter_root "extracted_xbt_files" in
  let convert_dir := os_path_join converter_root "converted_dds_files" in
  let files_to_convert := files_to_convert_of extract_dir xbt_files dds_files in
  (xbt_files <> [] ->
   update_copy_progress "Copy Complete!" (len xbt_files) (len xbt_files) = Ok tt) ->
  update_convert_progress "Conversion Complete!"
    (len files_to_convert) (len files_to_convert) = Ok tt ->
  (xbt_files <> [] -> exists rel, os_path_relpath extract_dir converter_root = Ok rel) ->
  (exists rel, os_path_relpath convert_dir converter_root = Ok rel) ->
  files_to_convert =
    map (fun p => os_path_join extract_dir (os_path_basename p)) xbt_files ++ dds_files /\
  (forall p, In p found ->
     (lower_endswith p ".xbt" = true /\ lower_endswith p ".dds" = false /\
      In (os_path_join extract_dir (os_path_basename p)) files_to_convert) \/
     (lower_endswith p ".dds" = true /\ lower_endswith p ".xbt" = false /\
      In p files_to_convert)) /\
  (forall q, In q files_to_convert ->
     (exists p, In p found /\ lower_endswith p ".xbt" = true /\
                q = os_path_join extract_dir (os_path_basename p)) \/
     (In q found /\ lower_endswith q ".dds" = true)) /\
  len files_to_convert = len found /\
  exists w1 w',
    (log_message ("📊 Found " +:+ str_int (len found) +:+ " total file(s):") ;;
     log_message ("   📦 XBT files: " +:+ str_int (len xbt_files)) ;;
     log_message ("   🖼️ DDS files: " +:+ str_int (len dds_files)) ;;
     step2_extract folder_path extract_dir xbt_files ;;
     log_message (newl +:+ "🔄 Step 3: Converting files...") ;;
     ensure_dir convert_dir "📁 Created conversion directory: "
                            "📁 Using existing conversion directory: ") ws =
      (w1, Ok tt) /\
    let looped := convert_files convert_dir (len found) (Counters 0 0 0) 0
                    files_to_convert w1 in
    let c := snd looped in
    convert_batch folder_path w = (w', errors c =? 0) /\
    files w' = files (fst looped) /\
    converted c + skipped c + errors c = len found /\
    In ("   Files processed: " +:+ str_int (len found)) (log w').
Proof.
  cbn zeta. intros Hdirection Hscan Hfound Hext Hcopy Hprogress Hrel1 Hrel2.
  pose proof (files_to_convert_of_found
                (os_path_join converter_root "extracted_xbt_files")
                found Hdirection Hext) as Hlist.
  pose proof (files_to_convert_len (os_path_join converter_root "extracted_xbt_files")
                found Hdirection Hext) as Hlen.
  destruct (convert_batch_of_found folder_path found w ws Hdirection Hscan Hfound Hext
              Hcopy Hprogress Hrel1 Hrel2)
    as (w1 & w' & Hentry & Hrun & Hsame & Hsum & _ & Hline).
  cbn zeta in Hrun, Hsame, Hsum. rewrite Hlen in Hrun, Hsame, Hsum, Hline.
  split; [exact Hlist|]. split; [|split; [|split; [exact Hlen|]]].
  - intros p Hp. rewrite Hlist.
    destruct (found_path_kind p (Hext p Hp)) as [[Hx Hd] | [Hd Hx]].
    + left. split; [exact Hx|]. split; [exact Hd|].
      apply in_or_app. left.
      apply (in_map (fun f => os_path_join
                                (os_path_join converter_root "extracted_xbt_files")
                                (os_path_basename f))).
      apply filter_In. now split.
    + right. split; [exact Hd|]. split; [exact Hx|].
      apply in_or_app. right. apply filter_In. now split.
  - intros q Hq. rewrite Hlist in Hq. apply in_app_or in Hq as [Hq | Hq].
    + left. apply in_map_iff in Hq as (p & Hstaged & Hp).
      apply filter_In in Hp as [Hp Hx]. exists p.
      split; [exact Hp|]. split; [exact Hx|]. now symmetry.
    + right. apply filter_In in Hq as [Hq Hd]. now split.
  - exists w1, w'. split; [exact Hentry|]. split; [exact Hrun|].
    split; [exact Hsame|]. split; [exact Hsum|]. exact Hline.
Qed.

(* ================================================================ *)
(** ** Sidecars that cannot be read *)

(** X22.  [load_header_from_xml] answers [None], logs one line and writes
    nothing when the sidecar does not exist, the line naming the path,
    and when the sidecar is a file that is not XML.  With the re-encoding
    of payloads disabled, the join of a payload whose sidecar does not
    exist then fails and writes nothing. *)
Theorem load_header_from_xml_unreadable (xml_path : string) (w : world) :
  let loaded := load_header_from_xml xml_path w in
  (os_path_exists w xml_path = false ->
   loaded =
     (add_log ("❌ Error loading header from XML: XML header file not found: " +:+
               xml_path) w, None)) /\
  (forall f, files w !! xml_path = Some f -> file_xml f = None ->
     snd loaded = None /\ files (fst loaded) = files w /\
     exists line, log (fst loaded) = log w ++ [line]) /\
  (forall input_path output_path payload,
     fix_dds_format = false ->
     xml_path = fst (os_path_splitext input_path) +:+ ".xml" ->
     files w !! input_path = Some payload ->
     os_path_exists w xml_path = false ->
     snd (dds_to_xbt input_path output_path w) = false /\
     files (fst (dds_to_xbt input_path output_path w)) = files w).
Proof.
  cbn zeta.
  assert (os_path_exists w xml_path = false ->
          load_header_from_xml xml_path w =
            (add_log ("❌ Error loading header from XML: XML header file not found: " +:+
                      xml_path) w, None)) as Hmissing.
  { intros Habsent. unfold load_header_from_xml, try_except, bind, path_exists.
    now rewrite Habsent. }
  split; [exact Hmissing|]. split.
  - intros f Hf Hxml. unfold load_header_from_xml, try_except, bind, path_exists.
    unfold os_path_exists. rewrite Hf. cbn [negb]. unfold ET_parse. rewrite Hf, Hxml.
    cbn [fst snd files log add_log]. repeat split. now eexists.
  - intros input_path output_path payload Hfix -> Hpayload Habsent.
    rewrite (dds_to_xbt_run input_path output_path input_path w w)
      by now apply actual_dds_path_unfixed.
    rewrite Hpayload. cbn zeta.
    destruct (startswith (file_data payload) DDS_MAGIC); cbn [negb];
      [|split; reflexivity].
    rewrite (Hmissing Habsent). cbn [fst snd header_missing]. split; reflexivity.
Qed.

(* ================================================================ *)
(** ** A payload without its sidecar, in the run *)

(** With the re-encoding of payloads disabled, the loop keeps the lines
    logged before it. *)
Lemma convert_files_keeps_log (convert_dir : string) (total : Z)
  (files_to_convert : list string) (c : counters) (i : Z) (w : world) :
  fix_dds_format = false ->
  forall line, In line (log w) ->
    In line (log (fst (convert_files convert_dir total c i files_to_convert w))).
Proof.
  intros Hfix.
  refine (within_convert_files
            (fun w0 w' => forall line, In line (log w0) -> In line (log w'))
            (fun _ => True) (fun _ => True) _ _ _ _ _
            convert_dir total files_to_convert c i Hfix _ w).
  - intros w0 line H. exact H.
  - intros w1 w2 w3 H12 H23 line H. apply H23, H12, H.
  - intros w0 msg line H. cbn [log add_log]. apply in_or_app. left. exact H.
  - intros w0 p f _ line H. exact H.
  - intros w0 p _ line H. exact H.
  - intros f ext _. exact I.
Qed.

(** The turn of such a file in the loop, after the files [before] it:
    the loop goes on with the files [after] it from counters in which
    only [skipped] is one higher. *)
Lemma missing_sidecar_in_loop
  (convert_dir input_path : string) (total i : Z) (c : counters) (w : world)
  (before after : list string) (c0 : counters) (i0 : Z) (w0 : world) :
  update_convert_progress input_path i total = Ok tt ->
  (conversion_type = "dds_to_xbt" \/
   (conversion_type = "auto" /\
    exists f, files w !! input_path = Some f /\ slice_to (file_data f) 4 = DDS_MAGIC)) ->
  os_path_exists w (fst (os_path_splitext input_path) +:+ ".xml") = false ->
  convert_files convert_dir total c0 i0 before w0 = (w, c) ->
  i = i0 + len before ->
  let xml_path := fst (os_path_splitext input_path) +:+ ".xml" in
  let skip_line := "⚠️ Skipping " +:+ os_path_basename input_path +:+
                   ": Required XML header file not found: " +:+
                   os_path_basename xml_path in
  let counted := Counters (converted c) (skipped c + 1) (errors c) in
  let rest := convert_files convert_dir total counted (i + 1) after
                (add_log skip_line w) in
  convert_files convert_dir total c0 i0 (before ++ input_path :: after) w0 = rest /\
  skipped c + 1 <= skipped (snd rest) /\
  errors (snd rest) <= errors c + len after /\
  (fix_dds_format = false -> In skip_line (log (fst rest))).
Proof.
  intros Hprogress Hdirection Hmissing Hbefore Hi. cbn zeta.
  pose proof (missing_sidecar_turn convert_dir input_path total i c w
                Hprogress Hdirection Hmissing) as [_ Hturn]. cbn zeta in Hturn.
  split; [|split; [|split]].
  - rewrite convert_files_app, Hbefore. cbn [convert_files].
    rewrite <- Hi, Hturn. reflexivity.
  - pose proof (convert_files_total convert_dir total after
                  (Counters (converted c) (skipped c + 1) (errors c)) (i + 1)
                  (add_log ("⚠️ Skipping " +:+ os_path_basename input_path +:+
                            ": Required XML header file not found: " +:+
                            os_path_basename (fst (os_path_splitext input_path) +:+ ".xml"))
                     w)) as Htotal.
    cbn zeta in Htotal. cbn [converted skipped errors] in Htotal. lia.
  - pose proof (convert_files_total convert_dir total after
                  (Counters (converted c) (skipped c + 1) (errors c)) (i + 1)
                  (add_log ("⚠️ Skipping " +:+ os_path_basename input_path +:+
                            ": Required XML header file not found: " +:+
                            os_path_basename (fst (os_path_splitext input_path) +:+ ".xml"))
                     w)) as Htotal.
    cbn zeta in Htotal. cbn [converted skipped errors] in Htotal. lia.
  - intros Hfix. apply convert_files_keeps_log; [exact Hfix|].
    cbn [log add_log]. apply in_or_app. right. left. reflexivity.
Qed.

(** C7.  A file to be joined (the direction is [dds_to_xbt], or it is
    [auto] and the file starts with the payload magic) whose sidecar
    does not exist, in a batch run.  Its turn of the loop is stopped by
    [check_conversion_requirements] before any join: one line is
    logged, which names the file and the missing sidecar, the file is
    counted in [skipped], and the other counters and the files are left
    as they are.  In the loop, [w] and [c] being the world and the
    counters that the files [before] it leave, [convert_files] goes on
    with the files [after] it from these counters, so that [skipped]
    ends at least one higher and [errors] rises by no more than the
    number of files after it.  In [convert_batch], [w1] being the world
    that the steps before the loop leave, the run answers and logs in
    its summary the counters that this loop leaves: the file is in the
    [Skipped] line of the summary.  The line that names the file is
    still in the log at the end when the re-encoding of payloads is
    disabled.  (The progress window is taken not to raise for the file;
    when it does, the file is counted in [errors], see C8.  The last
    progress update and [os.path.relpath] of the two working
    directories, which come after the loop, are taken not to raise.) *)
Theorem missing_sidecar_is_skipped
  (convert_dir input_path : string) (total i : Z) (c : counters) (w : world) :
  update_convert_progress input_path i total = Ok tt ->
  (conversion_type = "dds_to_xbt" \/
   (conversion_type = "auto" /\
    exists f, files w !! input_path = Some f /\ slice_to (file_data f) 4 = DDS_MAGIC)) ->
  os_path_exists w (fst (os_path_splitext input_path) +:+ ".xml") = false ->
  let xml_path := fst (os_path_splitext input_path) +:+ ".xml" in
  let skip_line := "⚠️ Skipping " +:+ os_path_basename input_path +:+
                   ": Required XML header file not found: " +:+
                   os_path_basename xml_path in
  let counted := Counters (converted c) (skipped c + 1) (errors c) in
  check_conversion_requirements w input_path "dds_to_xbt" =
    (false, "Required XML header file not found: " +:+ os_path_basename xml_path) /\
  convert_file_in_batch convert_dir total c i input_path w =
    (add_log skip_line w, counted) /\
  (forall before after c0 i0 w0,
     convert_files convert_dir total c0 i0 before w0 = (w, c) ->
     i = i0 + len before ->
     let rest := convert_files convert_dir total counted (i + 1) after
                   (add_log skip_line w) in
     convert_files convert_dir total c0 i0 (before ++ input_path :: after) w0 = rest /\
     skipped c + 1 <= skipped (snd rest) /\
     errors (snd rest) <= errors c + len after /\
     (fix_dds_format = false -> In skip_line (log (fst rest)))) /\
  (forall folder_path found before after w_start ws w1,
     convert_dir = os_path_join converter_root "converted_dds_files" ->
     find_files_in_folder_with_progress folder_path extensions_of_type
       (add_log "🔍 Step 1: Scanning for files..." w_start) = (ws, Ok found) ->
     let xbt_files := List.filter (fun f => lower_endswith f ".xbt") found in
     let dds_files := List.filter (fun f => lower_endswith f ".dds") found in
     let extract_dir := os_path_join converter_root "extracted_xbt_files" in
     let files_to_convert := files_to_convert_of extract_dir xbt_files dds_files in
     files_to_convert = before ++ input_path :: after ->
     total = len files_to_convert ->
     i = len before ->
     (log_message ("📊 Found " +:+ str_int (len found) +:+ " total file(s):") ;;
      log_message ("   📦 XBT files: " +:+ str_int (len xbt_files)) ;;
      log_message ("   🖼️ DDS files: " +:+ str_int (len dds_files)) ;;
      step2_extract folder_path extract_dir xbt_files ;;
      log_message (newl +:+ "🔄 Step 3: Converting files...") ;;
      ensure_dir convert_dir "📁 Created conversion directory: "
                             "📁 Using existing conversion directory: ") ws =
       (w1, Ok tt) ->
     convert_files convert_dir total (Counters 0 0 0) 0 before w1 = (w, c) ->
     update_convert_progress "Conversion Complete!" total total = Ok tt ->
     (xbt_files <> [] -> exists rel, os_path_relpath extract_dir converter_root = Ok rel) ->
     (exists rel, os_path_relpath convert_dir converter_root = Ok rel) ->
     let rest := convert_files convert_dir total counted (i + 1) after
                   (add_log skip_line w) in
     exists w',
       convert_batch folder_path w_start = (w', errors (snd rest) =? 0) /\
       convert_files convert_dir total (Counters 0 0 0) 0 files_to_convert w1 = rest /\
       files w' = files (fst rest) /\
       skipped c + 1 <= skipped (snd rest) /\
       errors (snd rest) <= errors c + len after /\
       In "📊 Batch conversion summary:" (log w') /\
       In ("   ⚠️ Skipped: " +:+ str_int (skipped (snd rest))) (log w') /\
       In ("   ❌ Errors: " +:+ str_int (errors (snd rest))) (log w') /\
       (fix_dds_format = false -> In skip_line (log w'))).
Proof.
  intros Hprogress Hdirection Hmissing. cbn zeta.
  pose proof (missing_sidecar_turn convert_dir input_path total i c w
                Hprogress Hdirection Hmissing) as [Hcheck Hturn].
  cbn zeta in Hcheck, Hturn.
  split; [exact Hcheck|]. split; [exact Hturn|]. split.
  - intros before after c0 i0 w0 Hbefore Hi.
    exact (missing_sidecar_in_loop convert_dir input_path total i c w
             before after c0 i0 w0 Hprogress Hdirection Hmissing Hbefore Hi).
  - intros folder_path found before after w_start ws w1 Hdir Hscan
      Hlist Htotal Hi Hentry Hbefore Hdone Hrel1 Hrel2.
    assert (i = 0 + len before) as Hi0 by lia.
    destruct (missing_sidecar_in_loop convert_dir input_path total i c w
                before after (Counters 0 0 0) 0 w1
                Hprogress Hdirection Hmissing Hbefore Hi0)
      as (Hloop & Hskipped & Herrors & Hline).
    assert (found <> []) as Hfound.
    { intros ->. revert Hlist. unfold files_to_convert_of. cbn [List.filter map].
      destruct (type_in_auto_or "xbt_to_dds"), (type_in_auto_or "dds_to_xbt");
        cbn [app]; destruct before; discriminate. }
    assert (files_to_convert_of (os_path_join converter_root "extracted_xbt_files")
              (List.filter (fun f => lower_endswith f ".xbt") found)
              (List.filter (fun f => lower_endswith f ".dds") found) <> []) as Hfiles.
    { rewrite Hlist. destruct before; discriminate. }
    rewrite Htotal in Hdone. rewrite Hdir in Hentry, Hrel2.
    destruct (convert_batch_run folder_path found w_start ws w1 Hscan Hfound Hfiles
                Hentry Hdone Hrel1 Hrel2)
      as (w' & Hrun & Hsame & _ & Hlog & _ & Hhead & _ & _ & _ & Hskip & Herr).
    rewrite <- Hdir, <- Htotal in Hrun, Hsame, Hlog, Hskip, Herr.
    rewrite Hlist in Hrun, Hsame, Hlog, Hskip, Herr at 1.
    rewrite Hloop in Hrun, Hsame, Hlog, Hskip, Herr.
    exists w'. split; [exact Hrun|]. split; [rewrite Hlist; exact Hloop|].
    split; [exact Hsame|]. split; [exact Hskipped|]. split; [exact Herrors|].
    split; [exact Hhead|]. split; [exact Hskip|]. split; [exact Herr|].
    intros Hfix. apply Hlog, Hline, Hfix.
Qed.

End Converter.

(* ================================================================== *)
(** ** The model run on the sample inputs ([posixpath]) *)

(** C1, as stated, fails: the eight-byte container starts with the wrapper
    magic and contains the payload magic, yet [xbt_to_dds] refuses it and
    writes neither payload nor sidecar, so that there is nothing to
    join. *)
Lemma round_trip_fails_below_sixteen_bytes :
  startswith tiny_xbt TBX_MAGIC = true /\
  bytes_find tiny_xbt DDS_MAGIC = 4 /\
  snd (xbt_to_dds "tiny.xbt" "tiny.dds" tiny_world) = false /\
  files (fst (xbt_to_dds "tiny.xbt" "tiny.dds" tiny_world)) !! "tiny.dds" = None /\
  files (fst (xbt_to_dds "tiny.xbt" "tiny.dds" tiny_world)) !! "tiny.xml" = None /\
  log (fst (xbt_to_dds "tiny.xbt" "tiny.dds" tiny_world)) =
    ["❌ Error converting XBT to DDS: Error parsing XBT header: File too small to be valid XBT"] /\
  snd (dds_to_xbt false texconv_absent texconv_unused fallback_unused
         "tiny.dds" "tiny.xbt"
         (fst (xbt_to_dds "tiny.xbt" "tiny.dds" tiny_world))) = false.
Proof. vm_compute. repeat split; reflexivity. Qed.

(** C2: the code at the failing input.  The header of thirty bytes has a
    control byte where an embedded path would start; no sidecar is
    written for it, so that nothing can be read back. *)
Theorem sidecar_write_fails_on_control_byte :
  len control_header = 30 /\
  startswith control_header TBX_MAGIC = true /\
  bytes_find control_header DDS_MAGIC = -1 /\
  embedded_path_of control_header = Some (String "001"%char EmptyString) /\
  snd (save_header_to_xml control_header "photo.xml" empty_world) = false /\
  files (fst (save_header_to_xml control_header "photo.xml" empty_world)) !! "photo.xml"
    = None /\
  snd (load_header_from_xml "photo.xml"
         (fst (save_header_to_xml control_header "photo.xml" empty_world))) = None /\
  snd (xbt_to_dds "photo.xbt" "photo.dds"
         (World {[ "photo.xbt" := File (control_header ++ photo_payload) None ]} ∅ []))
    = false.
Proof. vm_compute. repeat split; reflexivity. Qed.

(** C3, as stated, fails: a header of sixteen bytes that starts with the
    wrapper magic and is followed by a payload, but holds the payload
    magic at offset 4, is cut to four bytes. *)
Lemma header_with_payload_magic_is_cut_short :
  len header_with_magic = 16 /\
  startswith header_with_magic TBX_MAGIC = true /\
  startswith small_payload DDS_MAGIC = true /\
  snd (parse_xbt_header (header_with_magic ++ small_payload) empty_world) =
    Ok (0, 4, TBX_MAGIC) /\
  len TBX_MAGIC <> 16.
Proof. vm_compute. repeat split; try reflexivity; discriminate. Qed.

(** C4, as stated, fails: the payload starts with the payload magic and
    the sidecar is read, to a header of no byte; the join does not return
    header and payload concatenated, it fails and writes nothing. *)
Lemma join_fails_on_an_empty_header :
  startswith small_payload DDS_MAGIC = true /\
  snd (load_header_from_xml "p.xml" (payload_world blank_sidecar)) = Some [] /\
  snd (dds_to_xbt false texconv_absent texconv_unused fallback_unused
         "p.dds" "p.xbt" (payload_world blank_sidecar)) = false /\
  files (fst (dds_to_xbt false texconv_absent texconv_unused fallback_unused
                "p.dds" "p.xbt" (payload_world blank_sidecar))) !! "p.xbt" = None.
Proof. vm_compute. repeat split; reflexivity. Qed.

(** C5, as stated, fails: a raw field of odd length, with a character that
    is no hexadecimal digit, is read without error. *)
Lemma spaced_hex_is_read :
  Nat.odd (String.length "54 42") = true /\
  all_chars is_hex_char "54 42" = false /\
  snd (load_header_from_xml "p.xml" (payload_world spaced_sidecar)) = Some [x54; x42].
Proof. vm_compute. repeat split; reflexivity. Qed.

(** C6, as stated, fails: the eight-byte input has the wrapper magic and
    an occurrence of the payload magic, and is rejected all the same, by a
    third failure. *)
Lemma short_input_is_rejected :
  slice_to tiny_xbt 4 = TBX_MAGIC /\
  bytes_find tiny_xbt DDS_MAGIC = 4 /\
  parse_xbt_header tiny_xbt empty_world =
    (empty_world,
     Raise (ValueError "Error parsing XBT header: File too small to be valid XBT")).
Proof. vm_compute. repeat split; reflexivity. Qed.

(** C9, as stated, fails: with overwriting disabled, as it is by default,
    the staged file is the first of the two files that share a base name,
    not the last one processed. *)
Lemma first_staged_file_stays :
  posixpath.basename "/in/a/x.xbt" = posixpath.basename "/in/b/x.xbt" /\
  files (stage_files false progress_shown "/in" "/tool/extracted_xbt_files" 2 0
           ["/in/a/x.xbt"; "/in/b/x.xbt"] collision_world)
    !! "/tool/extracted_xbt_files/x.xbt" = Some (File first_xbt None) /\
  first_xbt <> second_xbt /\
  log (stage_files false progress_shown "/in" "/tool/extracted_xbt_files" 2 0
         ["/in/a/x.xbt"; "/in/b/x.xbt"] collision_world) =
    ["   📋 Copied: a/x.xbt"; "   ⚠️ Skipped existing: x.xbt"].
Proof. vm_compute. repeat split; try reflexivity; discriminate. Qed.

(** The round trip on [photo.xbt], 228 bytes with a header of 28. *)
Lemma round_trip_of_split_and_join_witness :
  (files photo_world !! "photo.xbt" = Some (File photo_xbt None) /\
   16 <= len photo_xbt /\
   startswith photo_xbt TBX_MAGIC = true /\
   bytes_find photo_xbt DDS_MAGIC = 28 /\
   embedded_path_legal (slice_to photo_xbt 28) = true /\
   fst (posixpath.splitext "photo.dds") +:+ ".xml" <> "photo.dds") /\
  let split := xbt_to_dds "photo.xbt" "photo.dds" photo_world in
  let joined := dds_to_xbt false texconv_absent texconv_unused fallback_unused
                  "photo.dds" "photo_again.xbt" (fst split) in
  snd split = true /\
  snd joined = true /\
  file_data <$> (files (fst joined) !! "photo_again.xbt") = Some photo_xbt.
Proof.
  assert (files photo_world !! "photo.xbt" = Some (File photo_xbt None)) as Hf
    by reflexivity.
  assert (16 <= len photo_xbt) as Hlen by (vm_compute; discriminate).
  assert (startswith photo_xbt TBX_MAGIC = true) as Hmagic by reflexivity.
  assert (bytes_find photo_xbt DDS_MAGIC = 28) as Hfind by (vm_compute; reflexivity).
  assert (embedded_path_legal (slice_to photo_xbt 28) = true) as Hlegal
    by (vm_compute; reflexivity).
  assert (fst (posixpath.splitext "photo.dds") +:+ ".xml" <> "photo.dds") as Hpaths
    by (vm_compute; discriminate).
  split; [repeat split; assumption|].
  apply (round_trip_of_split_and_join false texconv_absent texconv_unused
           fallback_unused "photo.xbt" "photo.dds" "photo_again.xbt"
           photo_world (File photo_xbt None) eq_refl Hf Hlen Hmagic).
  - cbn [file_data]. rewrite Hfind. discriminate.
  - cbn [file_data]. rewrite Hfind. exact Hlegal.
  - exact Hpaths.
Defined.

(** The boundary of a plain header of sixteen bytes. *)
Lemma header_boundary_witness :
  (16 <= len plain_header /\
   startswith plain_header TBX_MAGIC = true /\
   bytes_find plain_header DDS_MAGIC = -1) /\
  exists w' header_size,
    parse_xbt_header (plain_header ++ DDS_MAGIC ++ [x09]) empty_world =
      (w', Ok (header_size, 16, plain_header)).
Proof.
  assert (16 <= len plain_header) as Hlen by (vm_compute; discriminate).
  assert (startswith plain_header TBX_MAGIC = true) as Hmagic by reflexivity.
  assert (bytes_find plain_header DDS_MAGIC = -1) as Hnone by (vm_compute; reflexivity).
  split; [repeat split; assumption|].
  exact (proj1 (header_boundary plain_header [x09] plain_header empty_world)
           Hlen Hmagic Hnone).
Defined.

(** The four outcomes of [parse_xbt_header], one input each. *)
Lemma parse_xbt_header_outcomes_witness :
  parse_xbt_header tiny_xbt empty_world =
    (empty_world,
     Raise (ValueError "Error parsing XBT header: File too small to be valid XBT")) /\
  parse_xbt_header unsigned_data empty_world =
    (empty_world, Raise (ValueError "Error parsing XBT header: Invalid XBT signature")) /\
  parse_xbt_header payloadless_xbt empty_world =
    (empty_world,
     Raise (ValueError "Error parsing XBT header: No DDS data found in XBT file")) /\
  exists w' header_size,
    parse_xbt_header photo_xbt empty_world =
      (w', Ok (header_size, bytes_find photo_xbt DDS_MAGIC,
               slice_to photo_xbt (bytes_find photo_xbt DDS_MAGIC))) /\
    files w' = files empty_world.
Proof.
  split; [|split; [|split]].
  - apply (proj1 (parse_xbt_header_outcomes tiny_xbt empty_world)).
    vm_compute; reflexivity.
  - apply (proj1 (proj2 (parse_xbt_header_outcomes unsigned_data empty_world))).
    + vm_compute; discriminate.
    + vm_compute; discriminate.
  - apply (proj1 (proj2 (proj2 (parse_xbt_header_outcomes payloadless_xbt empty_world)))).
    + vm_compute; discriminate.
    + reflexivity.
    + vm_compute; reflexivity.
  - apply (proj2 (proj2 (proj2 (parse_xbt_header_outcomes photo_xbt empty_world)))).
    + vm_compute; discriminate.
    + reflexivity.
    + vm_compute; discriminate.
Defined.

(** The join of a payload with a sidecar of four bytes, and the refusal of
    a file that is no payload. *)
Lemma dds_to_xbt_outcomes_witness :
  (let joined := dds_to_xbt false texconv_absent texconv_unused fallback_unused
                   "p.dds" "p.xbt" (payload_world good_sidecar) in
   snd joined = true /\
   files (fst joined) =
     <["p.xbt" := File (TBX_MAGIC ++ small_payload) None]>
       (files (payload_world good_sidecar))) /\
  dds_to_xbt false texconv_absent texconv_unused fallback_unused
    "p.dds" "p.xbt" not_a_payload_world =
    (add_log "❌ Error converting DDS to XBT: Invalid DDS file - missing DDS signature"
       not_a_payload_world, false).
Proof.
  split.
  - apply (proj1 (proj2 (dds_to_xbt_outcomes false texconv_absent texconv_unused
                           fallback_unused "p.dds" "p.xbt" "p.dds"
                           (payload_world good_sidecar) (payload_world good_sidecar)
                           (File small_payload None) eq_refl eq_refl))).
    + reflexivity.
    + vm_compute; reflexivity.
  - apply (proj1 (dds_to_xbt_outcomes false texconv_absent texconv_unused
                    fallback_unused "p.dds" "p.xbt" "p.dds"
                    not_a_payload_world not_a_payload_world
                    (File unsigned_data None) eq_refl eq_refl)).
    reflexivity.
Defined.

(** Reading a sidecar of four bytes, one without raw text and one of three
    digits. *)
Lemma load_header_from_xml_outcomes_witness :
  snd (load_header_from_xml "p.xml" (payload_world good_sidecar)) = Some TBX_MAGIC /\
  load_header_from_xml "p.xml" (payload_world empty_sidecar) =
    (add_log "❌ Error loading header from XML: No raw header data found in XML"
       (payload_world empty_sidecar), None) /\
  load_header_from_xml "p.xml" (payload_world odd_sidecar) =
    (add_log ("❌ Error loading header from XML: " +:+ exn_str fromhex_error)
       (payload_world odd_sidecar), None).
Proof.
  split; [|split].
  - apply (proj2 (proj2 (proj2 (proj2
      (load_header_from_xml_outcomes "p.xml" (payload_world good_sidecar) good_sidecar
         (Elem "XBTHeader" None [leaf "RawHeaderData" "54425800"])
         eq_refl eq_refl eq_refl)))) "54425800" TBX_MAGIC eq_refl).
    apply fromhex_sound. reflexivity.
  - apply (proj1 (proj2 (proj2
      (load_header_from_xml_outcomes "p.xml" (payload_world empty_sidecar) empty_sidecar
         (Elem "XBTHeader" None [Elem "RawHeaderData" None []])
         eq_refl eq_refl eq_refl)))).
    right. exists (Elem "RawHeaderData" None []). split; [reflexivity | now left].
  - apply (proj1 (proj2 (proj2 (proj2
      (load_header_from_xml_outcomes "p.xml" (payload_world odd_sidecar) odd_sidecar
         (Elem "XBTHeader" None [leaf "RawHeaderData" "544"])
         eq_refl eq_refl eq_refl)))) "544" eq_refl).
    intros header_data H. apply fromhex_complete in H. discriminate H.
Defined.

(** A document under another root, with a well-formed raw field. *)
Lemma wrong_root_is_rejected_witness :
  bytes_fromhex "54425800" = Ok TBX_MAGIC /\
  load_header_from_xml "p.xml" (payload_world rooted_elsewhere) =
    (add_log "❌ Error loading header from XML: Invalid XML header file format"
       (payload_world rooted_elsewhere), None) /\
  snd (dds_to_xbt false texconv_absent texconv_unused fallback_unused
         "p.dds" "p.xbt" (payload_world rooted_elsewhere)) = false /\
  files (fst (dds_to_xbt false texconv_absent texconv_unused fallback_unused
                "p.dds" "p.xbt" (payload_world rooted_elsewhere))) =
    files (payload_world rooted_elsewhere).
Proof.
  split; [reflexivity|].
  assert (tag (Elem "Header" None [leaf "RawHeaderData" "54425800"]) <> "XBTHeader")
    as Htag by (vm_compute; discriminate).
  pose proof (wrong_root_is_rejected false texconv_absent texconv_unused fallback_unused
                "p.xml" "p.dds" "p.xbt" "p.dds"
                (payload_world rooted_elsewhere) (payload_world rooted_elsewhere)
                rooted_elsewhere _ eq_refl eq_refl Htag) as [Hload Hjoin].
  split; [exact Hload|].
  apply Hjoin; reflexivity.
Defined.

(** A hypothesis of [H] discharged by [tac]. *)
Ltac premise H tac :=
  match type of H with
  | ?P -> _ =>
      let HP := fresh "HP" in
      assert P as HP by tac; specialize (H HP); clear HP
  end.

(** The batch scenario in [auto] mode: the payload [q.dds] has no
    sidecar; its turn comes after the four other files, and the run
    counts it in the [Skipped] line of its summary and not in the
    [Errors] line. *)
Lemma missing_sidecar_is_skipped_witness :
  let run := convert_batch "auto" false false "/tool" texconv_absent texconv_unused
               fallback_unused scenario_walk progress_shown progress_shown
               "/in" scenario_world in
  snd run = true /\
  In "⚠️ Skipping q.dds: Required XML header file not found: q.xml" (log (fst run)) /\
  In "   ⚠️ Skipped: 1" (log (fst run)) /\
  In "   ❌ Errors: 0" (log (fst run)).
Proof.
  cbn zeta.
  pose (found := ["/in/a.xbt"; "/in/b.xbt"; "/in/c.xbt"; "/in/p.dds"; "/in/q.dds"]).
  pose (before := ["/tool/extracted_xbt_files/a.xbt"; "/tool/extracted_xbt_files/b.xbt";
                   "/tool/extracted_xbt_files/c.xbt"; "/in/p.dds"]).
  pose (ws := add_log "🔍 Step 1: Scanning for files..." scenario_world).
  pose (w1 := fst ((log_message "📊 Found 5 total file(s):" ;;
                    log_message "   📦 XBT files: 3" ;;
                    log_message "   🖼️ DDS files: 2" ;;
                    step2_extract false progress_shown "/in" "/tool/extracted_xbt_files"
                      ["/in/a.xbt"; "/in/b.xbt"; "/in/c.xbt"] ;;
                    log_message (newl +:+ "🔄 Step 3: Converting files...") ;;
                    ensure_dir "/tool/converted_dds_files"
                      "📁 Created conversion directory: "
                      "📁 Using existing conversion directory: ") ws)).
  pose (turn := convert_files "auto" false false texconv_absent texconv_unused
                  fallback_unused progress_shown "/tool/converted_dds_files" 5
                  (Counters 0 0 0) 0 before w1).
  pose proof (@missing_sidecar_is_skipped posix_OsPath "auto" false false "/tool"
                texconv_absent texconv_unused fallback_unused scenario_walk
                progress_shown progress_shown "/tool/converted_dds_files" "/in/q.dds"
                5 4 (snd turn) (fst turn)) as H.
  premise H ltac:(reflexivity).
  premise H ltac:(right; split; [reflexivity|]; exists (File small_payload None);
                  split; vm_compute; reflexivity).
  premise H ltac:(vm_compute; reflexivity).
  cbn zeta in H. destruct H as (_ & _ & _ & H).
  specialize (H "/in" found before [] scenario_world ws w1).
  premise H ltac:(vm_compute; reflexivity).
  premise H ltac:(reflexivity).
  cbn zeta in H.
  premise H ltac:(vm_compute; reflexivity).
  premise H ltac:(vm_compute; reflexivity).
  premise H ltac:(vm_compute; reflexivity).
  premise H ltac:(vm_compute; reflexivity).
  premise H ltac:(vm_compute; reflexivity).
  premise H ltac:(reflexivity).
  premise H ltac:(intros _; eexists; vm_compute; reflexivity).
  premise H ltac:(eexists; vm_compute; reflexivity).
  destruct H as (w' & Hrun & _ & _ & _ & _ & _ & Hskipped & Herrors & Hline).
  rewrite Hrun. cbn [fst snd].
  split; [vm_compute; reflexivity|].
  split; [exact (Hline eq_refl)|].
  split.
  - refine (eq_ind _ (fun line => In line (log w')) Hskipped _ _).
    vm_compute; reflexivity.
  - refine (eq_ind _ (fun line => In line (log w')) Herrors _ _).
    vm_compute; reflexivity.
Defined.


(** The two files of one base name staged: the second one with
    overwriting enabled, the first one with overwriting disabled, and the
    file staged before the run when there is one. *)
Lemma staging_collisions_witness :
  files (stage_files true progress_shown "/in" "/tool/extracted_xbt_files" 2 0
           ["/in/a/x.xbt"; "/in/b/x.xbt"] collision_world)
    !! "/tool/extracted_xbt_files/x.xbt" = Some (File second_xbt None) /\
  files (stage_files false progress_shown "/in" "/tool/extracted_xbt_files" 2 0
           ["/in/a/x.xbt"; "/in/b/x.xbt"] collision_world)
    !! "/tool/extracted_xbt_files/x.xbt" = Some (File first_xbt None) /\
  files (stage_files false progress_shown "/in" "/tool/extracted_xbt_files" 2 0
           ["/in/a/x.xbt"; "/in/b/x.xbt"] restaged_world)
    !! "/tool/extracted_xbt_files/x.xbt" = Some (File tiny_xbt None).
Proof.
  assert (forall h, In h ["/in/a/x.xbt"; "/in/b/x.xbt"] ->
            staged_path "/tool/extracted_xbt_files" h <> "/in/b/x.xbt") as Hb.
  { intros h [<- | [<- | []]]; vm_compute; discriminate. }
  assert (forall h, In h ["/in/a/x.xbt"; "/in/b/x.xbt"] ->
            staged_path "/tool/extracted_xbt_files" h <> "/in/a/x.xbt") as Ha.
  { intros h [<- | [<- | []]]; vm_compute; discriminate. }
  split; [|split].
  - apply (proj1 (staging_collisions true progress_shown "/in" "/tool/extracted_xbt_files"
                    2 ["/in/a/x.xbt"] [] "/in/b/x.xbt" 0 collision_world
                    (File second_xbt None) eq_refl eq_refl Hb)).
    + reflexivity.
    + intros h [].
  - apply (proj1 (proj2 (staging_collisions false progress_shown "/in"
                    "/tool/extracted_xbt_files"
                    2 [] ["/in/b/x.xbt"] "/in/a/x.xbt" 0 collision_world
                    (File first_xbt None) eq_refl eq_refl Ha))).
    + reflexivity.
    + vm_compute; reflexivity.
    + intros h [].
  - apply (proj2 (proj2 (staging_collisions false progress_shown "/in"
                    "/tool/extracted_xbt_files"
                    2 [] ["/in/b/x.xbt"] "/in/a/x.xbt" 0 restaged_world
                    (File first_xbt None) eq_refl eq_refl Ha))).
    + reflexivity.
    + vm_compute; reflexivity.
Defined.

(** The batch scenario: three wrapped files and two payloads in [auto]
    mode, overwriting disabled, one payload without its sidecar.  Four
    files are converted, one is skipped, none fails. *)
Example batch_scenario :
  let run := convert_batch "auto" false false "/tool" texconv_absent texconv_unused
               fallback_unused scenario_walk progress_shown progress_shown
               "/in" scenario_world in
  snd run = true /\
  In "   Files processed: 5" (log (fst run)) /\
  In "   ✅ Successfully converted: 4" (log (fst run)) /\
  In "   ⚠️ Skipped: 1" (log (fst run)) /\
  In "   ❌ Errors: 0" (log (fst run)) /\
  In "⚠️ Skipping q.dds: Required XML header file not found: q.xml" (log (fst run)).
Proof. vm_compute. repeat split; auto 50. Qed.

(* ================================================================== *)
(** ** The preview, the search and single files on the sample inputs *)

(** The payload the preview extracts from [photo.xbt] is the file that
    the split writes. *)
Lemma extract_matches_conversion_witness :
  snd (xbt_to_dds "photo.xbt" "photo.dds" photo_world) = true /\
  exists dds_data,
    snd (extract_dds_data "photo.xbt" photo_world) = (Some dds_data, None) /\
    file_data <$> files (fst (xbt_to_dds "photo.xbt" "photo.dds" photo_world))
                    !! "photo.dds" = Some dds_data.
Proof.
  assert (snd (xbt_to_dds "photo.xbt" "photo.dds" photo_world) = true) as Hdone
    by (vm_compute; reflexivity).
  split; [exact Hdone|].
  apply (extract_matches_conversion "photo.xbt" "photo.dds" photo_world Hdone).
Defined.


(** The split on the samples: it succeeds on [photo.xbt] and leaves the
    container where it is; it fails on the container of eight bytes and
    writes nothing. *)
Lemma xbt_to_dds_succeeds_iff_witness :
  snd (xbt_to_dds "photo.xbt" "photo.dds" photo_world) = true /\
  files (fst (xbt_to_dds "photo.xbt" "photo.dds" photo_world)) !! "photo.xbt" =
    Some (File photo_xbt None) /\
  files (fst (xbt_to_dds "tiny.xbt" "tiny.dds" tiny_world)) = files tiny_world.
Proof.
  pose proof (xbt_to_dds_succeeds_iff "photo.xbt" "photo.dds" photo_world)
    as (Hiff & Hwritten & _).
  pose proof (xbt_to_dds_succeeds_iff "tiny.xbt" "tiny.dds" tiny_world)
    as (_ & _ & Hfailed & _).
  cbn zeta in *.
  assert (snd (xbt_to_dds "photo.xbt" "photo.dds" photo_world) = true) as Hdone.
  { apply Hiff. exists (File photo_xbt None).
    repeat split; vm_compute; congruence. }
  split; [exact Hdone|]. split.
  - destruct (Hwritten (File photo_xbt None) Hdone) as [_ Hframe];
      [vm_compute; reflexivity|].
    rewrite Hframe; [vm_compute; reflexivity| |]; vm_compute; discriminate.
  - apply Hfailed. vm_compute; reflexivity.
Defined.

(** [parse_dds_header] on the samples: too short, no magic, and the
    texture. *)
Lemma parse_dds_header_outcomes_witness :
  parse_dds_header small_payload = (None, Some "DDS data too small") /\
  parse_dds_header (repeat x00 128) = (None, Some "Invalid DDS magic signature") /\
  exists info,
    parse_dds_header texture_payload = (Some info, None) /\
    DdsInfo.size info = 192 /\
    DdsInfo.width info = 512 /\ DdsInfo.height info = 256 /\
    DdsInfo.mipmap_count info = 10.
Proof.
  split; [|split].
  - apply (proj1 (parse_dds_header_outcomes small_payload)). vm_compute; reflexivity.
  - apply (proj1 (proj2 (parse_dds_header_outcomes (repeat x00 128)))).
    + vm_compute; discriminate.
    + vm_compute; discriminate.
  - destruct (proj2 (proj2 (parse_dds_header_outcomes texture_payload)))
      as (info & Hparsed & Hsize & Hwidth & Hheight & Hcount & _).
    + vm_compute; discriminate.
    + vm_compute; reflexivity.
    + exists info. split; [exact Hparsed|]. split; [exact Hsize|].
      assert (unpack_u32_le (slice texture_payload 16 20) = Ok 512) as Hw
        by (vm_compute; reflexivity).
      assert (unpack_u32_le (slice texture_payload 12 16) = Ok 256) as Hh
        by (vm_compute; reflexivity).
      assert (unpack_u32_le (slice texture_payload 28 32) = Ok 10) as Hc
        by (vm_compute; reflexivity).
      rewrite Hw in Hwidth. rewrite Hh in Hheight. rewrite Hc in Hcount.
      injection Hwidth as <-. injection Hheight as <-. injection Hcount as <-.
      repeat split.
Defined.

(** The format of the texture is the text of its FourCC. *)
Lemma parse_dds_header_format_witness :
  parse_dds_header texture_payload =
    (Some (DdsInfo.Make 512 256 "DXT5" 10 192), None) /\
  exists pf_flags,
    unpack_u32_le (slice texture_payload 80 84) = Ok pf_flags /\
    has_flag pf_flags 4 = true.
Proof.
  assert (parse_dds_header texture_payload =
            (Some (DdsInfo.Make 512 256 "DXT5" 10 192), None)) as Hparsed
    by (vm_compute; reflexivity).
  split; [exact Hparsed|].
  destruct (parse_dds_header_format texture_payload _ Hparsed)
    as (pf_flags & Hflags & _ & _ & _ & Hunknown).
  exists pf_flags. split; [exact Hflags|].
  destruct (has_flag pf_flags 4) eqn:Hfour; [reflexivity|].
  assert (unpack_u32_le (slice texture_payload 80 84) = Ok 4) as Hfour'
    by (vm_compute; reflexivity).
  rewrite Hfour' in Hflags. injection Hflags as <-. vm_compute in Hfour.
  discriminate Hfour.
Defined.


(** The texture has mipmaps; a file too short for the two integers has
    none. *)
Lemma has_mipmaps_spec_witness :
  snd (has_mipmaps "t.dds" texture_world) = true /\
  snd (has_mipmaps "p.dds" (payload_world good_sidecar)) = false.
Proof.
  pose proof (has_mipmaps_spec "t.dds" texture_world) as (_ & Hyes & _).
  pose proof (has_mipmaps_spec "p.dds" (payload_world good_sidecar)) as (_ & Hno & _).
  cbn zeta in *. split.
  - apply Hyes. exists (File texture_payload None), 659463, 10.
    repeat split; vm_compute; reflexivity.
  - destruct (snd (has_mipmaps "p.dds" (payload_world good_sidecar))) eqn:Hanswer;
      [|reflexivity].
    destruct (proj1 Hno eq_refl) as (f & flags & mip_count & Hf & Hflags & _).
    vm_compute in Hf. injection Hf as <-. vm_compute in Hflags. discriminate Hflags.
Defined.

(** The temporary file of the preview of [photo.xbt] holds its payload
    and is tracked. *)
Lemma create_temp_dds_holds_the_payload_witness :
  fst (snd (extract_dds_data "photo.xbt" photo_world)) = Some photo_payload /\
  snd (create_temp_dds mkstemp_sample [] "photo.xbt" photo_world) =
    (["/tmp/preview_k3x9.dds"], Some "/tmp/preview_k3x9.dds") /\
  file_data <$> files (fst (create_temp_dds mkstemp_sample [] "photo.xbt" photo_world))
                  !! "/tmp/preview_k3x9.dds" = Some photo_payload.
Proof.
  assert (fst (snd (extract_dds_data "photo.xbt" photo_world)) = Some photo_payload)
    as Hextracted by (vm_compute; reflexivity).
  split; [exact Hextracted|].
  pose proof (create_temp_dds_holds_the_payload mkstemp_sample [] "photo.xbt"
                photo_world) as Hcreated.
  cbv zeta in Hcreated.
  destruct (proj1 (proj2 Hcreated) photo_payload _ "/tmp/preview_k3x9.dds"
              Hextracted eq_refl) as [Hanswer Hfiles].
  split; [exact Hanswer|]. rewrite Hfiles. now rewrite lookup_insert_eq.
Defined.

(** The clean-up removes the tracked file and keeps the other. *)
Lemma cleanup_removes_what_is_tracked_witness :
  files (fst (cleanup_temp_files ["p.dds"] (payload_world good_sidecar))) !! "p.dds"
    = None /\
  files (fst (cleanup_temp_files ["p.dds"] (payload_world good_sidecar))) !! "p.xml"
    = Some good_sidecar.
Proof.
  pose proof (cleanup_removes_what_is_tracked ["p.dds"] (payload_world good_sidecar))
    as (_ & _ & Hgone & Hkept).
  cbn zeta in *. split.
  - apply Hgone. apply list_elem_of_here.
  - rewrite Hkept; [vm_compute; reflexivity|].
    intros Hin. apply list_elem_of_singleton in Hin. discriminate Hin.
Defined.

(** After the preview of [photo.xbt] and the clean-up, the files are
    those of before. *)
Lemma preview_leaves_no_file_witness :
  files photo_world !! "/tmp/preview_k3x9.dds" = None /\
  let created := create_temp_dds mkstemp_sample [] "photo.xbt" photo_world in
  files (fst (cleanup_temp_files (fst (snd created)) (fst created))) = files photo_world.
Proof.
  assert (files photo_world !! "/tmp/preview_k3x9.dds" = None) as Hfree
    by (vm_compute; reflexivity).
  split; [exact Hfree|].
  apply (preview_leaves_no_file mkstemp_sample [] "photo.xbt" "/tmp/preview_k3x9.dds"
           photo_world _ eq_refl Hfree eq_refl).
  reflexivity.
Defined.

(** The preview of the wrapped texture reads the header of the
    texture. *)
Lemma preview_reads_the_payload_header_witness :
  fst (snd (extract_dds_data "t.xbt" texture_world)) = Some texture_payload /\
  exists info,
    parse_dds_header texture_payload = (Some info, None) /\
    snd (parse_dds_header_from_file "/tmp/preview_k3x9.dds"
           (fst (create_temp_dds mkstemp_sample [] "t.xbt" texture_world))) =
      (Some (DdsInfo.Make (DdsInfo.width info) (DdsInfo.height info)
               (DdsInfo.format info) (DdsInfo.mipmap_count info) 128), None).
Proof.
  assert (fst (snd (extract_dds_data "t.xbt" texture_world)) = Some texture_payload)
    as Hextracted by (vm_compute; reflexivity).
  split; [exact Hextracted|].
  apply (preview_reads_the_payload_header mkstemp_sample [] "t.xbt"
           "/tmp/preview_k3x9.dds" texture_world _ texture_payload eq_refl Hextracted).
  vm_compute; discriminate.
Defined.

Lemma append_nil_r (s : string) : s +:+ EmptyString = s.
Proof.
  induction s as [|c s IH]; [reflexivity|].
  change (String c (s +:+ EmptyString) = String c s). now f_equal.
Qed.

(** The search on the sample walk: three paths, in order; the text file
    is left out and the extension in upper case is taken. *)
Lemma find_files_in_folder_sorted_and_complete_witness :
  find_files_in_folder sample_walk "/in" [".xbt"; ".dds"] =
    ["/in/a.dds"; "/in/b.XBT"; "/in/sub/c.xbt"] /\
  forall l,
    l ≡ₚ ["/in/sub/c.xbt"; "/in/a.dds"; "/in/b.XBT"] ->
    StronglySorted str_le l ->
    l = ["/in/a.dds"; "/in/b.XBT"; "/in/sub/c.xbt"].
Proof.
  assert (find_files_in_folder sample_walk "/in" [".xbt"; ".dds"] =
            ["/in/a.dds"; "/in/b.XBT"; "/in/sub/c.xbt"]) as Hfound
    by (vm_compute; reflexivity).
  split; [exact Hfound|].
  intros l Hperm Hsorted. rewrite <- Hfound.
  apply (proj2 (proj2 (find_files_in_folder_sorted_and_complete sample_walk "/in"
                         [".xbt"; ".dds"]))); [|exact Hsorted].
  rewrite Hfound, Hperm.
  apply (Permutation_cons_append ["/in/a.dds"; "/in/b.XBT"] "/in/sub/c.xbt").
Defined.

(** The batch scenario: of the five paths found, three are wrapped
    files and two are payload files, and the summary says so. *)
Lemma found_files_are_split_by_kind_witness :
  In "   Files found: 5 (3 XBT, 2 DDS)"
     (log (fst (convert_batch "auto" false false "/tool" texconv_absent texconv_unused
                  fallback_unused scenario_walk progress_shown progress_shown
                  "/in" scenario_world))).
Proof.
  pose proof (@found_files_are_split_by_kind posix_OsPath "auto" false false "/tool"
                texconv_absent texconv_unused fallback_unused scenario_walk
                progress_shown progress_shown "/in"
                ["/in/a.xbt"; "/in/b.xbt"; "/in/c.xbt"; "/in/p.dds"; "/in/q.dds"]
                scenario_world
                (add_log "🔍 Step 1: Scanning for files..." scenario_world)) as H.
  premise H ltac:(left; reflexivity).
  premise H ltac:(reflexivity).
  premise H ltac:(discriminate).
  premise H ltac:(intros p Hp; repeat destruct Hp as [<- | Hp];
                  try (vm_compute; reflexivity); destruct Hp).
  cbn zeta in H.
  premise H ltac:(intros _; reflexivity).
  premise H ltac:(reflexivity).
  premise H ltac:(intros _; eexists; vm_compute; reflexivity).
  premise H ltac:(eexists; vm_compute; reflexivity).
  exact (proj2 (proj2 H)).
Defined.

(** The base name of [posixpath] holds no separator, nor does what
    [splitext] leaves of it. *)
Lemma rev_until_sep_no_sep (l : list ascii) :
  Forall (fun c => posixpath.is_sep c = false) (posixpath.rev_until_sep l).
Proof.
  induction l as [|c l IH]; cbn [posixpath.rev_until_sep]; [constructor|].
  destruct (posixpath.is_sep c) eqn:E; [constructor|]. now constructor.
Qed.

Lemma no_sep_rev (l : list ascii) :
  Forall (fun c => posixpath.is_sep c = false) l ->
  Forall (fun c => posixpath.is_sep c = false) (rev l).
Proof.
  intros Hl. apply List.Forall_forall. intros x Hx. apply in_rev in Hx.
  revert x Hx. now apply List.Forall_forall.
Qed.

Lemma posix_basename_no_sep (p : string) :
  Forall (fun c => posixpath.is_sep c = false)
    (list_ascii_of_string (posixpath.basename p)).
Proof.
  unfold posixpath.basename. rewrite list_ascii_of_string_of_list_ascii.
  apply no_sep_rev, rev_until_sep_no_sep.
Qed.

Lemma split_rev_root_no_sep (acc l root ext : list ascii) :
  Forall (fun c => posixpath.is_sep c = false) l ->
  posixpath.split_rev acc l = Some (root, ext) ->
  Forall (fun c => posixpath.is_sep c = false) root.
Proof.
  revert acc. induction l as [|c l IH]; intros acc Hl H;
    cbn [posixpath.split_rev] in H; [discriminate|].
  inversion Hl as [|? ? Hc Hl']; subst.
  destruct (posixpath.is_sep c); [discriminate|].
  destruct (posixpath.is_dot c).
  - destruct (forallb posixpath.is_dot (posixpath.rev_until_sep l)); [discriminate|].
    injection H as <- <-. now apply no_sep_rev.
  - now apply (IH (c :: acc)).
Qed.

Lemma posix_splitext_root_no_sep (p : string) :
  Forall (fun c => posixpath.is_sep c = false) (list_ascii_of_string p) ->
  Forall (fun c => posixpath.is_sep c = false)
    (list_ascii_of_string (fst (posixpath.splitext p))).
Proof.
  intros Hp. unfold posixpath.splitext.
  destruct (posixpath.split_rev [] (rev (list_ascii_of_string p)))
    as [[root ext]|] eqn:E; cbn [fst]; [|exact Hp].
  rewrite list_ascii_of_string_of_list_ascii.
  apply (split_rev_root_no_sep [] (rev (list_ascii_of_string p)) root ext);
    [now apply no_sep_rev|exact E].
Qed.

(** A name that does not start with a separator is joined under the
    directory. *)
Lemma posix_join_relative (a b : string) :
  (forall c s, b = String c s -> posixpath.is_sep c = false) ->
  a <> EmptyString ->
  posixpath.join a b = a +:+ b \/ posixpath.join a b = a +:+ "/" +:+ b.
Proof.
  intros Hb Ha. unfold posixpath.join.
  assert (exists d l, rev (list_ascii_of_string a) = d :: l) as (d & l & ->).
  { destruct (rev (list_ascii_of_string a)) as [|d l] eqn:E; [|now exists d, l].
    exfalso. apply Ha. apply (f_equal (@rev ascii)) in E. rewrite rev_involutive in E.
    destruct a; [reflexivity|discriminate E]. }
  destruct b as [|c s].
  - destruct (posixpath.is_sep d); [left; now rewrite append_nil_r|now right].
  - rewrite (Hb c s eq_refl). destruct (posixpath.is_sep d); [now left|now right].
Qed.

Lemma staged_name_relative (f : string) (c : ascii) (s : string) :
  posixpath.basename f = String c s -> posixpath.is_sep c = false.
Proof.
  intros E. pose proof (posix_basename_no_sep f) as H. rewrite E in H.
  now inversion H.
Qed.

Lemma output_name_relative (f ext : string) (c : ascii) (s : string) :
  In ext [".dds"; ".xbt"; ".xml"] ->
  fst (posixpath.splitext (posixpath.basename f)) +:+ ext = String c s ->
  posixpath.is_sep c = false.
Proof.
  intros Hext E.
  pose proof (posix_splitext_root_no_sep _ (posix_basename_no_sep f)) as H.
  destruct (fst (posixpath.splitext (posixpath.basename f))) as [|x root].
  - cbn [In] in Hext. destruct Hext as [<- | [<- | [<- | []]]];
      injection E as <- _; reflexivity.
  - injection E as <- _. now inversion H.
Qed.

(** The batch run on the scenario leaves the wrapped file of the folder
    where it is, and makes no directory but its two. *)
Lemma batch_footprint_witness :
  let after :=
    fst (convert_batch "auto" false false "/tool" texconv_absent texconv_unused
           fallback_unused scenario_walk progress_shown progress_shown
           "/in" scenario_world) in
  files after !! "/in/a.xbt" = Some (File first_xbt None) /\
  dirs after ⊆ ∅ ∪ {["/tool/extracted_xbt_files"; "/tool/converted_dds_files"]}.
Proof.
  cbn zeta.
  assert (forall w0,
            let searched := fst (scenario_walk "/in" (extensions_of_type "auto") w0) in
            files searched = files w0 /\ dirs searched = dirs w0) as Hsearch
    by (intros w0; split; reflexivity).
  pose proof (@batch_footprint posix_OsPath "auto" false false "/tool" texconv_absent
                texconv_unused fallback_unused scenario_walk progress_shown
                progress_shown "/in" scenario_world eq_refl Hsearch) as Hfootprint.
  cbv zeta in Hfootprint.
  pose proof (proj1 Hfootprint) as Hfiles. pose proof (proj2 (proj2 Hfootprint)) as Hdirs.
  split; [|exact Hdirs].
  rewrite Hfiles; [vm_compute; reflexivity| |].
  - intros f.
    change (posixpath.join "/tool/extracted_xbt_files" (posixpath.basename f)
            <> "/in/a.xbt").
    destruct (posix_join_relative "/tool/extracted_xbt_files" (posixpath.basename f))
      as [-> | ->]; [apply staged_name_relative|discriminate|discriminate|discriminate].
  - intros f ext Hext.
    change (posixpath.join "/tool/converted_dds_files"
              (fst (posixpath.splitext (posixpath.basename f)) +:+ ext) <> "/in/a.xbt").
    destruct (posix_join_relative "/tool/converted_dds_files"
                (fst (posixpath.splitext (posixpath.basename f)) +:+ ext))
      as [-> | ->];
      [intros c s; now apply output_name_relative|discriminate|discriminate|discriminate].
Defined.

(** The conversion of [photo.xbt] leaves [photo.xbt] as it is and makes
    no directory. *)
Lemma single_file_footprint_witness :
  let after :=
    fst (convert_single_file "auto" false texconv_absent texconv_unused fallback_unused
           "photo.xbt" photo_world) in
  files after !! "photo.xbt" = Some (File photo_xbt None) /\ dirs after = ∅.
Proof.
  cbn zeta.
  pose proof (@single_file_footprint posix_OsPath "auto" false texconv_absent
                texconv_unused fallback_unused "photo.xbt" photo_world eq_refl)
    as Hfootprint.
  cbv zeta in Hfootprint.
  pose proof (proj1 (proj2 Hfootprint)) as Hdirs.
  pose proof (proj1 (proj2 (proj2 Hfootprint)) "photo.xbt") as Hkept.
  clear Hfootprint. split; [|exact Hdirs].
  rewrite Hkept; clear Hkept Hdirs.
  - vm_compute; reflexivity.
  - right. split; [reflexivity|]. exists (File photo_xbt None).
    split; vm_compute; reflexivity.
  - vm_compute. intros Heq; discriminate Heq.
  - vm_compute. intros Heq; discriminate Heq.
Defined.

(** A file of sixteen bytes of neither kind is refused. *)
Lemma single_file_of_unknown_type_witness :
  let refused :=
    convert_single_file "auto" false texconv_absent texconv_unused fallback_unused
      "p.dds" not_a_payload_world in
  snd refused = false /\ files (fst refused) = files not_a_payload_world.
Proof.
  cbn zeta.
  destruct (@single_file_of_unknown_type posix_OsPath "auto" false texconv_absent
              texconv_unused fallback_unused "p.dds" not_a_payload_world eq_refl)
    as (Hrefused & Hfiles & _).
  - intros f Hf. vm_compute in Hf. injection Hf as <-. split; vm_compute; reflexivity.
  - split; [exact Hrefused|exact Hfiles].
Defined.

(** [photo.xbt] is split into [photo.dds] and [photo.xml], and the
    conversion of [photo.dds] writes [photo.xbt] back. *)
Lemma single_file_round_trip_witness :
  let split :=
    convert_single_file "auto" false texconv_absent texconv_unused fallback_unused
      "photo.xbt" photo_world in
  let joined :=
    convert_single_file "auto" false texconv_absent texconv_unused fallback_unused
      "photo.dds" (fst split) in
  snd split = true /\ snd joined = true /\
  file_data <$> files (fst split) !! "photo.dds" = Some photo_payload /\
  file_data <$> files (fst joined) !! "photo.xbt" = Some photo_xbt.
Proof.
  cbn zeta.
  assert (files photo_world !! "photo.xbt" = Some (File photo_xbt None)) as Hf
    by (vm_compute; reflexivity).
  assert (16 <= len photo_xbt) as Hlen by (vm_compute; discriminate).
  assert (startswith photo_xbt TBX_MAGIC = true) as Hmagic by reflexivity.
  assert (bytes_find photo_xbt DDS_MAGIC <> -1) as Hfound by (vm_compute; discriminate).
  assert (embedded_path_legal (slice_to photo_xbt (bytes_find photo_xbt DDS_MAGIC)) = true)
    as Hlegal by (vm_compute; reflexivity).
  assert (fst (os_path_splitext (fst (os_path_splitext "photo.xbt") +:+ ".dds")) =
          fst (os_path_splitext "photo.xbt")) as Hsplit by (vm_compute; reflexivity).
  pose proof (@single_file_round_trip posix_OsPath "auto" false texconv_absent
                texconv_unused fallback_unused "photo.xbt" photo_world
                (File photo_xbt None) eq_refl eq_refl Hf Hlen Hmagic Hfound Hlegal Hsplit)
    as (Hdone & Hjoined & Hpayload & Hback).
  split; [exact Hdone|]. split; [exact Hjoined|]. split.
  - refine (eq_trans Hpayload _). vm_compute; reflexivity.
  - exact Hback.
Defined.

(** With overwriting disabled, the two files converted before are
    skipped. *)
Lemma existing_output_is_kept_witness :
  convert_file_in_batch "auto" false false texconv_absent texconv_unused
    fallback_unused progress_shown "/tool/converted_dds_files" 2 (Counters 0 0 0) 0
    "/in/x.xbt" converted_before_world =
    (add_log "⚠️ Skipping existing file: x.dds" converted_before_world, Counters 0 1 0) /\
  convert_file_in_batch "auto" false false texconv_absent texconv_unused
    fallback_unused progress_shown "/tool/converted_dds_files" 2 (Counters 0 1 0) 1
    "/in/p.dds" converted_before_world =
    (add_log "⚠️ Skipping existing file: p.xbt" converted_before_world, Counters 0 2 0).
Proof.
  split.
  - apply (proj1 (@existing_output_is_kept posix_OsPath "auto" false false
                    texconv_absent texconv_unused fallback_unused progress_shown
                    "/tool/converted_dds_files" "/in/x.xbt" 2 0 (Counters 0 0 0)
                    converted_before_world eq_refl eq_refl)).
    + right. split; [reflexivity|]. exists (File first_xbt None).
      split; vm_compute; reflexivity.
    + vm_compute; reflexivity.
  - apply (proj2 (@existing_output_is_kept posix_OsPath "auto" false false
                    texconv_absent texconv_unused fallback_unused progress_shown
                    "/tool/converted_dds_files" "/in/p.dds" 2 1 (Counters 0 1 0)
                    converted_before_world eq_refl eq_refl)).
    + right. split; [reflexivity|]. exists (File small_payload None).
      split; vm_compute; reflexivity.
    + vm_compute; reflexivity.
    + vm_compute; reflexivity.
Defined.

(** Two files found, two files converted. *)
Lemma every_found_file_is_processed_witness :
  let found := ["/in/a.xbt"; "/in/p.dds"] in
  len (files_to_convert_of "auto" "/tool/extracted_xbt_files"
         (List.filter (fun f => lower_endswith f ".xbt") found)
         (List.filter (fun f => lower_endswith f ".dds") found)) = len found.
Proof.
  cbn zeta.
  apply (@every_found_file_is_processed posix_OsPath "auto" false false "/tool"
           texconv_absent texconv_unused fallback_unused progress_shown
           "/tool/extracted_xbt_files" ["/in/a.xbt"; "/in/p.dds"]).
  - now left.
  - intros p [<- | [<- | []]]; vm_compute; reflexivity.
Defined.

(** The batch scenario: the three wrapped files found are converted
    from their staged copies, the two payload files from where they
    are, and the five of them are counted. *)
Lemma searched_files_are_all_processed_witness :
  files_to_convert_of "auto" "/tool/extracted_xbt_files"
    ["/in/a.xbt"; "/in/b.xbt"; "/in/c.xbt"] ["/in/p.dds"; "/in/q.dds"] =
    ["/tool/extracted_xbt_files/a.xbt"; "/tool/extracted_xbt_files/b.xbt";
     "/tool/extracted_xbt_files/c.xbt"; "/in/p.dds"; "/in/q.dds"] /\
  exists w',
    convert_batch "auto" false false "/tool" texconv_absent texconv_unused
      fallback_unused scenario_walk progress_shown progress_shown
      "/in" scenario_world = (w', true) /\
    In "   Files processed: 5" (log w').
Proof.
  pose proof (@searched_files_are_all_processed posix_OsPath "auto" false false "/tool"
                texconv_absent texconv_unused fallback_unused scenario_walk
                progress_shown progress_shown "/in"
                ["/in/a.xbt"; "/in/b.xbt"; "/in/c.xbt"; "/in/p.dds"; "/in/q.dds"]
                scenario_world
                (add_log "🔍 Step 1: Scanning for files..." scenario_world)) as H.
  premise H ltac:(left; reflexivity).
  premise H ltac:(reflexivity).
  premise H ltac:(discriminate).
  premise H ltac:(intros p Hp; repeat destruct Hp as [<- | Hp];
                  try (vm_compute; reflexivity); destruct Hp).
  cbn zeta in H.
  premise H ltac:(intros _; reflexivity).
  premise H ltac:(reflexivity).
  premise H ltac:(intros _; eexists; vm_compute; reflexivity).
  premise H ltac:(eexists; vm_compute; reflexivity).
  destruct H as (Hlist & _ & _ & _ & w1 & w' & Hentry & Hrun & _ & _ & Hline).
  split; [refine (eq_trans Hlist _); vm_compute; reflexivity|].
  vm_compute in Hentry. injection Hentry as <-.
  exists w'. split; [refine (eq_trans Hrun _); vm_compute; reflexivity|].
  exact Hline.
Defined.

(** A payload without its sidecar: the read of the sidecar fails, and so
    does the join. *)
Lemma load_header_from_xml_unreadable_witness :
  load_header_from_xml "q.xml" lonely_payload_world =
    (add_log "❌ Error loading header from XML: XML header file not found: q.xml"
       lonely_payload_world, None) /\
  snd (dds_to_xbt false texconv_absent texconv_unused fallback_unused
         "q.dds" "q.xbt" lonely_payload_world) = false.
Proof.
  pose proof (@load_header_from_xml_unreadable posix_OsPath false texconv_absent
                texconv_unused fallback_unused "q.xml" lonely_payload_world)
    as (Hmissing & _ & Hjoin).
  cbn zeta in *. split.
  - apply Hmissing. vm_compute; reflexivity.
  - apply (Hjoin "q.dds" "q.xbt" (File small_payload None)).
    + reflexivity.
    + vm_compute; reflexivity.
    + vm_compute; reflexivity.
    + vm_compute; reflexivity.
Defined.
